(** * Trust-Mart backend: seller scoring and escrow orchestration

    A shallow embedding of the parts of the Trust-Mart backend that the
    specification's properties speak about:

    - [SellerScoringService.js]: the weighted aggregation
      ([calculateWeightedScore]), the tier table ([scoreTiers],
      [getScoreTier]), the six analyzers with their [try]/[catch]
      wrappers, [calculateSellerScore] and the scheduler timer;
    - [BehaviorMonitoringService.js]: [calculateBehaviorScore], the two
      risk scales, the four behaviour analyzers, [determineActions],
      [executeActions] and [monitorUserBehavior];
    - [FraudDetectionService.js]: [analyzeProduct] and its four checks;
    - [EscrowTransactionService.js]: [createProductEscrow],
      [releaseEscrow], [raiseDispute], [rollbackOrder] and
      [rollbackOrderStatus] over a transactional store.

    Conventions.

    - JavaScript numbers are an abstract arithmetic ([Arith]) where a
      property needs no arithmetic law, and exact rationals ([Q]) where
      the source's decimal literals are compared.  The service computes
      in binary64, where a sum or a mean can differ from the rational
      in the last place: what is stated of a computed value is what
      rounding cannot change (a bound that comes from a clamp or from
      monotone operations, the agreement of a label with the score it
      is read from), and the bound on the aggregate is proved for every
      arithmetic with monotone operations.  A division by zero is
      [Infinity] or [NaN] as in JavaScript where the divisor can be
      zero.
    - A rejected promise or a thrown [Error] is the [Throw] case of
      [result], carrying the message.
    - The collaborators of a request (the payment service, the content
      store, the id generators, the data fetches of the analyzers) are
      inputs: an operation is a function of the stored state and of what
      its collaborators answer.
    - The store is reliable: a query or a write fails only on a unique
      column, on a finished transaction handle, or, where the database
      checks them, on a value outside an ENUM column's declared values.
      Row ids are compared as integers.
    - Timestamps, badges, [details] objects and log lines are
      left out of the records; they never influence control flow.  A
      comparison with the clock ([createdAt] within the last day, the
      age of an account) is an input.
    - Descriptions and names are ASCII strings. *)

From Stdlib Require Import List String Bool ZArith QArith Lia Lqa DecimalString.
Import ListNotations.
Open Scope string_scope.

Set Implicit Arguments.

(** ** JavaScript values and exceptions *)

(** What a field such as [score] can hold: the services only ever test
    [typeof x === 'number']. *)
Inductive jsval (num : Type) : Type :=
| JNumber (x : num)
| JString (s : string)
| JNull
| JUndefined.
Arguments JNumber {num} x.
Arguments JString {num} s.
Arguments JNull {num}.
Arguments JUndefined {num}.

(** A settled promise or a finished [try] body: a value, or a thrown
    [Error] with its message. *)
Inductive result (A : Type) : Type :=
| Ok (a : A)
| Throw (message : string).
Arguments Ok {A} a.
Arguments Throw {A} message.

Definition rbind {A B} (r : result A) (k : A -> result B) : result B :=
  match r with
  | Ok a => k a
  | Throw m => Throw m
  end.

(** [try { body } catch (error) { handler(error.message) }] *)
Definition try_catch {A} (body : result A) (handler : string -> result A)
  : result A :=
  match body with
  | Ok a => Ok a
  | Throw m => handler m
  end.

(** A [try] whose [catch] returns a value: the function cannot reject. *)
Definition try_or {A} (body : result A) (handler : string -> A) : A :=
  match body with
  | Ok a => a
  | Throw m => handler m
  end.

(** ** Arithmetic of JavaScript numbers *)

Class Arith (num : Type) : Type := {
  nlit : Q -> num;               (* a decimal literal of the source *)
  nadd : num -> num -> num;      (* +  *)
  nmul : num -> num -> num;      (* *  *)
  ndiv : num -> num -> num;      (* /  *)
  ngt : num -> num -> bool       (* >  *)
}.

#[global] Instance Arith_Q : Arith Q := {
  nlit := fun q => q;
  nadd := Qplus;
  nmul := Qmult;
  ndiv := Qdiv;
  ngt := fun a b => negb (Qle_bool a b)
}.

(** ** Weighted aggregation *)

Module Aggregation.
Section Generic.
Context {num : Type} `{Arith num}.

(** One analyzer's answer, as [calculateWeightedScore] reads it. *)
Record partial : Type := { score : jsval num; reason : string }.

(** [this.scoringWeights], in the insertion order that
    [Object.entries] walks. *)
Definition scoringWeights : list (string * num) :=
  [ ("socialVerification", nlit 0.25);
    ("legitimacyScore", nlit 0.20);
    ("behaviorScore", nlit 0.20);
    ("fraudScore", nlit 0.15);
    ("transactionHistory", nlit 0.10);
    ("productQuality", nlit 0.10) ].

(** The [scores] object: [scores[factor]] is [None] when the key is
    absent or holds a falsy value. *)
Definition scores_obj : Type := string -> option partial.

(** The accumulator pair [(totalScore, totalWeight)]. *)
Definition acc : Type := (num * num)%type.

(** The guard [scores[factor] && typeof scores[factor].score === 'number']. *)
Definition numeric_score (p : option partial) : option num :=
  match p with
  | Some {| score := JNumber x |} => Some x
  | _ => None
  end.

(** The body of the [forEach] callback. *)
Definition weighted_step (scores : scores_obj) (a : acc)
           (entry : string * num) : acc :=
  let '(factor, weight) := entry in
  match numeric_score (scores factor) with
  | Some s => (nadd (fst a) (nmul s weight), nadd (snd a) weight)
  | None => a
  end.

Definition finish (a : acc) : num :=
  if ngt (snd a) (nlit 0) then ndiv (fst a) (snd a) else nlit 0.5.

Definition calculateWeightedScore (scores : scores_obj) : num :=
  finish (fold_left (weighted_step scores) scoringWeights (nlit 0, nlit 0)).

(** *** [BehaviorMonitoringService.calculateBehaviorScore] *)

Inductive category : Type := listing | communication | transaction | account.

(** The local [weights] table of [calculateBehaviorScore]. *)
Definition behaviorWeights (c : category) : num :=
  match c with
  | listing => nlit 0.3
  | communication => nlit 0.25
  | transaction => nlit 0.25
  | account => nlit 0.2
  end.

Record analysis : Type :=
  { a_score : jsval num; risk : string; patterns : list string }.

Definition numeric_analysis (a : option analysis) : option num :=
  match a with
  | Some {| a_score := JNumber x |} => Some x
  | _ => None
  end.

Definition behavior_step (a : acc) (entry : category * option analysis) : acc :=
  let '(c, an) := entry in
  match numeric_analysis an with
  | Some s => (nadd (fst a) (nmul s (behaviorWeights c)),
               nadd (snd a) (behaviorWeights c))
  | None => a
  end.

(** [analyses] is the list of [Object.entries(analyses)]; the only
    caller passes the four categories. *)
Definition calculateBehaviorScore
           (analyses : list (category * option analysis)) : num :=
  finish (fold_left behavior_step analyses (nlit 0, nlit 0)).

(** *** The weighted mean the specification names *)

(** Σ(value * weight) and Σ(weight) over a list of (value, weight)
    pairs, summed left to right from zero. *)
Definition sum_weighted (l : list (num * num)) : num :=
  fold_left (fun t vw => nadd t (nmul (fst vw) (snd vw))) l (nlit 0).

Definition sum_weights (l : list (num * num)) : num :=
  fold_left (fun t vw => nadd t (snd vw)) l (nlit 0).

(** The mean of a list of (value, weight) pairs, with the neutral
    answer when the weights do not sum to something positive. *)
Definition weighted_mean (ps : list (num * num)) : num :=
  if ngt (sum_weights ps) (nlit 0)
  then ndiv (sum_weighted ps) (sum_weights ps)
  else nlit 0.5.

(** The (value, weight) pairs of the partial scores that are present
    and numeric, in table order. *)
Fixpoint present (scores : scores_obj) (table : list (string * num))
  : list (num * num) :=
  match table with
  | [] => []
  | (factor, weight) :: rest =>
      match numeric_score (scores factor) with
      | Some s => (s, weight) :: present scores rest
      | None => present scores rest
      end
  end.

Fixpoint present_analyses (analyses : list (category * option analysis))
  : list (num * num) :=
  match analyses with
  | [] => []
  | (c, an) :: rest =>
      match numeric_analysis an with
      | Some s => (s, behaviorWeights c) :: present_analyses rest
      | None => present_analyses rest
      end
  end.

(** Marking the analyzers in [failed] as failed: their entries vanish
    from the object handed to the aggregation. *)
Definition mark_failed (failed : list string) (scores : scores_obj)
  : scores_obj :=
  fun factor =>
    if existsb (String.eqb factor) failed then None else scores factor.

End Generic.
End Aggregation.

(** From here on numbers are exact rationals. *)
Definition partialQ : Type := @Aggregation.partial Q.

Definition qmin (a b : Q) : Q := if Qle_bool a b then a else b.
Definition qmax (a b : Q) : Q := if Qle_bool a b then b else a.
Definition qgt (a b : Q) : bool := negb (Qle_bool a b).
Definition qlt (a b : Q) : bool := negb (Qle_bool b a).
Definition qge (a b : Q) : bool := Qle_bool b a.
Definition qsum (l : list Q) : Q := fold_left Qplus l 0%Q.
Definition qlen {A} (l : list A) : Q := inject_Z (Z.of_nat (List.length l)).

(** ** Score tiers *)

Module Tiers.

Record tierConfig : Type :=
  { min : Q; max : Q; label : string; color : string }.

(** [this.scoreTiers], in declaration order. *)
Definition scoreTiers : list (string * tierConfig) :=
  [ ("excellent", {| min := 0.9; max := 1.0; label := "Excellent"; color := "#10B981" |});
    ("veryGood", {| min := 0.8; max := 0.89; label := "Very Good"; color := "#3B82F6" |});
    ("good", {| min := 0.7; max := 0.79; label := "Good"; color := "#8B5CF6" |});
    ("fair", {| min := 0.6; max := 0.69; label := "Fair"; color := "#F59E0B" |});
    ("poor", {| min := 0.4; max := 0.59; label := "Poor"; color := "#EF4444" |});
    ("veryPoor", {| min := 0.0; max := 0.39; label := "Very Poor"; color := "#DC2626" |}) ].

(** The object [getScoreTier] returns.  Inside the loop it carries the
    key as [tier]; the fall-through returns [this.scoreTiers.veryPoor]
    itself, which has no [tier] property. *)
Record scoreTier : Type :=
  { tier : option string; st_label : string; st_color : string;
    st_min : Q; st_max : Q }.

Definition in_band (c : tierConfig) (score : Q) : bool :=
  Qle_bool (min c) score && Qle_bool score (max c).

Fixpoint first_band (entries : list (string * tierConfig)) (score : Q)
  : option scoreTier :=
  match entries with
  | [] => None
  | (name, c) :: rest =>
      if in_band c score
      then Some {| tier := Some name; st_label := label c; st_color := color c;
                   st_min := min c; st_max := max c |}
      else first_band rest score
  end.

Definition veryPoor_config : tierConfig :=
  {| min := 0.0; max := 0.39; label := "Very Poor"; color := "#DC2626" |}.

Definition getScoreTier (score : Q) : scoreTier :=
  match first_band scoreTiers score with
  | Some t => t
  | None => {| tier := None; st_label := label veryPoor_config;
               st_color := color veryPoor_config;
               st_min := min veryPoor_config; st_max := max veryPoor_config |}
  end.

(** The specification's ordered enumeration of tiers. *)
Inductive Tier : Type := VeryPoor | Poor | Fair | Good | VeryGood | Excellent.

Definition rank (t : Tier) : nat :=
  match t with
  | VeryPoor => 0 | Poor => 1 | Fair => 2 | Good => 3 | VeryGood => 4
  | Excellent => 5
  end.

Definition tier_of_label (l : string) : Tier :=
  if l =? "Excellent" then Excellent
  else if l =? "Very Good" then VeryGood
  else if l =? "Good" then Good
  else if l =? "Fair" then Fair
  else if l =? "Poor" then Poor
  else VeryPoor.

(** The tier a score is shown with. *)
Definition tierOf (score : Q) : Tier := tier_of_label (st_label (getScoreTier score)).

(** The bands a score lies in (by name). *)
Definition bands_of (score : Q) : list string :=
  map fst (filter (fun e => in_band (snd e) score) scoreTiers).

End Tiers.

(** ** The six analyzers of [SellerScoringService] *)

Module Analyzers.
Import Aggregation.

Local Open Scope Q_scope.

Definition mkPartial (s : Q) (r : string) : partialQ :=
  {| score := JNumber s; reason := r |}.

Definition string_of_nat (n : nat) : string :=
  DecimalString.NilZero.string_of_uint (Nat.to_uint n).

Fixpoint lookup {A} (k : string) (l : list (string * A)) : option A :=
  match l with
  | [] => None
  | (k', v) :: rest => if (k =? k')%string then Some v else lookup k rest
  end.

(** *** Social verification *)

Record linkedAccount : Type :=
  { platform : string; verificationScore : option Q }.

(** What [socialLinking.getUserLinkedAccounts] resolves to. *)
Record linkedAccounts : Type :=
  { success : bool; accounts : list linkedAccount }.

Definition platformWeights : list (string * Q) :=
  [ ("facebook", 0.1); ("instagram", 0.15); ("whatsapp", 0.1);
    ("contact", 0.05) ]%string.

(** [new Set(names)]: first occurrences, in insertion order. *)
Fixpoint dedupe (seen names : list string) : list string :=
  match names with
  | [] => []
  | n :: rest =>
      if existsb (String.eqb n) seen then dedupe seen rest
      else n :: dedupe (n :: seen) rest
  end.

Definition calculatePlatformBonus (accs : list linkedAccount) : Q :=
  let linkedPlatforms := dedupe [] (map platform accs) in
  let bonus :=
    fold_left (fun b p => match lookup p platformWeights with
                          | Some w => b + w
                          | None => b
                          end) linkedPlatforms 0 in
  qmin bonus 0.2.

Definition social_step (a : Q * nat) (acct : linkedAccount) : Q * nat :=
  match verificationScore acct with
  | Some v => if qgt v 0.5 then (fst a + v, S (snd a)) else a
  | None => a
  end.

Definition calculateSocialVerificationScore (fetch : result linkedAccounts)
  : partialQ :=
  try_or
    (rbind fetch (fun la =>
       if negb (success la) || (List.length (accounts la) =? 0)%nat
       then Ok (mkPartial 0.2 "No social accounts linked")
       else
         let accs := accounts la in
         let '(totalScore, verifiedAccounts) := fold_left social_step accs (0, 0%nat) in
         let avgScore :=
           if (0 <? verifiedAccounts)%nat
           then totalScore / inject_Z (Z.of_nat verifiedAccounts) else 0 in
         let platformBonus := calculatePlatformBonus accs in
         let finalScore := qmin (avgScore + platformBonus) 1.0 in
         Ok (mkPartial finalScore
               (if (0 <? verifiedAccounts)%nat
                then (string_of_nat verifiedAccounts ++ " verified accounts")%string
                else "No verified accounts"))))
    (fun _ => mkPartial 0.3 "Social verification analysis failed").

(** *** Legitimacy and behaviour (stored assessments) *)

(** The columns the two analyzers read from the user row; a falsy
    column is [None]. *)
Record userAssessment : Type :=
  { legitimacyScore : option Q; legitimacyRiskLevel : string;
    behaviorScore : option Q; behaviorRiskLevel : string }.

Definition calculateLegitimacyScore (fetch : result (option userAssessment))
  : partialQ :=
  try_or
    (rbind fetch (fun user =>
       match user with
       | Some {| legitimacyScore := Some s; legitimacyRiskLevel := riskLevel |} =>
           Ok (mkPartial s ("Legitimacy: " ++ riskLevel ++ " risk")%string)
       | _ => Ok (mkPartial 0.5 "Legitimacy not assessed")
       end))
    (fun _ => mkPartial 0.5 "Legitimacy analysis failed").

Definition calculateBehaviorScore (fetch : result (option userAssessment))
  : partialQ :=
  try_or
    (rbind fetch (fun user =>
       match user with
       | Some {| behaviorScore := Some s; behaviorRiskLevel := riskLevel |} =>
           Ok (mkPartial s ("Behavior: " ++ riskLevel ++ " risk")%string)
       | _ => Ok (mkPartial 0.5 "Behavior not assessed")
       end))
    (fun _ => mkPartial 0.5 "Behavior analysis failed").

(** *** Fraud *)

Record productRow : Type :=
  { p_status : string; ai_verification_score : option Q;
    p_price : Q; p_quantity : Z }.

(** [analyzeProduct] is [FraudDetectionService.analyzeProduct] reduced
    to the [score] it resolves to; it catches its own errors. *)
Definition calculateFraudScore (fetch : result (list productRow))
           (analyzeProduct : productRow -> Q) : partialQ :=
  try_or
    (rbind fetch (fun products =>
       if (List.length products =? 0)%nat
       then Ok (mkPartial 0.7 "No products to analyze")
       else
         let fraudAnalyses := map analyzeProduct products in
         let avgFraudScore := qsum fraudAnalyses / qlen fraudAnalyses in
         Ok (mkPartial avgFraudScore
               (if qgt avgFraudScore 0.7 then "Low fraud risk"
                else "Fraud risk detected"))))
    (fun _ => mkPartial 0.5 "Fraud analysis failed").

(** *** Transaction history (simulated data) *)

(** The draws of [Math.random] that enter the score. *)
Record mockTransactionData : Type :=
  { totalTransactions : Q; successfulTransactions : Q; totalVolume : Q;
    disputeRate : Q; averageRating : Q }.

Definition calculateTransactionScore (d : mockTransactionData) : partialQ :=
  let score := 0.8 in
  let successRate := successfulTransactions d / totalTransactions d in
  let score := score + (successRate - 0.8) * 0.4 in
  let volumeScore := qmin (totalVolume d / 20000) 1.0 in
  let score := score + volumeScore * 0.2 in
  let score :=
    if qgt (disputeRate d) 0.02 then score - (disputeRate d - 0.02) * 10
    else score in
  let ratingScore := (averageRating d - 1) / 4 in
  let score := score + ratingScore * 0.2 in
  mkPartial (qmax 0 (qmin score 1.0))
            (if qgt successRate 0.9 then "Excellent transaction history"
             else "Good transaction history").

(** *** Product quality *)

Definition list_min (l : list Q) : Q :=
  match l with [] => 0 | x :: xs => fold_left qmin xs x end.
Definition list_max (l : list Q) : Q :=
  match l with [] => 0 | x :: xs => fold_left qmax xs x end.

Definition count_status (s : string) (products : list productRow) : Q :=
  qlen (filter (fun p => (p_status p =? s)%string) products).

Fixpoint verified_scores (products : list productRow) : list Q :=
  match products with
  | [] => []
  | p :: rest =>
      match ai_verification_score p with
      | Some v => v :: verified_scores rest
      | None => verified_scores rest
      end
  end.

Definition calculateProductQualityScore (fetch : result (list productRow))
  : partialQ :=
  try_or
    (rbind fetch (fun products =>
       if (List.length products =? 0)%nat
       then Ok (mkPartial 0.3 "No products listed")
       else
         let totalProducts := qlen products in
         let activeProducts := count_status "active" products in
         let flaggedProducts := count_status "flagged" products in
         let verifiedProducts := verified_scores products in
         let avgVerificationScore :=
           if (0 <? List.length verifiedProducts)%nat
           then qsum verifiedProducts / qlen verifiedProducts else 0 in
         let prices := map p_price products in
         let score := 0 in
         let activeRatio := activeProducts / totalProducts in
         let score := score + activeRatio * 0.3 in
         let flaggedRatio := flaggedProducts / totalProducts in
         let score := score + (1 - flaggedRatio) * 0.2 in
         let score := score + avgVerificationScore * 0.3 in
         let priceRange := list_max prices - list_min prices in
         let diversityScore := qmin (priceRange / 1000) 1.0 in
         let score := score + diversityScore * 0.2 in
         Ok (mkPartial (qmin score 1.0)
               (if qgt activeRatio 0.8 then "High quality products"
                else "Mixed product quality"))))
    (fun _ => mkPartial 0.5 "Product quality analysis failed").

End Analyzers.

(** ** [calculateSellerScore] *)

Module SellerScore.
Import Aggregation Analyzers.

Local Open Scope Q_scope.

Record insights : Type :=
  { strengths : list string; weaknesses : list string;
    recommendations : list string; riskFactors : list string }.

Definition includes (l : list string) (x : string) : bool :=
  existsb (String.eqb x) l.

(** The callback of [Object.entries(scores).forEach] in
    [generateInsights]. *)
Definition insight_step (i : insights) (e : string * partialQ) : insights :=
  let '(factor, data) := e in
  match score data with
  | JNumber s =>
      if qge s 0.8 then
        {| strengths := (strengths i ++ [(factor ++ ": " ++ reason data)%string])%list;
           weaknesses := weaknesses i;
           recommendations := recommendations i;
           riskFactors := riskFactors i |}
      else if Qle_bool s 0.4 then
        {| strengths := strengths i;
           weaknesses := (weaknesses i ++ [(factor ++ ": " ++ reason data)%string])%list;
           recommendations := recommendations i;
           riskFactors := (riskFactors i ++ [factor])%list |}
      else i
  | _ => i
  end.

Definition recommend_if (rf : list string) (factor text : string) : list string :=
  if includes rf factor then [text] else [].

Definition generateInsights (scores : list (string * partialQ)) : insights :=
  let i := fold_left insight_step scores
             {| strengths := []; weaknesses := []; recommendations := [];
                riskFactors := [] |} in
  let rf := riskFactors i in
  let for_weaknesses :=
    if (0 <? List.length (weaknesses i))%nat then
     (["Focus on improving areas with low scores"%string]
      ++ recommend_if rf "socialVerification" "Link and verify more social media accounts"
      ++ recommend_if rf "legitimacyScore" "Improve account legitimacy and authenticity"
      ++ recommend_if rf "behaviorScore" "Review and improve account behavior patterns"
      ++ recommend_if rf "fraudScore" "Review product listings for compliance"
      ++ recommend_if rf "transactionHistory" "Focus on successful transaction completion"
      ++ recommend_if rf "productQuality" "Improve product quality and descriptions")%list
    else [] in
  let for_strengths :=
    if (0 <? List.length (strengths i))%nat
    then ["Maintain current high-performing areas"%string] else [] in
  {| strengths := strengths i; weaknesses := weaknesses i;
     recommendations := (for_weaknesses ++ for_strengths)%list;
     riskFactors := rf |}.

(** A partial score that passes the aggregation's guard. *)
Definition numeric (p : partialQ) : Prop := exists q, score p = JNumber q.

(** The columns [updateSellerScore] writes. *)
Record persistedScore : Type :=
  { sellerScore : Q; sellerScoreTier : option string;
    sellerScoreLabel : string }.

(** [updateSellerScore]: the [User.update] may reject; the [catch]
    only logs.  The result is the row written, if any. *)
Definition updateSellerScore (update : result unit) (overallScore : Q)
           (scoreTier : Tiers.scoreTier) : option persistedScore :=
  try_or
    (rbind update (fun _ =>
       Ok (Some {| sellerScore := overallScore;
                   sellerScoreTier := Tiers.tier scoreTier;
                   sellerScoreLabel := Tiers.st_label scoreTier |})))
    (fun _ => None).

(** Everything [calculateSellerScore] reads from its collaborators:
    each data fetch either resolves or rejects. *)
Record environment : Type :=
  { user_lookup : result (option string);       (* [User.findByPk]: the username *)
    linked : result linkedAccounts;
    legitimacy_row : result (option userAssessment);
    behavior_row : result (option userAssessment);
    fraud_products : result (list productRow);
    analyzeProduct : productRow -> Q;
    random_draws : mockTransactionData;
    quality_products : result (list productRow);
    user_update : result unit }.

Record sellerScoreResult : Type :=
  { userId : Z; overallScore : Q; scoreTier : Tiers.scoreTier;
    breakdown : list (string * partialQ); insight : insights;
    persisted : option persistedScore }.

(** The object literal passed to the aggregation and to the insights,
    keys in source order. *)
Definition analyzer_fanout (env : environment) : list (string * partialQ) :=
  [ ("socialVerification", calculateSocialVerificationScore (linked env));
    ("legitimacyScore", calculateLegitimacyScore (legitimacy_row env));
    ("behaviorScore", Analyzers.calculateBehaviorScore (behavior_row env));
    ("fraudScore", calculateFraudScore (fraud_products env) (analyzeProduct env));
    ("transactionHistory", calculateTransactionScore (random_draws env));
    ("productQuality", calculateProductQualityScore (quality_products env)) ]%string.

Definition calculateSellerScore (uid : Z) (env : environment)
  : result sellerScoreResult :=
  try_catch
    (rbind (user_lookup env) (fun user =>
       match user with
       | None => Throw "User not found"
       | Some _ =>
           let scores := analyzer_fanout env in
           let overall := calculateWeightedScore (fun factor => lookup factor scores) in
           let tier := Tiers.getScoreTier overall in
           let ins := generateInsights scores in
           let row := updateSellerScore (user_update env) overall tier in
           Ok {| userId := uid; overallScore := overall; scoreTier := tier;
                 breakdown := scores; insight := ins; persisted := row |}
       end))
    (fun m => Throw ("Seller score calculation failed: " ++ m)%string).

End SellerScore.

(** ** The scoring scheduler *)

(** [startScoringScheduler] arms one [setInterval] timer whose callback
    awaits [processScoringQueue]; a run of [processScoringQueue] queries
    the stale sellers and scores them one after the other, awaiting
    each.  The service object has no field that the callback reads
    before it starts a run, so the state of the event loop that matters
    is the runs that have started and not yet settled, each with the
    sellers it still has to score. *)
Module Scheduler.

Record state : Type :=
  { runs : list (list Z);   (* unsettled runs: sellers still to score *)
    started : nat }.        (* runs started so far *)

Inductive event : Type :=
| TimerFires (stale : list Z)   (* the interval elapses; [User.findAll]
                                   answers with these sellers *)
| RunAdvances (i : nat).        (* run [i] finishes one seller, or
                                   settles when none is left *)

Definition init : state := {| runs := []; started := 0 |}.

(** [processScoringQueue], up to its first [await] inside the loop. *)
Definition processScoringQueue (stale : list Z) (s : state) : state :=
  {| runs := (runs s ++ [stale])%list; started := S (started s) |}.

(** The [setInterval] callback. *)
Definition timer_callback (stale : list Z) (s : state) : state :=
  processScoringQueue stale s.

Fixpoint advance (i : nat) (rs : list (list Z)) : list (list Z) :=
  match rs, i with
  | [], _ => []
  | [] :: rest, O => rest                   (* the loop is over: settled *)
  | (_ :: todo) :: rest, O => todo :: rest  (* one seller scored *)
  | r :: rest, S i' => r :: advance i' rest
  end.

Definition step (s : state) (e : event) : state :=
  match e with
  | TimerFires stale => timer_callback stale s
  | RunAdvances i => {| runs := advance i (runs s); started := started s |}
  end.

Definition run (es : list event) : state := fold_left step es init.

Definition in_flight (s : state) : nat := List.length (runs s).

(** Whether at most one run is in flight after every prefix of [es]. *)
Fixpoint never_overlaps_from (s : state) (es : list event) : bool :=
  (in_flight s <=? 1)%nat &&
  match es with
  | [] => true
  | e :: rest => never_overlaps_from (step s e) rest
  end.

Definition never_overlaps (es : list event) : bool := never_overlaps_from init es.

End Scheduler.

(** ** The ledger: a transactional store *)

(** The tables the escrow service touches, and Sequelize's managed
    transactions over them.  A transaction buffers its writes; its own
    reads see them, other readers see them only after [commit]; a
    [rollback] drops them.  Statuses are the strings the service
    writes; whether a status outside the declared values of its ENUM
    column can be written depends on the database. *)
Module Store.

(** [DB_DIALECT]: the configuration has a PostgreSQL and an SQLite
    branch.  PostgreSQL checks a value written to an ENUM column
    against the values of the column's type; SQLite keeps the column as
    text and takes any string.  Sequelize itself does not check
    ([typeValidation] is not set). *)
Inductive dialect : Type := postgres | sqlite.

Definition checks_enums (x : dialect) : bool :=
  match x with
  | postgres => true
  | sqlite => false
  end.

(** [Order.status]: [DataTypes.ENUM] over [OrderStatus]. *)
Definition orderStatuses : list string :=
  [ "pending"; "paid"; "shipped"; "delivered"; "completed"; "cancelled";
    "disputed"; "refunded" ].

(** [Transaction.status]: [DataTypes.ENUM] over [PaymentStatus]. *)
Definition paymentStatuses : list string :=
  [ "pending"; "submitted"; "confirmed"; "failed"; "cancelled" ].

(** [Transaction.transaction_type]: [DataTypes.ENUM] over
    [TransactionType]. *)
Definition transactionTypes : list string :=
  [ "escrow_create"; "escrow_release"; "escrow_refund"; "escrow_dispute";
    "direct_transfer" ].

Definition enum_member (values : list string) (v : string) : bool :=
  existsb (String.eqb v) values.

Record userRow : Type :=
  { user_id : Z; username : string; privateKey : string;
    smartAccountAddress : string }.

Record productRow : Type :=
  { product_id : Z; product_seller : Z; product_name : string; price : Q;
    quantity : Z; product_status : string }.

Record orderRow : Type :=
  { order_id : string; buyer_id : Z; seller_id : Z; order_product : Z;
    amount : Q; token_symbol : string; order_quantity : Z; status : string;
    escrow_address : option string; metadata_uri : string }.

Record txnRow : Type :=
  { transaction_id : string; sender_id : Z; recipient_id : Z;
    txn_product : Z; txn_order : string; txn_escrow : option string;
    token_address : string; txn_token : string; txn_amount : Q;
    transaction_type : string; txn_status : string;
    blockchain_tx_hash : option string }.

Record db : Type :=
  { users : list userRow; products : list productRow;
    orders : list orderRow; transactions : list txnRow;
    engine : dialect }.

(** *** Row-level helpers *)

Definition set_order (o : orderRow) (new_status : option string)
           (new_escrow : option string) : orderRow :=
  {| order_id := order_id o; buyer_id := buyer_id o; seller_id := seller_id o;
     order_product := order_product o; amount := amount o;
     token_symbol := token_symbol o; order_quantity := order_quantity o;
     status := match new_status with Some s => s | None => status o end;
     escrow_address :=
       match new_escrow with Some a => Some a | None => escrow_address o end;
     metadata_uri := metadata_uri o |}.

Definition set_txn (t : txnRow) (new_status : string)
           (new_escrow new_hash : option string) : txnRow :=
  {| transaction_id := transaction_id t; sender_id := sender_id t;
     recipient_id := recipient_id t; txn_product := txn_product t;
     txn_order := txn_order t;
     txn_escrow := match new_escrow with Some a => Some a | None => txn_escrow t end;
     token_address := token_address t; txn_token := txn_token t;
     txn_amount := txn_amount t; transaction_type := transaction_type t;
     txn_status := new_status;
     blockchain_tx_hash :=
       match new_hash with Some h => Some h | None => blockchain_tx_hash t end |}.

Definition set_quantity (p : productRow) (q : Z) : productRow :=
  {| product_id := product_id p; product_seller := product_seller p;
     product_name := product_name p; price := price p; quantity := q;
     product_status := product_status p |}.

(** *** Buffered writes *)

Inductive write : Type :=
| InsertOrder (o : orderRow)
| InsertTxn (t : txnRow)
| DecrementQuantity (pid : Z) (by_ : Z)
| UpdateOrder (oid : string) (new_status new_escrow : option string)
| UpdateTxn (tid : string) (new_status : string) (new_escrow new_hash : option string)
| UpdateTxnsWhere (oid : string) (old_status new_status : string)
| DestroyTxns (oid : string)
| DestroyOrders (oid : string).

Definition with_orders (d : db) (os : list orderRow) : db :=
  {| users := users d; products := products d; orders := os;
     transactions := transactions d; engine := engine d |}.

Definition with_transactions (d : db) (ts : list txnRow) : db :=
  {| users := users d; products := products d; orders := orders d;
     transactions := ts; engine := engine d |}.

Definition with_products (d : db) (ps : list productRow) : db :=
  {| users := users d; products := ps; orders := orders d;
     transactions := transactions d; engine := engine d |}.

Definition apply_write (d : db) (w : write) : db :=
  match w with
  | InsertOrder o => with_orders d (orders d ++ [o])
  | InsertTxn t => with_transactions d (transactions d ++ [t])
  | DecrementQuantity pid n =>
      with_products d
        (map (fun p => if (product_id p =? pid)%Z
                       then set_quantity p (quantity p - n) else p)
             (products d))
  | UpdateOrder oid s e =>
      with_orders d
        (map (fun o => if (order_id o =? oid)%string then set_order o s e else o)
             (orders d))
  | UpdateTxn tid s e h =>
      with_transactions d
        (map (fun t => if (transaction_id t =? tid)%string
                       then set_txn t s e h else t)
             (transactions d))
  | UpdateTxnsWhere oid old new =>
      with_transactions d
        (map (fun t => if (txn_order t =? oid)%string && (txn_status t =? old)%string
                       then set_txn t new None None else t)
             (transactions d))
  | DestroyTxns oid =>
      with_transactions d
        (filter (fun t => negb (txn_order t =? oid)%string) (transactions d))
  | DestroyOrders oid =>
      with_orders d
        (filter (fun o => negb (order_id o =? oid)%string) (orders d))
  end.

Definition apply_log (d : db) (log : list write) : db :=
  fold_left apply_write log d.

(** *** Queries *)

Definition find_user (d : db) (id : Z) : option userRow :=
  find (fun u => (user_id u =? id)%Z) (users d).

Definition find_product (d : db) (id : Z) : option productRow :=
  find (fun p => (product_id p =? id)%Z) (products d).

Definition find_order (d : db) (oid : string) : option orderRow :=
  find (fun o => (order_id o =? oid)%string) (orders d).

Definition find_txn (d : db) (tid : string) : option txnRow :=
  find (fun t => (transaction_id t =? tid)%string) (transactions d).

Definition txns_of_order (d : db) (oid : string) : list txnRow :=
  filter (fun t => (txn_order t =? oid)%string) (transactions d).

(** The state [rollbackOrderStatus] commits, on top of the intent
    [intent_status] written before the settlement call. *)
Definition after_status_rollback (d : db) (new : txnRow) (oid intent_status : string)
  : db :=
  apply_log
    (apply_log d [InsertTxn new; UpdateOrder oid (Some intent_status) None])
    [UpdateOrder oid (Some "paid") None; UpdateTxnsWhere oid "pending" "failed"].

(** *** The world: committed state, open transactions, observable events *)

Record txn_state : Type := { log : list write; finished : bool }.

Inductive event : Type :=
| Begin (t : nat)                 (* sequelize.transaction() *)
| Commit (t : nat)
| Rollback (t : nat)
| ContentStore                    (* ipfsService.uploadJSON *)
| Settlement (call : string).     (* a paymentService call *)

Record world : Type :=
  { committed : db; txs : list txn_state; trace : list event }.

Definition init_world (d : db) : world :=
  {| committed := d; txs := []; trace := [] |}.

(** *** State and exception monad *)

Definition M (A : Type) : Type := world -> result A * world.

Definition ret {A} (a : A) : M A := fun w => (Ok a, w).
Definition throw {A} (m : string) : M A := fun w => (Throw m, w).

Definition bind {A B} (c : M A) (k : A -> M B) : M B :=
  fun w =>
    match c w with
    | (Ok a, w') => k a w'
    | (Throw m, w') => (Throw m, w')
    end.

(** [try { body } catch (error) { handler(error.message) }]: the state
    reached when the exception was thrown is kept. *)
Definition catch {A} (body : M A) (handler : string -> M A) : M A :=
  fun w =>
    match body w with
    | (Ok a, w') => (Ok a, w')
    | (Throw m, w') => handler m w'
    end.

Definition emit (e : event) : M unit :=
  fun w => (Ok tt, {| committed := committed w; txs := txs w;
                      trace := trace w ++ [e] |}).

End Store.

Declare Scope escrow_scope.
Delimit Scope escrow_scope with escrow.
Notation "x <- c ;; k" := (Store.bind c (fun x => k))
  (at level 61, c at next level, right associativity) : escrow_scope.
Notation "c ;;; k" := (Store.bind c (fun _ => k))
  (at level 61, right associativity) : escrow_scope.

(** ** Sequelize: managed transactions and the model calls the service makes *)

Module Sequelize.
Import Store.
Local Open Scope escrow_scope.

Fixpoint upd_nth {A} (n : nat) (f : A -> A) (l : list A) : list A :=
  match l, n with
  | [], _ => []
  | x :: rest, O => f x :: rest
  | x :: rest, S n' => x :: upd_nth n' f rest
  end.

(** [sequelize.transaction()]: a fresh handle. *)
Definition transaction : M nat :=
  fun w =>
    let t := List.length (txs w) in
    (Ok t, {| committed := committed w;
              txs := txs w ++ [{| log := []; finished := false |}];
              trace := trace w ++ [Begin t] |}).

(** The state of an unfinished transaction, or the error Sequelize
    raises when a finished handle is used. *)
Definition open_state (t : nat) : M txn_state :=
  fun w =>
    match nth_error (txs w) t with
    | Some st =>
        if finished st then (Throw "transaction has been finished", w)
        else (Ok st, w)
    | None => (Throw "unknown transaction", w)
    end.

(** What a query run under [t] sees. *)
Definition read (t : nat) : M db :=
  st <- open_state t ;;
  fun w => (Ok (apply_log (committed w) (log st)), w).

(** A write run under [t]. *)
Definition exec (t : nat) (wr : write) : M unit :=
  _ <- open_state t ;;
  fun w =>
    (Ok tt, {| committed := committed w;
               txs := upd_nth t (fun st => {| log := log st ++ [wr];
                                              finished := finished st |}) (txs w);
               trace := trace w |}).

Definition close (t : nat) : M unit :=
  fun w =>
    (Ok tt, {| committed := committed w;
               txs := upd_nth t (fun st => {| log := log st; finished := true |})
                              (txs w);
               trace := trace w |}).

Definition commit (t : nat) : M unit :=
  st <- open_state t ;;
  (fun w => (Ok tt, {| committed := apply_log (committed w) (log st);
                       txs := txs w; trace := trace w |})) ;;;
  close t ;;;
  emit (Commit t).

Definition rollback (t : nat) : M unit :=
  _ <- open_state t ;;
  close t ;;;
  emit (Rollback t).

(** [transaction.finished] *)
Definition is_finished (t : nat) : M bool :=
  fun w =>
    match nth_error (txs w) t with
    | Some st => (Ok (finished st), w)
    | None => (Ok false, w)
    end.

(** PostgreSQL's message for a value that is not of an ENUM type; type
    and value are quoted. *)
Definition quoted (s : string) : string :=
  String (Ascii.ascii_of_nat 34) (s ++ String (Ascii.ascii_of_nat 34) "").

Definition invalid_enum_value (type_name v : string) : string :=
  "invalid input value for enum " ++ quoted type_name ++ ": " ++ quoted v.

(** A value written to an ENUM column under [t]: the statement fails
    when the database checks ENUMs and the value is not one of the
    declared ones. *)
Definition enum_write (type_name : string) (values : list string)
           (v : string) (t : nat) : M unit :=
  _ <- open_state t ;;
  fun w =>
    if negb (enum_member values v) && checks_enums (engine (committed w))
    then (Throw (invalid_enum_value type_name v), w)
    else (Ok tt, w).

(** *** Model calls *)

Definition User_findByPk (id : Z) (t : nat) : M (option userRow) :=
  d <- read t ;; ret (find_user d id).

(** [Product.findByPk(id, { include: seller })] *)
Definition Product_findByPk (id : Z) (t : nat)
  : M (option (productRow * option userRow)) :=
  d <- read t ;;
  ret (match find_product d id with
       | Some p => Some (p, find_user d (product_seller p))
       | None => None
       end).

(** [Order.findOne({ where: { order_id }, include: [buyer, seller] })] *)
Definition Order_findOne (oid : string) (t : nat)
  : M (option (orderRow * option userRow * option userRow)) :=
  d <- read t ;;
  ret (match find_order d oid with
       | Some o => Some (o, find_user d (buyer_id o), find_user d (seller_id o))
       | None => None
       end).

(** [Order.create]: [order_id] is a unique column, [status] an ENUM. *)
Definition Order_create (o : orderRow) (t : nat) : M orderRow :=
  d <- read t ;;
  match find_order d (order_id o) with
  | Some _ => throw "Validation error"
  | None =>
      enum_write "enum_orders_status" orderStatuses (status o) t ;;;
      exec t (InsertOrder o) ;;; ret o
  end.

(** [Transaction.create]: [transaction_id] is a unique column,
    [transaction_type] and [status] are ENUMs. *)
Definition Transaction_create (r : txnRow) (t : nat) : M txnRow :=
  d <- read t ;;
  match find_txn d (transaction_id r) with
  | Some _ => throw "Validation error"
  | None =>
      enum_write "enum_transactions_transaction_type" transactionTypes
                 (transaction_type r) t ;;;
      enum_write "enum_transactions_status" paymentStatuses (txn_status r) t ;;;
      exec t (InsertTxn r) ;;; ret r
  end.

Definition product_decrement (p : productRow) (by_ : Z) (t : nat) : M unit :=
  exec t (DecrementQuantity (product_id p) by_).

(** [order.update({ status, ... }, { transaction })] *)
Definition order_update (o : orderRow) (new_status new_escrow : option string)
           (t : nat) : M unit :=
  match new_status with
  | Some s => enum_write "enum_orders_status" orderStatuses s t
  | None => ret tt
  end ;;;
  exec t (UpdateOrder (order_id o) new_status new_escrow).

(** [transactionRecord.update({ status, ... }, { transaction })] *)
Definition txn_update (r : txnRow) (new_status : string)
           (new_escrow new_hash : option string) (t : nat) : M unit :=
  enum_write "enum_transactions_status" paymentStatuses new_status t ;;;
  exec t (UpdateTxn (transaction_id r) new_status new_escrow new_hash).

Definition Order_update_where (oid new_status : string) (t : nat) : M unit :=
  enum_write "enum_orders_status" orderStatuses new_status t ;;;
  exec t (UpdateOrder oid (Some new_status) None).

Definition Transaction_update_where (oid old_status new_status : string)
           (t : nat) : M unit :=
  enum_write "enum_transactions_status" paymentStatuses new_status t ;;;
  exec t (UpdateTxnsWhere oid old_status new_status).

Definition Transaction_destroy (oid : string) (t : nat) : M unit :=
  exec t (DestroyTxns oid).

Definition Order_destroy (oid : string) (t : nat) : M unit :=
  exec t (DestroyOrders oid).

End Sequelize.

(** ** [EscrowTransactionService] *)

Module Escrow.
Import Store Sequelize.
Local Open Scope escrow_scope.

(** What a [paymentService] call resolves to; the payment service
    catches its own errors and reports them as [success: false]. *)
Record executionResult : Type :=
  { success : bool; error : string; escrowAddress : string;
    transactionHash : string }.

(** The service's configuration and the answers of its collaborators
    during one request. *)
Record environment : Type :=
  { supportedTokens : list (string * string);   (* symbol, token address *)
    generateOrderId : string;
    generateTransactionId : string;
    uploadJSON : result string;                 (* [ipfsService.uploadJSON] *)
    settlement : executionResult }.             (* the [paymentService] call *)

Definition token_config (env : environment) (symbol : string) : M string :=
  match Analyzers.lookup symbol (supportedTokens env) with
  | Some address => ret address
  | None => throw "Cannot read properties of undefined (reading 'address')"
  end.

(** [product.seller.id] and the like on an included association. *)
Definition included {A} (a : option A) : M A :=
  match a with
  | Some x => ret x
  | None => throw "Cannot read properties of null"
  end.

Definition ipfs_upload (env : environment) : M string :=
  emit ContentStore ;;;
  match uploadJSON env with
  | Ok uri => ret uri
  | Throw m => throw m
  end.

Definition payment_call (name : string) (env : environment) : M executionResult :=
  emit (Settlement name) ;;; ret (settlement env).

Definition rollbackOrder (orderId : string) : M unit :=
  transaction <- Sequelize.transaction ;;
  catch
    (Transaction_destroy orderId transaction ;;;
     Order_destroy orderId transaction ;;;
     (* Note: We don't rollback product quantity here since it's already committed *)
     commit transaction)
    (fun _ => rollback transaction).

Definition rollbackOrderStatus (orderId previousStatus : string) : M unit :=
  transaction <- Sequelize.transaction ;;
  catch
    (Order_update_where orderId previousStatus transaction ;;;
     Transaction_update_where orderId "pending" "failed" transaction ;;;
     commit transaction)
    (fun _ => rollback transaction).

(** The common [catch] of the three operations: roll the first
    transaction back unless it is finished, then rethrow. *)
Definition rollback_unless_finished (t : nat) : M unit :=
  done <- is_finished t ;;
  if done then ret tt else rollback t.

Record purchase : Type :=
  { purchase_orderId : string; purchase_transactionId : string;
    purchase_escrowAddress : string; purchase_amount : Q;
    purchase_status : string; purchase_warning : option string }.

Definition createProductEscrow (env : environment) (buyerId productId : Z)
           (qty : Z) (tokenSymbol : string) : M purchase :=
  transaction <- Sequelize.transaction ;;
  catch
    ((* Step 1 *)
     buyer <- User_findByPk buyerId transaction ;;
     match buyer with
     | None => throw "Buyer not found"
     | Some buyer =>
     found <- Product_findByPk productId transaction ;;
     match found with
     | None => throw "Product not found"
     | Some (product, product_seller_row) =>
     if negb (product_status product =? "active")%string
     then throw "Product is not available for purchase"
     else if (quantity product <? qty)%Z
     then throw "Insufficient product quantity"
     else
       (* Step 2 *)
       let totalAmount := (price product * inject_Z qty)%Q in
       let orderId := generateOrderId env in
       (* Step 3 *)
       seller <- included product_seller_row ;;
       (* Step 4 *)
       metadataUri <- ipfs_upload env ;;
       (* Step 5 *)
       order <- Order_create
                  {| order_id := orderId; buyer_id := user_id buyer;
                     seller_id := user_id seller;
                     order_product := product_id product;
                     amount := totalAmount; token_symbol := tokenSymbol;
                     order_quantity := qty; status := "pending";
                     escrow_address := None; metadata_uri := metadataUri |}
                  transaction ;;
       (* Step 6 *)
       address <- token_config env tokenSymbol ;;
       dbTransaction <- Transaction_create
                  {| transaction_id := generateTransactionId env;
                     sender_id := user_id buyer;
                     recipient_id := user_id seller;
                     txn_product := product_id product; txn_order := orderId;
                     txn_escrow := None; token_address := address;
                     txn_token := tokenSymbol; txn_amount := totalAmount;
                     transaction_type := "escrow_create";
                     txn_status := "pending"; blockchain_tx_hash := None |}
                  transaction ;;
       (* Step 7 *)
       product_decrement product qty transaction ;;;
       (* Step 9 *)
       executionResult <- payment_call "createEscrowPurchase" env ;;
       (if negb (success executionResult)
        then rollbackOrder orderId ;;;
             throw ("Escrow creation failed: " ++ error executionResult)
        else ret tt) ;;;
       commit transaction ;;;
       updateTransaction <- Sequelize.transaction ;;
       catch
         (txn_update dbTransaction "submitted"
            (Some (escrowAddress executionResult))
            (Some (transactionHash executionResult)) updateTransaction ;;;
          order_update order (Some "paid")
            (Some (escrowAddress executionResult)) updateTransaction ;;;
          commit updateTransaction ;;;
          ret {| purchase_orderId := orderId;
                 purchase_transactionId := transaction_id dbTransaction;
                 purchase_escrowAddress := escrowAddress executionResult;
                 purchase_amount := totalAmount; purchase_status := "paid";
                 purchase_warning := None |})
         (fun _ =>
            rollback updateTransaction ;;;
            ret {| purchase_orderId := orderId;
                   purchase_transactionId := transaction_id dbTransaction;
                   purchase_escrowAddress := escrowAddress executionResult;
                   purchase_amount := totalAmount;
                   purchase_status := "paid_but_update_failed";
                   purchase_warning :=
                     Some "Order created but status update failed" |})
     end
     end)
    (fun message =>
       rollback_unless_finished transaction ;;;
       throw ("Purchase failed: " ++ message)).

Record settled : Type :=
  { settled_transactionId : string; settled_orderId : string;
    settled_action : string }.

Definition releaseEscrow (env : environment) (buyerId : Z) (orderId : string)
  : M settled :=
  dbTransaction <- Sequelize.transaction ;;
  catch
    (found <- Order_findOne orderId dbTransaction ;;
     match found with
     | None => throw "Order not found"
     | Some (order, order_buyer, _) =>
     if negb (buyer_id order =? buyerId)%Z
     then throw "Only buyer can release funds"
     else
     match escrow_address order with
     | None => throw "No escrow associated with this order"
     | Some escrow =>
     if negb (status order =? "paid")%string
     then throw "Order is not in paid status"
     else
       address <- token_config env (token_symbol order) ;;
       transactionRecord <- Transaction_create
                  {| transaction_id := generateTransactionId env;
                     sender_id := buyerId; recipient_id := seller_id order;
                     txn_product := order_product order; txn_order := orderId;
                     txn_escrow := Some escrow; token_address := address;
                     txn_token := token_symbol order;
                     txn_amount := amount order;
                     transaction_type := "escrow_release";
                     txn_status := "pending"; blockchain_tx_hash := None |}
                  dbTransaction ;;
       order_update order (Some "release_pending") None dbTransaction ;;;
       commit dbTransaction ;;;
       _ <- included order_buyer ;;
       executionResult <- payment_call "releaseEscrow" env ;;
       (if negb (success executionResult)
        then rollbackOrderStatus orderId "paid" ;;;
             throw ("Escrow release failed: " ++ error executionResult)
        else ret tt) ;;;
       updateTransaction <- Sequelize.transaction ;;
       catch
         (txn_update transactionRecord "released" None
            (Some (transactionHash executionResult)) updateTransaction ;;;
          order_update order (Some "completed") None updateTransaction ;;;
          commit updateTransaction ;;;
          ret {| settled_transactionId := transaction_id transactionRecord;
                 settled_orderId := orderId; settled_action := "released" |})
         (fun _ =>
            rollback updateTransaction ;;;
            throw "Release completed but status update failed")
     end
     end)
    (fun message =>
       rollback_unless_finished dbTransaction ;;;
       throw ("Release failed: " ++ message)).

Definition raiseDispute (env : environment) (userId : Z) (orderId : string)
  : M settled :=
  dbTransaction <- Sequelize.transaction ;;
  catch
    (found <- Order_findOne orderId dbTransaction ;;
     match found with
     | None => throw "Order not found"
     | Some (order, order_buyer, order_seller) =>
     if negb (buyer_id order =? userId)%Z && negb (seller_id order =? userId)%Z
     then throw "Only buyer or seller can raise dispute"
     else
       let user := if (buyer_id order =? userId)%Z then order_buyer
                   else order_seller in
       address <- token_config env (token_symbol order) ;;
       transactionRecord <- Transaction_create
                  {| transaction_id := generateTransactionId env;
                     sender_id := userId;
                     recipient_id := if (userId =? buyer_id order)%Z
                                     then seller_id order else buyer_id order;
                     txn_product := order_product order; txn_order := orderId;
                     txn_escrow := escrow_address order;
                     token_address := address;
                     txn_token := token_symbol order;
                     txn_amount := amount order;
                     transaction_type := "escrow_dispute";
                     txn_status := "pending"; blockchain_tx_hash := None |}
                  dbTransaction ;;
       order_update order (Some "dispute_pending") None dbTransaction ;;;
       commit dbTransaction ;;;
       _ <- included user ;;
       executionResult <- payment_call "raiseDispute" env ;;
       (if negb (success executionResult)
        then rollbackOrderStatus orderId "paid" ;;;
             throw ("Dispute raise failed: " ++ error executionResult)
        else ret tt) ;;;
       updateTransaction <- Sequelize.transaction ;;
       catch
         (txn_update transactionRecord "disputed" None
            (Some (transactionHash executionResult)) updateTransaction ;;;
          order_update order (Some "disputed") None updateTransaction ;;;
          commit updateTransaction ;;;
          ret {| settled_transactionId := transaction_id transactionRecord;
                 settled_orderId := orderId;
                 settled_action := "dispute_raised" |})
         (fun _ =>
            rollback updateTransaction ;;;
            throw "Dispute raised but status update failed")
     end)
    (fun message =>
       rollback_unless_finished dbTransaction ;;;
       throw ("Dispute failed: " ++ message)).

(** *** Reading the event trace *)

(** The transactions open after each event, scanning from [open]. *)
Definition track (open : list nat) (e : event) : list nat :=
  match e with
  | Begin t => open ++ [t]
  | Commit t | Rollback t => filter (fun t' => negb (t' =? t)%nat) open
  | ContentStore | Settlement _ => open
  end.

(** For every settlement call of the trace, in order: the transactions
    that were open when it was made. *)
Fixpoint open_at_settlement (open : list nat) (es : list event)
  : list (string * list nat) :=
  match es with
  | [] => []
  | Settlement name :: rest =>
      (name, open) :: open_at_settlement open rest
  | e :: rest => open_at_settlement (track open e) rest
  end.

(** No settlement call of the trace is made with a transaction open. *)
Definition settles_outside_transactions (es : list event) : bool :=
  forallb (fun c => match snd c with [] => true | _ => false end)
          (open_at_settlement [] es).

(** Every transaction opened so far has been committed or rolled
    back: none is left holding writes. *)
Definition all_finished (w : world) : bool := forallb finished (txs w).

End Escrow.

(** ** Concrete inputs used to exercise the definitions *)

Module Scenario.
Import Store.

(** An aggregation input with one analyzer answering and the fraud
    analyzer's entry left to the caller. *)
Definition two_scores (fraud : option partialQ)
  : Aggregation.scores_obj (num := Q) :=
  fun factor =>
    if (factor =? "socialVerification")%string
    then Some (Analyzers.mkPartial 0.8 "2 verified accounts")
    else if (factor =? "fraudScore")%string then fraud
    else None.

(** An aggregation input whose entries are all unusable. *)
Definition unusable_scores : Aggregation.scores_obj (num := Q) :=
  fun factor =>
    if (factor =? "fraudScore")%string
    then Some {| Aggregation.score := JString "n/a";
                 Aggregation.reason := "Fraud analysis failed" |}
    else None.

(** A seller with strong components: one verified Facebook account
    (0.7, plus the 0.1 platform bonus), stored legitimacy and behaviour
    scores of 0.95, one active, fully verified product that the fraud
    analysis scores 0.9, and a spotless simulated history. *)
Definition strong_seller : SellerScore.environment :=
  {| SellerScore.user_lookup := Ok (Some "seller");
     SellerScore.linked :=
       Ok {| Analyzers.success := true;
             Analyzers.accounts :=
               [ {| Analyzers.platform := "facebook";
                    Analyzers.verificationScore := Some 0.7 |} ] |};
     SellerScore.legitimacy_row :=
       Ok (Some {| Analyzers.legitimacyScore := Some 0.95;
                   Analyzers.legitimacyRiskLevel := "low";
                   Analyzers.behaviorScore := Some 0.95;
                   Analyzers.behaviorRiskLevel := "low" |});
     SellerScore.behavior_row :=
       Ok (Some {| Analyzers.legitimacyScore := Some 0.95;
                   Analyzers.legitimacyRiskLevel := "low";
                   Analyzers.behaviorScore := Some 0.95;
                   Analyzers.behaviorRiskLevel := "low" |});
     SellerScore.fraud_products :=
       Ok [ {| Analyzers.p_status := "active";
               Analyzers.ai_verification_score := Some 1;
               Analyzers.p_price := 100; Analyzers.p_quantity := 5 |} ];
     SellerScore.analyzeProduct := fun _ => 0.9;
     SellerScore.random_draws :=
       {| Analyzers.totalTransactions := 50;
          Analyzers.successfulTransactions := 50;
          Analyzers.totalVolume := 30000; Analyzers.disputeRate := 0.01;
          Analyzers.averageRating := 5 |};
     SellerScore.quality_products :=
       Ok [ {| Analyzers.p_status := "active";
               Analyzers.ai_verification_score := Some 1;
               Analyzers.p_price := 100; Analyzers.p_quantity := 5 |} ];
     SellerScore.user_update := Ok tt |}.

(** Buyer 1, seller 7 and product 42 (price 100, quantity 5, active). *)
Definition shop : db :=
  {| users :=
       [ {| user_id := 1; username := "buyer"; privateKey := "k1";
            smartAccountAddress := "0xB1" |};
         {| user_id := 7; username := "seller"; privateKey := "k7";
            smartAccountAddress := "0xS7" |} ];
     products :=
       [ {| product_id := 42; product_seller := 7; product_name := "lamp";
            price := 100; quantity := 5; product_status := "active" |} ];
     orders := []; transactions := []; engine := sqlite |}.

Definition paid_order (st : string) : orderRow :=
  {| order_id := "ORD-A1"; buyer_id := 1; seller_id := 7; order_product := 42;
     amount := 200; token_symbol := "USDC"; order_quantity := 2; status := st;
     escrow_address := Some "0xE5"; metadata_uri := "bafy" |}.

(** The shop after a purchase of two lamps, the order in status [st]. *)
Definition shop_with_order (st : string) : db :=
  {| users := users shop;
     products :=
       [ {| product_id := 42; product_seller := 7; product_name := "lamp";
            price := 100; quantity := 3; product_status := "active" |} ];
     orders := [ paid_order st ];
     transactions :=
       [ {| transaction_id := "TXN-A1"; sender_id := 1; recipient_id := 7;
            txn_product := 42; txn_order := "ORD-A1";
            txn_escrow := Some "0xE5"; token_address := "0x8335";
            txn_token := "USDC"; txn_amount := 200;
            transaction_type := "escrow_create"; txn_status := "submitted";
            blockchain_tx_hash := Some "0xH1" |} ];
     engine := sqlite |}.


Definition backend_ok : Escrow.executionResult :=
  {| Escrow.success := true; Escrow.error := "";
     Escrow.escrowAddress := "0xE5"; Escrow.transactionHash := "0xH1" |}.

Definition backend_down : Escrow.executionResult :=
  {| Escrow.success := false; Escrow.error := "bundler unavailable";
     Escrow.escrowAddress := ""; Escrow.transactionHash := "" |}.

Definition request (order_no txn_no : string)
           (backend : Escrow.executionResult) : Escrow.environment :=
  {| Escrow.supportedTokens := [ ("USDC", "0x8335"); ("USDT", "0xfde4") ];
     Escrow.generateOrderId := order_no;
     Escrow.generateTransactionId := txn_no;
     Escrow.uploadJSON := Ok "bafy";
     Escrow.settlement := backend |}.

End Scenario.

From Stdlib Require Import Qabs.

(** ** Observations on the ledger *)

Module Ledger.
Import Store.

(** The rows that belong to other orders than [oid]. *)
Definition other_orders (d : db) (oid : string) : list orderRow :=
  filter (fun o => negb (order_id o =? oid)%string) (orders d).

Definition other_txns (d : db) (oid : string) : list txnRow :=
  filter (fun t => negb (txn_order t =? oid)%string) (transactions d).

Definition other_products (d : db) (pid : Z) : list productRow :=
  filter (fun p => negb (product_id p =? pid)%Z) (products d).

(** Every ledger entry references an order that exists
    ([transactions.order_id] is a foreign key to [orders.order_id]). *)
Definition references_orders (d : db) : bool :=
  forallb (fun t => existsb (fun o => (order_id o =? txn_order t)%string) (orders d))
          (transactions d).

(** Two stores that agree on everything but the rows of order [oid]
    and of product [pid]. *)
Definition same_elsewhere (oid : string) (pid : Z) (d d' : db) : Prop :=
  users d' = users d
  /\ other_orders d' oid = other_orders d oid
  /\ other_txns d' oid = other_txns d oid
  /\ other_products d' pid = other_products d pid.

(** A write that addresses only rows of order [oid] or product [pid],
    given the rows of [d]. *)
Definition local_write (oid : string) (pid : Z) (d : db) (w : write) : Prop :=
  match w with
  | InsertOrder o => order_id o = oid
  | InsertTxn t => txn_order t = oid
  | DecrementQuantity p _ => p = pid
  | UpdateOrder o _ _ => o = oid
  | UpdateTxn tid _ _ _ =>
      forall t, In t (transactions d) ->
                (transaction_id t =? tid)%string = true -> txn_order t = oid
  | UpdateTxnsWhere o _ _ => o = oid
  | DestroyTxns o => o = oid
  | DestroyOrders o => o = oid
  end.

(** A well-formed ledger: entries reference existing orders, and the
    unique columns [orders.order_id] and [transactions.transaction_id]
    hold no value twice. *)
Definition wellformed (d : db) : Prop :=
  references_orders d = true
  /\ NoDup (map order_id (orders d))
  /\ NoDup (map transaction_id (transactions d)).

(** What a write needs from the rows of [d] to keep the ledger
    well-formed. *)
Definition sound_write (d : db) (w : write) : Prop :=
  match w with
  | InsertOrder o => find_order d (order_id o) = None
  | InsertTxn t =>
      find_txn d (transaction_id t) = None
      /\ exists o, find_order d (txn_order t) = Some o
  | DestroyOrders oid => txns_of_order d oid = []
  | _ => True
  end.

End Ledger.

(** ** The entries [generateInsights] files *)

Module InsightClasses.
Import Aggregation Analyzers SellerScore.

Local Open Scope Q_scope.

(** The first branch of the callback: a numeric score of at least 0.8. *)
Definition is_strength (e : string * partialQ) : bool :=
  match score (snd e) with
  | JNumber s => qge s 0.8
  | _ => false
  end.

(** The [else if] branch: reached only when the first test failed. *)
Definition is_weakness (e : string * partialQ) : bool :=
  match score (snd e) with
  | JNumber s => negb (qge s 0.8) && Qle_bool s 0.4
  | _ => false
  end.

(** The template literal [`${factor}: ${data.reason}`]. *)
Definition entry_label (e : string * partialQ) : string :=
  fst e ++ ": " ++ reason (snd e).

End InsightClasses.

(** ** [BehaviorMonitoringService.js]: the monitoring of one user *)

Module Behavior.
Import Aggregation.

Local Open Scope Q_scope.

Definition analysisQ : Type := @Aggregation.analysis Q.

(** *** Risk levels *)

Record riskBand : Type := { rb_min : Q; rb_max : Q; rb_action : string }.

(** [this.riskLevels], in insertion order. *)
Definition riskLevels : list (string * riskBand) :=
  [ ("low", {| rb_min := 0.8; rb_max := 1.0; rb_action := "monitor" |});
    ("medium", {| rb_min := 0.5; rb_max := 0.79; rb_action := "flag" |});
    ("high", {| rb_min := 0.2; rb_max := 0.49; rb_action := "restrict" |});
    ("critical", {| rb_min := 0.0; rb_max := 0.19; rb_action := "suspend" |}) ].

Definition in_risk_band (score : Q) (config : riskBand) : bool :=
  qge score (rb_min config) && Qle_bool score (rb_max config).

Definition determineRiskLevel (score : Q) : string :=
  match find (fun e => in_risk_band score (snd e)) riskLevels with
  | Some (level, _) => level
  | None => "medium"
  end.

Definition getRiskLevel (score : Q) : string :=
  if qge score 0.8 then "low"
  else if qge score 0.5 then "medium"
  else if qge score 0.2 then "high"
  else "critical".

(** *** The analyzers of simulated data *)

(** [if (cond) { riskScore -= penalty; patterns.push(pattern); }] on the
    pair [(riskScore, patterns)]. *)
Definition flag (cond : bool) (penalty : Q) (pattern : string)
           (st : Q * list string) : Q * list string :=
  if cond then (fst st - penalty, (snd st ++ [pattern])%list) else st.

(** The tail every analyzer shares: the score is clamped at 0, the risk
    is read off the unclamped score. *)
Definition report (st : Q * list string) : analysisQ :=
  {| a_score := JNumber (qmax 0 (fst st));
     risk := getRiskLevel (fst st);
     patterns := snd st |}.

Definition analysis_failed : analysisQ :=
  {| a_score := JNumber 0.5; risk := "medium";
     patterns := ["Analysis failed"] |}.

(** The draws of [Math.random] that [analyzeCommunicationBehavior]
    reads. *)
Record mockCommunicationData : Type :=
  { responseTime : Q; messageFrequency : Q; spamKeywords : Q;
    suspiciousLanguage : Q; weekendActivity : Q; unusualHours : Q }.

Definition analyzeCommunicationBehavior (d : mockCommunicationData)
  : analysisQ :=
  let st := (1.0, []) in
  let st := flag (qgt (responseTime d) 24) 0.2 "Slow response time" st in
  let st := flag (qgt (messageFrequency d) 50) 0.2 "High message frequency" st in
  let st := flag (qgt (spamKeywords d) 0) 0.3 "Spam keywords detected" st in
  let st := flag (qgt (suspiciousLanguage d) 0) 0.2
                 "Suspicious language detected" st in
  let st := flag (qgt (weekendActivity d) 0.8) 0.1 "High weekend activity" st in
  let st := flag (qgt (unusualHours d) 0.2) 0.1 "Activity at unusual hours" st in
  report st.

(** The draws that [analyzeTransactionBehavior] reads. *)
Record mockTransactionData : Type :=
  { recentTransactions : Q; highValueTransactions : Q;
    weekendTransactions : Q; unusualHourTransactions : Q;
    failedTransactions : Q; disputeRate : Q }.

Definition analyzeTransactionBehavior (d : mockTransactionData) : analysisQ :=
  let st := (1.0, []) in
  let st := flag (qgt (recentTransactions d) 5) 0.3
                 "Rapid transaction activity" st in
  let st := flag (qgt (highValueTransactions d) 0) 0.1
                 "High-value transactions" st in
  let st := flag (qgt (weekendTransactions d) 0.8) 0.1
                 "High weekend transaction activity" st in
  let st := flag (qgt (unusualHourTransactions d) 0.2) 0.1
                 "Transactions at unusual hours" st in
  let st := flag (qgt (failedTransactions d) 0) 0.2
                 "Failed transactions detected" st in
  let st := flag (qgt (disputeRate d) 0.05) 0.2 "High dispute rate" st in
  report st.

(** The draws that [analyzeAccountBehavior] reads. *)
Record accountDraws : Type :=
  { profileChanges : Q; verificationDelay : Q; loginFrequency : Q }.

(** [daysSinceCreation] is the age of the user row, in days. *)
Definition analyzeAccountBehavior (daysSinceCreation : Q) (d : accountDraws)
  : analysisQ :=
  let isNewAccount := qlt daysSinceCreation 7 in
  let hasMultipleAccounts := false in
  let st := (1.0, []) in
  let st := flag isNewAccount 0.2 "New account" st in
  let st := flag hasMultipleAccounts 0.3 "Multiple accounts detected" st in
  let st := flag (qgt (profileChanges d) 5) 0.1 "Frequent profile changes" st in
  let st := flag (qgt (verificationDelay d) 24) 0.1 "Delayed verification" st in
  let st := flag (qgt (loginFrequency d) 20) 0.1 "Unusual login frequency" st in
  report st.

(** *** The listing analyzer *)

(** A product row as [analyzeListingBehavior] reads it; [recent] is
    [new Date(p.createdAt) > oneDayAgo]. *)
Record listingRow : Type :=
  { recent : bool; l_name : string; l_price : Q;
    descrption : option string }.

(** [String.prototype.toLowerCase] on the letters A to Z. *)
Definition lower_ascii (c : Ascii.ascii) : Ascii.ascii :=
  let n := Ascii.nat_of_ascii c in
  if ((65 <=? n) && (n <=? 90))%nat then Ascii.ascii_of_nat (n + 32) else c.

Fixpoint toLowerCase (s : string) : string :=
  match s with
  | EmptyString => EmptyString
  | String c rest => String (lower_ascii c) (toLowerCase rest)
  end.

(** [s.includes(sub)] *)
Definition str_includes (s sub : string) : bool :=
  match String.index 0 sub s with
  | Some _ => true
  | None => false
  end.

Definition suspiciousKeywords : list string :=
  ["urgent"; "limited"; "free"; "guaranteed"].

(** [nameCounts] is a plain object: for a name that it inherits from
    [Object.prototype], [nameCounts[name] || 0] is not a count, and
    what is stored (or, for [__proto__], not stored) never compares
    greater than 1.  These are the inherited names that a lower-cased
    product name can be. *)
Definition inherited_key (name : string) : bool :=
  (name =? "constructor") || (name =? "__proto__").

(** [a / b] in JavaScript, where [b] may be zero. *)
Inductive quotient : Type :=
| Finite (q : Q)
| PlusInfinity
| MinusInfinity
| NotANumber.

Definition js_div (a b : Q) : quotient :=
  if Qeq_bool b 0 then
    if qgt a 0 then PlusInfinity
    else if qlt a 0 then MinusInfinity
    else NotANumber
  else Finite (a / b).

(** [x > c] and [x < c] for a finite [c]. *)
Definition quotient_gt (x : quotient) (c : Q) : bool :=
  match x with
  | Finite q => qgt q c
  | PlusInfinity => true
  | MinusInfinity | NotANumber => false
  end.

Definition quotient_lt (x : quotient) (c : Q) : bool :=
  match x with
  | Finite q => qlt q c
  | MinusInfinity => true
  | PlusInfinity | NotANumber => false
  end.

Definition getListingPatterns (rapidListing : bool)
           (duplicateListings suspicious : nat)
           (priceVariations : list quotient)
  : list string :=
  ((if rapidListing then ["Rapid listing activity"] else [])
   ++ (if (0 <? duplicateListings)%nat
       then ["Duplicate listings detected"] else [])
   ++ (if (0 <? suspicious)%nat then ["Suspicious keywords used"] else [])
   ++ (if existsb (fun v => quotient_gt v 0.5) priceVariations
       then ["Price manipulation detected"] else []))%list.

Definition analyzeListingBehavior (fetch : result (list listingRow))
  : analysisQ :=
  try_or
    (rbind fetch (fun products =>
       if (List.length products =? 0)%nat
       then Ok {| a_score := JNumber 0.8; risk := "low";
                  patterns := ["No listing history"] |}
       else
         let recentListings := List.length (filter recent products) in
         let rapidListing := (10 <? recentListings)%nat in
         let productNames := map (fun p => toLowerCase (l_name p)) products in
         let duplicateListings :=
           List.length
             (filter (fun name =>
                        negb (inherited_key name)
                        && (1 <? count_occ string_dec productNames name)%nat)
                     (Analyzers.dedupe [] productNames)) in
         let prices := map l_price products in
         let priceVariations :=
           if (1 <? List.length prices)%nat
           then let avgPrice := qsum prices / qlen prices in
                map (fun price => js_div (Qabs (price - avgPrice)) avgPrice)
                    prices
           else [] in
         let descriptions :=
           toLowerCase
             (String.concat " "
                (map (fun p => match descrption p with
                               | Some d => d
                               | None => ""
                               end) products)) in
         let suspicious :=
           List.length (filter (str_includes descriptions)
                               suspiciousKeywords) in
         let riskScore := 1.0 in
         let riskScore := if rapidListing then riskScore - 0.3 else riskScore in
         let riskScore :=
           if (5 <? duplicateListings)%nat then riskScore - 0.2
           else riskScore in
         let riskScore :=
           if (0 <? suspicious)%nat then riskScore - 0.2 else riskScore in
         let riskScore :=
           if existsb (fun variation => quotient_gt variation 0.5)
                      priceVariations
           then riskScore - 0.1 else riskScore in
         Ok {| a_score := JNumber (qmax 0 riskScore);
               risk := getRiskLevel riskScore;
               patterns := getListingPatterns rapidListing duplicateListings
                                              suspicious priceVariations |}))
    (fun _ => analysis_failed).

(** *** Actions *)

Definition base_actions (riskLevel : string) : list string :=
  if riskLevel =? "critical"
  then ["suspend_account"; "flag_for_review"; "notify_admin"]
  else if riskLevel =? "high"
  then ["restrict_listing"; "require_verification"; "flag_for_review"]
  else if riskLevel =? "medium" then ["monitor_closely"; "send_warning"]
  else if riskLevel =? "low" then ["continue_monitoring"]
  else [].

(** The body of the [forEach] callback of [determineActions]. *)
Definition pattern_actions (a : analysisQ) : list string :=
  if (0 <? List.length (patterns a))%nat then
    ((if SellerScore.includes (patterns a) "Rapid listing activity"
      then ["limit_listing_frequency"] else [])
     ++ (if SellerScore.includes (patterns a) "Spam keywords detected"
         then ["content_review"] else [])
     ++ (if SellerScore.includes (patterns a) "High dispute rate"
         then ["escrow_required"] else []))%list
  else [].

Definition determineActions (riskLevel : string) (analyses : list analysisQ)
  : list string :=
  Analyzers.dedupe []
    (base_actions riskLevel ++ flat_map pattern_actions analyses)%list.

(** The [switch] of [executeActions]: the method an action runs, if it
    has a case. *)
Definition handler (action : string) : option string :=
  if action =? "suspend_account" then Some "suspendAccount"
  else if action =? "flag_for_review" then Some "flagForReview"
  else if action =? "restrict_listing" then Some "restrictListing"
  else if action =? "require_verification" then Some "requireVerification"
  else if action =? "monitor_closely" then Some "setCloseMonitoring"
  else if action =? "send_warning" then Some "sendWarning"
  else if action =? "limit_listing_frequency" then Some "limitListingFrequency"
  else if action =? "content_review" then Some "flagContentForReview"
  else if action =? "escrow_required" then Some "requireEscrow"
  else None.

(** The methods [executeActions] awaits, in order. *)
Definition executeActions (actions : list string) : list string :=
  flat_map (fun action => match handler action with
                          | Some method => [method]
                          | None => []
                          end) actions.

(** *** [monitorUserBehavior] *)

(** The columns [updateUserBehaviorStatus] writes. *)
Record behaviorStatus : Type :=
  { st_behaviorScore : Q; st_behaviorRiskLevel : string }.

Definition updateUserBehaviorStatus (update : result unit) (behaviorScore : Q)
           (riskLevel : string) : option behaviorStatus :=
  try_or
    (rbind update (fun _ =>
       Ok (Some {| st_behaviorScore := behaviorScore;
                   st_behaviorRiskLevel := riskLevel |})))
    (fun _ => None).

Record environment : Type :=
  { user_lookup : result (option Q);      (* [User.findByPk]: the age in days *)
    listings : result (list listingRow);   (* [Product.findAll] *)
    communication_draws : mockCommunicationData;
    transaction_draws : mockTransactionData;
    account_draws : accountDraws;
    user_update : result unit }.

Record monitoring : Type :=
  { behaviorScore : Q; riskLevel : string; actions : list string;
    analyses : list (category * option analysisQ);
    stored : option behaviorStatus;
    executed : list string }.

(** The result is [None] where the source returns [undefined]. *)
Definition monitorUserBehavior (env : environment)
  : result (option monitoring) :=
  try_catch
    (rbind (user_lookup env) (fun user =>
       match user with
       | None => Ok None
       | Some daysSinceCreation =>
           let listingBehavior := analyzeListingBehavior (listings env) in
           let communicationBehavior :=
             analyzeCommunicationBehavior (communication_draws env) in
           let transactionBehavior :=
             analyzeTransactionBehavior (transaction_draws env) in
           let accountBehavior :=
             analyzeAccountBehavior daysSinceCreation (account_draws env) in
           let all :=
             [ (listing, Some listingBehavior);
               (communication, Some communicationBehavior);
               (transaction, Some transactionBehavior);
               (account, Some accountBehavior) ] in
           let score := Aggregation.calculateBehaviorScore all in
           let level := determineRiskLevel score in
           let acts :=
             determineActions level
               [ listingBehavior; communicationBehavior; transactionBehavior;
                 accountBehavior ] in
           let row := updateUserBehaviorStatus (user_update env) score level in
           let ran :=
             if (0 <? List.length acts)%nat then executeActions acts else [] in
           Ok (Some {| behaviorScore := score; riskLevel := level;
                       actions := acts; analyses := all; stored := row;
                       executed := ran |})
       end))
    (fun m => Throw ("Behavior monitoring failed: " ++ m)%string).

(** An analysis whose score is a number between 0 and 1 and whose risk
    is the level of that score. *)
Definition consistent (a : analysisQ) : Prop :=
  exists v, a_score a = JNumber v /\ 0 <= v <= 1 /\ risk a = getRiskLevel v.

(** The pair an analyzer threads: no pattern yet and a full score, or
    some pattern and a lower one. *)
Definition clean (st : Q * list string) : Prop :=
  (snd st = [] /\ fst st == 1) \/ (snd st <> [] /\ fst st < 1).

(** The actions [executeActions] has a case for, among those
    [determineActions] can choose. *)
Definition handled (action : string) : bool :=
  negb (action =? "notify_admin") && negb (action =? "continue_monitoring").

End Behavior.

(** ** Scores in the unit interval, and batches *)

Module Batch.
Import Aggregation Analyzers SellerScore.

Local Open Scope Q_scope.

(** A partial score that is a number between 0 and 1. *)
Definition unit_score (p : partialQ) : Prop :=
  exists v, score p = JNumber v /\ 0 <= v <= 1.


Definition fulfilled {A} (r : result A) : bool :=
  match r with Ok _ => true | Throw _ => false end.

Definition rejected {A} (r : result A) : bool :=
  match r with Ok _ => false | Throw _ => true end.

Record batch : Type :=
  { processed : nat; successful : nat; failed : nat;
    results : list (Z * result sellerScoreResult) }.

(** [envs uid] is what the run for [uid] reads; [Promise.allSettled]
    keeps every outcome, in the order of [userIds]. *)
Definition batchCalculateScores (envs : Z -> environment) (userIds : list Z)
  : result batch :=
  try_catch
    (let settled :=
       map (fun userId => calculateSellerScore userId (envs userId)) userIds in
     Ok {| processed := List.length userIds;
           successful := List.length (filter fulfilled settled);
           failed := List.length (filter rejected settled);
           results := combine userIds settled |})
    (fun m => Throw ("Batch score calculation failed: " ++ m)%string).

(** The user row of a run was found. *)
Definition user_found (env : environment) : bool :=
  match user_lookup env with
  | Ok (Some _) => true
  | _ => false
  end.

End Batch.

(** ** [FraudDetectionService.js]: the analysis of one product *)

Module Fraud.
Import Behavior.

Local Open Scope Q_scope.

(** The [analysis] object each check fills: a risk and its indicators. *)
Record check : Type := { riskScore : Q; indicators : list string }.

Definition nothing : check := {| riskScore := 0; indicators := [] |}.

(** [analysis.riskScore += penalty; analysis.indicators.push(indicator)] *)
Definition add (penalty : Q) (indicator : string) (a : check) : check :=
  {| riskScore := riskScore a + penalty;
     indicators := (indicators a ++ [indicator])%list |}.

(** [this.fraudPatterns.suspiciousKeywords] *)
Definition suspiciousKeywords : list string :=
  [ "urgent"; "limited time"; "free money"; "get rich quick";
    "no questions asked"; "guaranteed profit"; "investment opportunity";
    "crypto investment"; "forex trading"; "mlm"; "pyramid scheme" ].

(** [(s.match(/c/g) || []).length] for a class of characters. *)
Fixpoint count_chars (p : Ascii.ascii -> bool) (s : string) : nat :=
  match s with
  | EmptyString => 0
  | String c rest => (if p c then 1 else 0) + count_chars p rest
  end.

Definition is_capital (c : Ascii.ascii) : bool :=
  let n := Ascii.nat_of_ascii c in ((65 <=? n) && (n <=? 90))%nat.

Definition is_exclamation (c : Ascii.ascii) : bool :=
  (Ascii.nat_of_ascii c =? 33)%nat.

(** The alternatives of [/contact|call|whatsapp|phone|email|@/i]. *)
Definition contactWords : list string :=
  [ "contact"; "call"; "whatsapp"; "phone"; "email"; "@" ].

Definition analyzeDescription (description : option string) : check :=
  match description with
  | None | Some EmptyString =>
      add 0.2 "No product description provided" nothing
  | Some description =>
      let lowerDesc := toLowerCase description in
      let foundSuspiciousKeywords :=
        filter (fun keyword => str_includes lowerDesc (toLowerCase keyword))
               suspiciousKeywords in
      let a := nothing in
      let a :=
        if (0 <? List.length foundSuspiciousKeywords)%nat
        then add (qlen foundSuspiciousKeywords * 0.15)
                 ("Suspicious keywords found: "
                  ++ String.concat ", " foundSuspiciousKeywords) a
        else a in
      let capsRatio :=
        inject_Z (Z.of_nat (count_chars is_capital description))
        / inject_Z (Z.of_nat (String.length description)) in
      let a :=
        if qgt capsRatio 0.3
        then add 0.1 "Excessive use of capital letters" a else a in
      let exclamationCount := count_chars is_exclamation description in
      let a :=
        if (3 <? exclamationCount)%nat
        then add 0.1 "Excessive use of exclamation marks" a else a in
      let hasContactInfo := existsb (str_includes lowerDesc) contactWords in
      if hasContactInfo
      then add 0.1 "Contact information in product description" a else a
  end.

(** [price % 100 === 0] *)
Definition round_hundred (price : Q) : bool :=
  (Qnum price mod (100 * Zpos (Qden price)) =? 0)%Z.

(** [similar] is the answer of the price query; when it rejects, the
    [catch] logs and the analysis is returned as it stands. *)
Definition analyzePrice (similar : result (list Q)) (price : Q) : check :=
  match similar with
  | Throw _ => nothing
  | Ok similarProducts =>
      let a := nothing in
      let a :=
        if (0 <? List.length similarProducts)%nat then
          let avgPrice := qsum similarProducts / qlen similarProducts in
          let priceRatio := js_div price avgPrice in
          if quotient_lt priceRatio 0.1
          then add 0.3 "Price significantly below market average" a
          else if quotient_gt priceRatio 5.0
          then add 0.2 "Price significantly above market average" a
          else a
        else a in
      if round_hundred price && qgt price 1000
      then add 0.05 "Suspicious round number pricing" a else a
  end.

(** The four queries of [analyzeSellerBehavior], in order: the seller
    (the age of the account in days), the number of high-value
    products, the number of products of the last day, and the names of
    all products. *)
Record sellerQueries : Type :=
  { seller : result (option Q);
    highValueProducts : result nat;
    recentProducts : result nat;
    allSellerProducts : result (list string) }.

(** [names.filter((name, index) => names.indexOf(name) !== index)] *)
Fixpoint later_occurrences (seen names : list string) : list string :=
  match names with
  | [] => []
  | n :: rest =>
      if existsb (String.eqb n) seen then n :: later_occurrences seen rest
      else later_occurrences (n :: seen) rest
  end.

Definition analyzeSellerBehavior (q : sellerQueries) : check :=
  match seller q with
  | Throw _ => nothing
  | Ok None => add 0.5 "Seller account not found" nothing
  | Ok (Some daysSinceCreation) =>
      let a := nothing in
      let a :=
        if qlt daysSinceCreation 7
        then add 0.2 "Very new seller account" a else a in
      match highValueProducts q with
      | Throw _ => a
      | Ok highValue =>
          let a :=
            if (0 <? highValue)%nat && qlt daysSinceCreation 30
            then add 0.3 "New account selling high-value items" a else a in
          match recentProducts q with
          | Throw _ => a
          | Ok recentCount =>
              let a :=
                if (10 <? recentCount)%nat
                then add 0.2 "Rapid listing behavior detected" a else a in
              match allSellerProducts q with
              | Throw _ => a
              | Ok names =>
                  let productNames := map toLowerCase names in
                  let duplicateNames := later_occurrences [] productNames in
                  if (5 <? List.length duplicateNames)%nat
                  then add 0.15 "Multiple similar product listings" a
                  else a
              end
          end
      end
  end.

(** [similar] is the answer of the name query: seller and name of each
    similar product. *)
Definition checkForDuplicates (similar : result (list (Z * string)))
           (name : string) : check :=
  match similar with
  | Throw _ => nothing
  | Ok similarProducts =>
      if (0 <? List.length similarProducts)%nat then
        let differentSellers := nodup Z.eq_dec (map fst similarProducts) in
        let a := nothing in
        let a :=
          if (1 <? List.length differentSellers)%nat
          then add 0.2 "Similar products from multiple sellers" a else a in
        let exactDuplicates :=
          filter (fun p => (toLowerCase (snd p) =? toLowerCase name)%string)
                 similarProducts in
        if (0 <? List.length exactDuplicates)%nat
        then add 0.3 "Exact duplicate products found" a else a
      else nothing
  end.

Definition some_includes (l : list string) (part : string) : bool :=
  existsb (fun i => str_includes i part) l.

Definition generateRecommendations (risk : Q) (inds : list string)
  : list string :=
  ((if qgt risk 0.7
    then ["HIGH RISK: Manual review required";
          "Consider flagging for admin review"]
    else if qgt risk 0.4
    then ["MEDIUM RISK: Additional verification recommended";
          "Monitor seller activity closely"]
    else if qgt risk 0.2 then ["LOW RISK: Standard verification process"]
    else ["LOW RISK: Product appears legitimate"])
   ++ (if some_includes inds "Suspicious keywords"
       then ["Review product description for compliance"] else [])
   ++ (if some_includes inds "Price significantly"
       then ["Verify pricing with market research"] else [])
   ++ (if some_includes inds "Very new seller"
       then ["Require additional seller verification"] else []))%list.

Definition getRiskReason (risk : Q) : string :=
  if qgt risk 0.7 then "High fraud risk detected"
  else if qgt risk 0.4 then "Medium fraud risk detected"
  else if qgt risk 0.2 then "Low fraud risk detected"
  else "Minimal fraud risk".

(** What [analyzeProduct] reads: three columns of the product and the
    answers of the queries of its checks. *)
Record product : Type :=
  { descrption : option string; price : Q; name : string;
    similar_prices : result (list Q);
    seller_queries : sellerQueries;
    similar_products : result (list (Z * string)) }.

Record fraudResult : Type :=
  { score : Q; risk : Q; found : list string;
    recommendations : list string; reason : string }.

(** The checks catch their own errors, so the outer [catch] and its
    0.5 are never reached from here. *)
Definition analyzeProduct (p : product) : fraudResult :=
  let descriptionAnalysis := analyzeDescription (descrption p) in
  let priceAnalysis := analyzePrice (similar_prices p) (price p) in
  let sellerAnalysis := analyzeSellerBehavior (seller_queries p) in
  let duplicateAnalysis := checkForDuplicates (similar_products p) (name p) in
  let total :=
    0 + riskScore descriptionAnalysis + riskScore priceAnalysis
    + riskScore sellerAnalysis + riskScore duplicateAnalysis in
  let inds :=
    (indicators descriptionAnalysis ++ indicators priceAnalysis
     ++ indicators sellerAnalysis ++ indicators duplicateAnalysis)%list in
  let capped := qmin total 1.0 in
  {| score := 1 - capped; risk := capped; found := inds;
     recommendations := generateRecommendations capped inds;
     reason := getRiskReason capped |}.

(** A check that has an indicator for its risk and a risk for its
    indicators. *)
Definition tidy (a : check) : Prop :=
  (indicators a = [] /\ riskScore a == 0)
  \/ (indicators a <> [] /\ 0 < riskScore a).

End Fraud.

(** ** Two more cases *)

Module Cases.

(** A product without a description whose queries all reject. *)
Definition undescribed : Fraud.product :=
  {| Fraud.descrption := None; Fraud.price := 100; Fraud.name := "lamp";
     Fraud.similar_prices := Throw "timeout";
     Fraud.seller_queries :=
       {| Fraud.seller := Throw "timeout";
          Fraud.highValueProducts := Throw "timeout";
          Fraud.recentProducts := Throw "timeout";
          Fraud.allSellerProducts := Throw "timeout" |};
     Fraud.similar_products := Throw "timeout" |}.

End Cases.

(** * Properties *)

Unset Implicit Arguments.

(** The term a computation is waiting for: the innermost scrutinee at
    the head of nested matches (possibly applied to a state). *)
Ltac head_scrutinee t :=
  lazymatch t with
  | match ?x with _ => _ end => head_scrutinee x
  | ?f _ =>
      lazymatch f with
      | match ?x with _ => _ end => head_scrutinee x
      | _ => t
      end
  | _ => t
  end.

(** ** Aggregation: the renormalized weighted mean *)

Module AggregationFacts.
Import Aggregation.

Section Generic.
Context {num : Type} `{Arith num}.

Lemma fold_weighted_step (scores : scores_obj) (table : list (string * num))
      (a : acc) :
  fold_left (weighted_step scores) table a =
  (fold_left (fun t vw => nadd t (nmul (fst vw) (snd vw)))
             (present scores table) (fst a),
   fold_left (fun t vw => nadd t (snd vw)) (present scores table) (snd a)).
Proof.
  revert a.
  induction table as [| [factor weight] rest IH]; intros [ts tw].
  - reflexivity.
  - simpl fold_left. rewrite IH. simpl present.
    unfold weighted_step.
    destruct (numeric_score (scores factor)) as [s|]; reflexivity.
Qed.

Lemma fold_behavior_step (analyses : list (category * option analysis))
      (a : acc) :
  fold_left behavior_step analyses a =
  (fold_left (fun t vw => nadd t (nmul (fst vw) (snd vw)))
             (present_analyses analyses) (fst a),
   fold_left (fun t vw => nadd t (snd vw)) (present_analyses analyses) (snd a)).
Proof.
  revert a.
  induction analyses as [| [c an] rest IH]; intros [ts tw].
  - reflexivity.
  - simpl fold_left. rewrite IH. simpl present_analyses.
    unfold behavior_step.
    destruct (numeric_analysis an) as [s|]; reflexivity.
Qed.

Lemma calculateWeightedScore_mean (scores : scores_obj) :
  calculateWeightedScore scores = weighted_mean (present scores scoringWeights).
Proof.
  unfold calculateWeightedScore, weighted_mean, finish, sum_weights, sum_weighted.
  rewrite fold_weighted_step. reflexivity.
Qed.

Lemma calculateBehaviorScore_mean (analyses : list (category * option analysis)) :
  calculateBehaviorScore analyses = weighted_mean (present_analyses analyses).
Proof.
  unfold calculateBehaviorScore, weighted_mean, finish, sum_weights, sum_weighted.
  rewrite fold_behavior_step. reflexivity.
Qed.

(** A failed analyzer contributes no pair at all: marking it failed is
    the same as striking its row from the weight table. *)
Lemma present_mark_failed (failed : list string) (scores : scores_obj)
      (table : list (string * num)) :
  present (mark_failed failed scores) table =
  present scores
          (filter (fun e => negb (existsb (String.eqb (fst e)) failed)) table).
Proof.
  induction table as [| [factor weight] rest IH]; simpl.
  - reflexivity.
  - unfold mark_failed at 1.
    destruct (existsb (String.eqb factor) failed); simpl.
    + exact IH.
    + destruct (numeric_score (scores factor)); rewrite IH; reflexivity.
Qed.

(** Only what the guard lets through matters. *)
Lemma present_ext (s1 s2 : scores_obj) (table : list (string * num)) :
  (forall e, In e table -> numeric_score (s1 (fst e)) = numeric_score (s2 (fst e))) ->
  present s1 table = present s2 table.
Proof.
  induction table as [| [factor weight] rest IH]; intros Hagree; simpl.
  - reflexivity.
  - pose proof (Hagree (factor, weight) (or_introl eq_refl)) as Hhead.
    simpl in Hhead. rewrite Hhead.
    rewrite IH by (intros e He; apply Hagree; right; exact He).
    reflexivity.
Qed.

(** C1.  The aggregate is the weighted mean Σ(value·weight)/Σ(weight)
    over exactly the partial scores that are present and numeric (the
    neutral 0.5 when their weights do not sum to a positive number),
    both in [calculateWeightedScore] and in [calculateBehaviorScore].  A
    failed analyzer's row is struck from numerator and denominator
    alike, so two score objects that differ only on the analyzers marked
    failed aggregate to the same value; more generally the aggregate
    depends on nothing but the numeric scores that pass the guard.  No
    law of arithmetic is used: the statement holds for any
    interpretation of JavaScript's [+], [*], [/] and [>]. *)
Theorem aggregate_is_renormalized_mean :
  (forall scores : scores_obj,
      calculateWeightedScore scores
      = weighted_mean (present scores scoringWeights))
  /\ (forall analyses : list (category * option analysis),
      calculateBehaviorScore analyses
      = weighted_mean (present_analyses analyses))
  /\ (forall (failed : list string) (scores : scores_obj),
      calculateWeightedScore (mark_failed failed scores)
      = weighted_mean
          (present scores
             (filter (fun e => negb (existsb (String.eqb (fst e)) failed))
                     scoringWeights)))
  /\ (forall (failed : list string) (s1 s2 : scores_obj),
      (forall factor, existsb (String.eqb factor) failed = false ->
                      s1 factor = s2 factor) ->
      calculateWeightedScore (mark_failed failed s1)
      = calculateWeightedScore (mark_failed failed s2))
  /\ (forall s1 s2 : scores_obj,
      (forall factor, numeric_score (s1 factor) = numeric_score (s2 factor)) ->
      calculateWeightedScore s1 = calculateWeightedScore s2).
Proof.
  split; [exact calculateWeightedScore_mean |].
  split; [exact calculateBehaviorScore_mean |].
  split; [| split].
  - intros failed scores.
    rewrite calculateWeightedScore_mean, present_mark_failed. reflexivity.
  - intros failed s1 s2 Hagree.
    rewrite !calculateWeightedScore_mean.
    f_equal. apply present_ext. intros [factor weight] _. simpl.
    unfold mark_failed.
    destruct (existsb (String.eqb factor) failed) eqn:E.
    + reflexivity.
    + rewrite (Hagree factor E). reflexivity.
  - intros s1 s2 Hagree.
    rewrite !calculateWeightedScore_mean.
    f_equal. apply present_ext. intros e _. apply Hagree.
Qed.

End Generic.

(** With rational scores: dropping a failed analyzer is not the same as
    scoring it zero. *)
Lemma failed_is_not_zero :
  Qeq (calculateWeightedScore (Scenario.two_scores None)) 0.8
  /\ Qeq (calculateWeightedScore
            (Scenario.two_scores (Some (Analyzers.mkPartial 0 "Fraud risk detected"))))
         0.5.
Proof. split; vm_compute; reflexivity. Qed.

Lemma aggregate_is_renormalized_mean_witness :
  calculateWeightedScore
    (mark_failed ["fraudScore"%string]
       (Scenario.two_scores (Some (Analyzers.mkPartial 0 "Fraud risk detected"))))
  = calculateWeightedScore
      (mark_failed ["fraudScore"%string]
         (Scenario.two_scores (Some (Analyzers.mkPartial 1 "Low fraud risk")))).
Proof.
  apply (proj1 (proj2 (proj2 (proj2 aggregate_is_renormalized_mean)))).
  intros factor Hnot. unfold Scenario.two_scores.
  destruct (factor =? "socialVerification")%string; [reflexivity |].
  simpl in Hnot. rewrite orb_false_r in Hnot. rewrite Hnot. reflexivity.
Defined.

End AggregationFacts.

(** ** Tiers *)

Module TierFacts.
Import Aggregation Tiers.

Local Open Scope Q_scope.

(** A band's lower bound belongs to the band. *)
Lemma band_minimum_is_in_band :
  forall name c, In (name, c) scoreTiers ->
                 tier (getScoreTier (min c)) = Some name.
Proof.
  intros name c Hin. simpl in Hin.
  repeat (destruct Hin as [Heq | Hin];
          [injection Heq as <- <-; vm_compute; reflexivity |]).
  contradiction.
Qed.

Lemma in_band_bounds (c : tierConfig) (v : Q) :
  in_band c v = true -> min c <= v /\ v <= max c.
Proof.
  unfold in_band. intros Hb. apply andb_true_iff in Hb as [Hlo Hhi].
  split; apply Qle_bool_iff; assumption.
Qed.

(** No score lies in two bands. *)
Lemma bands_do_not_overlap (v : Q) : (List.length (bands_of v) <= 1)%nat.
Proof.
  unfold bands_of, scoreTiers. simpl filter.
  repeat match goal with
         | |- context [if in_band ?c v then _ else _] =>
             let E := fresh "E" in
             destruct (in_band c v) eqn:E;
             [apply in_band_bounds in E; simpl in E |]
         end;
    simpl; try lia;
    exfalso;
    repeat match goal with H : _ /\ _ |- _ => destruct H end;
    lra.
Qed.

(** C2 (what the code does at the failing input).  The bands of
    [scoreTiers] end at 0.89, 0.79, ... while the next band starts at
    0.9, 0.8, ...: the score 0.8999 lies in no band, falls through the
    loop to the [veryPoor] object and is shown as Very Poor, below the
    tier of the smaller score 0.85.  Such scores do arise: the seller
    of [Scenario.strong_seller] aggregates to 0.895 and is stored with
    the label Very Poor and no tier name. *)
Theorem tier_bands_leave_gaps :
  bands_of 0.8999 = []
  /\ tier (getScoreTier 0.8999) = None
  /\ tierOf 0.8999 = VeryPoor
  /\ tierOf 0.85 = VeryGood
  /\ 0.85 < 0.8999
  /\ (rank (tierOf 0.8999) < rank (tierOf 0.85))%nat
  /\ tierOf 0.9 = Excellent
  /\ (exists r,
         SellerScore.calculateSellerScore 7 Scenario.strong_seller = Ok r
         /\ SellerScore.overallScore r == 0.895
         /\ tier (SellerScore.scoreTier r) = None
         /\ st_label (SellerScore.scoreTier r) = "Very Poor"%string
         /\ option_map SellerScore.sellerScoreLabel (SellerScore.persisted r)
            = Some "Very Poor"%string).
Proof.
  repeat split; try (vm_compute; reflexivity).
  - vm_compute. lia.
  - eexists. split; [reflexivity |].
    repeat split; vm_compute; reflexivity.
Qed.

Lemma present_nil (scores : scores_obj (num := Q)) (table : list (string * Q)) :
  (forall factor, In factor (map fst table) ->
                  numeric_score (scores factor) = None) ->
  present scores table = [].
Proof.
  induction table as [| [factor weight] rest IH]; intros Hnone; simpl.
  - reflexivity.
  - rewrite (Hnone factor) by (left; reflexivity).
    apply IH. intros f Hf. apply Hnone. right. exact Hf.
Qed.

Lemma fold_weights_grow (ps : list (Q * Q)) (a : Q) :
  (forall p, In p ps -> 0 < snd p) ->
  a <= fold_left (fun t vw => t + snd vw) ps a.
Proof.
  revert a. induction ps as [| p rest IH]; intros a Hpos; simpl.
  - lra.
  - assert (0 < snd p) by (apply Hpos; left; reflexivity).
    assert (a + snd p <= fold_left (fun t vw => t + snd vw) rest (a + snd p))
      by (apply IH; intros q Hq; apply Hpos; right; exact Hq).
    lra.
Qed.

Lemma present_weights_positive (scores : scores_obj (num := Q))
      (table : list (string * Q)) :
  (forall e, In e table -> 0 < snd e) ->
  forall p, In p (present scores table) -> 0 < snd p.
Proof.
  induction table as [| [factor weight] rest IH]; intros Hpos p Hp; simpl in Hp.
  - contradiction.
  - assert (Hrest : forall e, In e rest -> 0 < snd e)
      by (intros e He; apply Hpos; right; exact He).
    destruct (numeric_score (scores factor)).
    + destruct Hp as [<- | Hp].
      * exact (Hpos (factor, weight) (or_introl eq_refl)).
      * exact (IH Hrest p Hp).
    + exact (IH Hrest p Hp).
Qed.

(** With the weights of [scoringWeights] the neutral 0.5 is returned
    only when no partial score is present: one present score already
    makes the total weight positive. *)
Lemma total_weight_positive (scores : scores_obj (num := Q)) :
  present scores scoringWeights <> [] ->
  ngt (sum_weights (present scores scoringWeights)) (nlit 0) = true.
Proof.
  intros Hne.
  assert (Hpos : forall p, In p (present scores scoringWeights) -> 0 < snd p).
  { apply present_weights_positive. intros e He. simpl in He.
    repeat (destruct He as [<- | He]; [reflexivity |]). contradiction. }
  destruct (present scores scoringWeights) as [| p rest]; [congruence |].
  unfold sum_weights. simpl.
  assert (0 < snd p) by (apply Hpos; left; reflexivity).
  assert (0 + snd p <= fold_left (fun t vw => t + snd vw) rest (0 + snd p))
    by (apply fold_weights_grow; intros q Hq; apply Hpos; right; exact Hq).
  apply negb_true_iff. apply not_true_is_false. intros Hle.
  apply Qle_bool_iff in Hle. lra.
Qed.

(** C6 as stated fails: with every analyzer missing the aggregate is
    0.5, and [getScoreTier] does not place 0.5 in the Fair band. *)
Lemma sentinel_tier_is_not_fair :
  ~ (calculateWeightedScore (fun _ => None) = 0.5
     /\ tierOf (calculateWeightedScore (fun _ => None)) = Fair).
Proof. vm_compute. intros [_ Hfair]. discriminate Hfair. Qed.

(** C6, amended.  If no partial score is present and numeric, the
    aggregate is the neutral 0.5, which [getScoreTier] places in the
    band [poor] (0.4 to 0.59). *)
Theorem all_failed_gives_neutral_poor (scores : scores_obj (num := Q)) :
  (forall factor, In factor (map fst scoringWeights) ->
                  numeric_score (scores factor) = None) ->
  calculateWeightedScore scores = 0.5
  /\ tier (getScoreTier (calculateWeightedScore scores)) = Some "poor"%string
  /\ tierOf (calculateWeightedScore scores) = Poor.
Proof.
  intros Hnone.
  assert (Hval : calculateWeightedScore scores = 0.5).
  { rewrite AggregationFacts.calculateWeightedScore_mean.
    rewrite (present_nil scores scoringWeights Hnone). reflexivity. }
  rewrite Hval. repeat split; vm_compute; reflexivity.
Qed.

Lemma all_failed_gives_neutral_poor_witness :
  calculateWeightedScore Scenario.unusable_scores = 0.5
  /\ tier (getScoreTier (calculateWeightedScore Scenario.unusable_scores))
     = Some "poor"%string
  /\ tierOf (calculateWeightedScore Scenario.unusable_scores) = Poor.
Proof.
  apply (all_failed_gives_neutral_poor Scenario.unusable_scores).
  intros factor Hin. simpl in Hin.
  repeat (destruct Hin as [<- | Hin]; [reflexivity |]).
  contradiction.
Defined.

End TierFacts.

(** ** Analyzer failures *)

Module SellerScoreFacts.
Import Aggregation Analyzers SellerScore.

Local Open Scope Q_scope.

Lemma mkPartial_numeric (s : Q) (r : string) : numeric (mkPartial s r).
Proof. exists s. reflexivity. Qed.

Create HintDb analyzers.
#[local] Hint Resolve mkPartial_numeric : analyzers.

Ltac analyzer_cases :=
  unfold try_or, rbind;
  repeat match goal with
         | |- numeric (match ?x with _ => _ end) =>
             let h := head_scrutinee x in destruct h; simpl
         end;
  auto with analyzers.

Lemma social_numeric fetch : numeric (calculateSocialVerificationScore fetch).
Proof. unfold calculateSocialVerificationScore. analyzer_cases. Qed.

Lemma legitimacy_numeric fetch : numeric (calculateLegitimacyScore fetch).
Proof. unfold calculateLegitimacyScore. analyzer_cases. Qed.

Lemma behavior_numeric fetch : numeric (Analyzers.calculateBehaviorScore fetch).
Proof. unfold Analyzers.calculateBehaviorScore. analyzer_cases. Qed.

Lemma fraud_numeric fetch analyze : numeric (calculateFraudScore fetch analyze).
Proof. unfold calculateFraudScore. analyzer_cases. Qed.

Lemma transaction_numeric draws : numeric (calculateTransactionScore draws).
Proof. unfold calculateTransactionScore. auto with analyzers. Qed.

Lemma quality_numeric fetch : numeric (calculateProductQualityScore fetch).
Proof. unfold calculateProductQualityScore. analyzer_cases. Qed.

Lemma fanout_numeric (env : environment) :
  forall factor p, In (factor, p) (analyzer_fanout env) -> numeric p.
Proof.
  intros factor p Hin. unfold analyzer_fanout in Hin. simpl in Hin.
  repeat (destruct Hin as [Heq | Hin]; [injection Heq as _ <- |]).
  - apply social_numeric.
  - apply legitimacy_numeric.
  - apply behavior_numeric.
  - apply fraud_numeric.
  - apply transaction_numeric.
  - apply quality_numeric.
  - contradiction.
Qed.

(** C7.  Whatever an analyzer's data fetch does (resolve, report
    [success: false], or reject), the analyzer returns a partial score:
    a rejection is caught and becomes the analyzer's fallback partial.
    Once the user row is found, [calculateSellerScore] therefore always
    resolves, with a breakdown of six numeric partial scores and their
    weighted aggregate; no analyzer error reaches its caller, not even
    when the final [User.update] rejects. *)
Theorem analyzer_failures_are_absorbed :
  (forall m, calculateSocialVerificationScore (Throw m)
             = mkPartial 0.3 "Social verification analysis failed")
  /\ (forall m, calculateLegitimacyScore (Throw m)
                = mkPartial 0.5 "Legitimacy analysis failed")
  /\ (forall m, Analyzers.calculateBehaviorScore (Throw m)
                = mkPartial 0.5 "Behavior analysis failed")
  /\ (forall m analyze, calculateFraudScore (Throw m) analyze
                        = mkPartial 0.5 "Fraud analysis failed")
  /\ (forall m, calculateProductQualityScore (Throw m)
                = mkPartial 0.5 "Product quality analysis failed")
  /\ (forall uid name social legitimacy behavior fraud analyze draws quality update,
         let env :=
           {| user_lookup := Ok (Some name); linked := social;
              legitimacy_row := legitimacy; behavior_row := behavior;
              fraud_products := fraud; analyzeProduct := analyze;
              random_draws := draws; quality_products := quality;
              user_update := update |} in
         exists r,
           calculateSellerScore uid env = Ok r
           /\ breakdown r = analyzer_fanout env
           /\ overallScore r
              = calculateWeightedScore (fun factor => lookup factor (breakdown r))
           /\ scoreTier r = Tiers.getScoreTier (overallScore r)
           /\ forall factor p, In (factor, p) (breakdown r) -> numeric p).
Proof.
  repeat (split; [reflexivity |]).
  intros uid name social legitimacy behavior fraud analyze draws quality update env.
  eexists. split; [reflexivity |]. simpl breakdown.
  repeat (split; [reflexivity |]).
  apply fanout_numeric.
Qed.

(** A failed analyzer is not dropped from the aggregate: its fallback
    partial is numeric, so all six weights always enter the mean. *)
Lemma fanout_all_present (env : environment) :
  List.length (present (fun factor => lookup factor (analyzer_fanout env))
                       scoringWeights) = 6%nat.
Proof.
  unfold scoringWeights, analyzer_fanout.
  destruct (social_numeric (linked env)) as [q1 H1].
  destruct (legitimacy_numeric (legitimacy_row env)) as [q2 H2].
  destruct (behavior_numeric (behavior_row env)) as [q3 H3].
  destruct (fraud_numeric (fraud_products env) (analyzeProduct env)) as [q4 H4].
  destruct (transaction_numeric (random_draws env)) as [q5 H5].
  destruct (quality_numeric (quality_products env)) as [q6 H6].
  destruct (calculateSocialVerificationScore (linked env)) as [s1 r1].
  destruct (calculateLegitimacyScore (legitimacy_row env)) as [s2 r2].
  destruct (Analyzers.calculateBehaviorScore (behavior_row env)) as [s3 r3].
  destruct (calculateFraudScore (fraud_products env) (analyzeProduct env)) as [s4 r4].
  destruct (calculateTransactionScore (random_draws env)) as [s5 r5].
  destruct (calculateProductQualityScore (quality_products env)) as [s6 r6].
  simpl in H1, H2, H3, H4, H5, H6. subst.
  reflexivity.
Qed.

(** Without the user row the computation does reject. *)
Lemma calculateSellerScore_user_not_found (uid : Z) (env : environment) :
  user_lookup env = Ok None ->
  calculateSellerScore uid env
  = Throw "Seller score calculation failed: User not found".
Proof. intros Hnone. unfold calculateSellerScore. rewrite Hnone. reflexivity. Qed.

End SellerScoreFacts.

(** ** The scheduler has no in-progress guard *)

Module SchedulerFacts.
Import Scheduler.

Lemma in_flight_after_firings (batches : list (list Z)) (s : state) :
  in_flight (fold_left step (map TimerFires batches) s)
  = (List.length batches + in_flight s)%nat.
Proof.
  revert s. induction batches as [| stale rest IH]; intros s; simpl.
  - reflexivity.
  - rewrite IH. unfold in_flight. simpl. rewrite length_app. simpl. lia.
Qed.

(** C9 as stated fails: when the timer fires twice before the first
    run has scored anyone, two runs of the queue are in flight, each
    with sellers 1 and 2 still to score. *)
Lemma two_firings_overlap :
  never_overlaps [TimerFires [1; 2]%Z; TimerFires [1; 2]%Z] = false
  /\ runs (run [TimerFires [1; 2]%Z; TimerFires [1; 2]%Z])
     = [[1; 2]%Z; [1; 2]%Z].
Proof. split; reflexivity. Qed.

(** C9, amended.  Every firing of the timer starts a run of the
    scoring queue next to whatever is still in flight: nothing is
    skipped, and [n] firings during which no run settles leave [n]
    overlapping runs. *)
Theorem every_firing_starts_a_run :
  (forall s stale,
      runs (step s (TimerFires stale)) = (runs s ++ [stale])%list
      /\ in_flight (step s (TimerFires stale)) = S (in_flight s)
      /\ started (step s (TimerFires stale)) = S (started s))
  /\ (forall batches,
      in_flight (run (map TimerFires batches)) = List.length batches).
Proof.
  split.
  - intros s stale. repeat split.
    unfold in_flight. simpl. rewrite length_app. simpl. lia.
  - intros batches. unfold run. rewrite in_flight_after_firings.
    unfold in_flight. simpl. lia.
Qed.

End SchedulerFacts.

(** ** The ledger *)

Module StoreFacts.
Import Store.

(** No write changes the dialect of the database. *)
Lemma engine_apply_log (d : db) (l : list write) :
  engine (apply_log d l) = engine d.
Proof.
  unfold apply_log. revert d.
  induction l as [| w rest IH]; intros d; simpl; [reflexivity |].
  rewrite IH. destruct w; reflexivity.
Qed.

Lemma find_filter_negb {A} (p : A -> bool) (l : list A) :
  find p (filter (fun x => negb (p x)) l) = None.
Proof.
  induction l as [| x rest IH]; simpl.
  - reflexivity.
  - destruct (p x) eqn:E; simpl.
    + exact IH.
    + rewrite E. exact IH.
Qed.

Lemma filter_filter_negb {A} (p : A -> bool) (l : list A) :
  filter p (filter (fun x => negb (p x)) l) = [].
Proof.
  induction l as [| x rest IH]; simpl.
  - reflexivity.
  - destruct (p x) eqn:E; simpl.
    + exact IH.
    + rewrite E. exact IH.
Qed.

Lemma filter_negb_id {A} (p : A -> bool) (l : list A) :
  filter p l = [] -> filter (fun x => negb (p x)) l = l.
Proof.
  induction l as [| x rest IH]; simpl; intros Hnone.
  - reflexivity.
  - destruct (p x); [discriminate |]. simpl. rewrite IH by exact Hnone.
    reflexivity.
Qed.

Lemma find_none_filter_nil {A} (p : A -> bool) (l : list A) :
  find p l = None -> filter p l = [].
Proof.
  induction l as [| x rest IH]; simpl; intros Hnone.
  - reflexivity.
  - destruct (p x); [discriminate |]. exact (IH Hnone).
Qed.

(** After [rollbackOrder]'s two deletions no row of the order is left. *)
Lemma destroyed_order_is_gone (d : db) (oid : string) :
  let d' := apply_log d [DestroyTxns oid; DestroyOrders oid] in
  find_order d' oid = None /\ txns_of_order d' oid = [] /\ products d' = products d.
Proof.
  simpl. unfold find_order, txns_of_order. simpl.
  split; [apply find_filter_negb |].
  split; [| reflexivity].
  exact (filter_filter_negb (fun t => (txn_order t =? oid)%string) (transactions d)).
Qed.

(** The deletions change nothing when the order has no rows. *)
Lemma destroy_absent_order (d : db) (oid : string) :
  find_order d oid = None -> txns_of_order d oid = [] ->
  apply_log d [DestroyTxns oid; DestroyOrders oid] = d.
Proof.
  unfold find_order, txns_of_order. intros Horder Htxns.
  destruct d as [us ps os ts]. simpl in *. unfold with_orders, with_transactions.
  simpl. f_equal.
  - apply (filter_negb_id (fun o => (order_id o =? oid)%string)).
    apply find_none_filter_nil. exact Horder.
  - apply (filter_negb_id (fun t => (txn_order t =? oid)%string)). exact Htxns.
Qed.

Lemma find_order_set (os : list orderRow) (oid : string)
      (s e : option string) (o : orderRow) :
  find (fun o => (order_id o =? oid)%string) os = Some o ->
  find (fun o => (order_id o =? oid)%string)
       (map (fun o => if (order_id o =? oid)%string then set_order o s e else o) os)
  = Some (set_order o s e).
Proof.
  induction os as [| x rest IH]; simpl; intros Hfind.
  - discriminate.
  - destruct (order_id x =? oid)%string eqn:E.
    + injection Hfind as <-. simpl. rewrite E. reflexivity.
    + rewrite E. exact (IH Hfind).
Qed.

Lemma find_order_id (d : db) (oid : string) (o : orderRow) :
  find_order d oid = Some o -> order_id o = oid.
Proof.
  unfold find_order. intros Hfind. apply find_some in Hfind as [_ Heq].
  apply String.eqb_eq. exact Heq.
Qed.

Lemma status_rollback_order (d : db) (new : txnRow) (oid intent : string)
      (o : orderRow) :
  find_order d oid = Some o ->
  exists o', find_order (after_status_rollback d new oid intent) oid = Some o'
             /\ status o' = "paid"
             /\ buyer_id o' = buyer_id o /\ seller_id o' = seller_id o.
Proof.
  intros Hfind. unfold after_status_rollback, find_order in *. simpl.
  eexists. split.
  - apply find_order_set. apply find_order_set. exact Hfind.
  - repeat split.
Qed.

Lemma status_rollback_no_pending (d : db) (new : txnRow) (oid intent : string) :
  forall t, In t (txns_of_order (after_status_rollback d new oid intent) oid) ->
            txn_status t <> "pending".
Proof.
  intros t Hin. unfold after_status_rollback, txns_of_order in Hin. simpl in Hin.
  apply filter_In in Hin as [Hin Horder].
  apply in_map_iff in Hin as [t0 [Heq _]].
  destruct ((txn_order t0 =? oid)%string && (txn_status t0 =? "pending")%string) eqn:E.
  - subst t. simpl. discriminate.
  - subst t. rewrite Horder in E. simpl in E.
    apply String.eqb_neq. exact E.
Qed.

Lemma status_rollback_marks_new (d : db) (new : txnRow) (oid intent : string) :
  txn_order new = oid -> txn_status new = "pending" ->
  exists t, In t (transactions (after_status_rollback d new oid intent))
            /\ transaction_id t = transaction_id new
            /\ transaction_type t = transaction_type new
            /\ txn_order t = oid
            /\ txn_status t = "failed".
Proof.
  intros Horder Hstatus. unfold after_status_rollback. simpl.
  exists (set_txn new "failed" None None). split.
  - apply in_map_iff. exists new. split.
    + rewrite Horder, Hstatus, String.eqb_refl. reflexivity.
    + apply in_or_app. right. left. reflexivity.
  - repeat split. exact Horder.
Qed.

End StoreFacts.

(** ** The escrow operations *)

Module EscrowFacts.
Import Store Sequelize Escrow StoreFacts.

(** Unfold the monad and the model calls, keeping queries over the
    tables folded. *)
Ltac run_monad H :=
  cbv beta iota zeta delta
      [createProductEscrow releaseEscrow raiseDispute rollbackOrder
       rollbackOrderStatus rollback_unless_finished payment_call ipfs_upload
       included token_config
       User_findByPk Product_findByPk Order_findOne Order_create
       Transaction_create product_decrement order_update txn_update
       Order_update_where Transaction_update_where Transaction_destroy
       Order_destroy
       enum_write checks_enums
       Sequelize.transaction open_state read exec close commit rollback
       is_finished bind catch ret throw emit init_world
       committed txs trace log finished
       nth_error upd_nth List.length app negb andb] in H.

(** Decide the membership of a written value in its ENUM, and read the
    dialect off the store the run started from. *)
Ltac settle_enums H :=
  repeat match type of H with
         | context [enum_member ?values ?v] =>
             let b := eval vm_compute in (enum_member values v) in
             lazymatch b with
             | true => change (enum_member values v) with true in H
             | false => change (enum_member values v) with false in H
             end
         end;
  rewrite ?engine_apply_log in H;
  repeat match goal with
         | E : engine ?d = _ |- _ => rewrite E in H
         end.

(** One step of evaluation: branch on the first test the run is
    waiting for. *)
Ltac normalize H := run_monad H; settle_enums H; run_monad H.

Ltac eval_step H :=
  normalize H;
  lazymatch type of H with
  | _ = ?rhs =>
      let h := head_scrutinee rhs in
      lazymatch h with
      | (_, _) => fail
      | _ => destruct h eqn:?
      end
  end.

(** All runs of an operation from [init_world d], one goal per path. *)
Ltac all_runs out :=
  match goal with
  | Hout : out = _ |- _ =>
      repeat eval_step Hout; normalize Hout; subst out;
      cbn [fst snd trace committed order_id transaction_id txn_order
           txn_status transaction_type apply_log fold_left] in *
  end.

Ltac no_settlement :=
  match goal with
  | H : In (Settlement _) _ |- _ =>
      simpl in H;
      repeat (destruct H as [H | H]; [discriminate H |]);
      contradiction H
  end.

Ltac flag_clash :=
  match goal with
  | H : true = false |- _ => discriminate H
  | H : false = true |- _ => discriminate H
  | H1 : ?x = true, H2 : ?x = false |- _ =>
      rewrite H1 in H2; discriminate H2
  end.

Lemma create_settlement_failure_run env d buyerId productId qty token :
  forall out, out = createProductEscrow env buyerId productId qty token (init_world d) ->
  In (Settlement "createEscrowPurchase") (trace (snd out)) ->
  success (settlement env) = false ->
  fst out = Throw ("Purchase failed: Escrow creation failed: "
                   ++ error (settlement env))
  /\ committed (snd out)
     = apply_log d [DestroyTxns (generateOrderId env);
                    DestroyOrders (generateOrderId env)]
  /\ find_order d (generateOrderId env) = None
  /\ trace (snd out)
     = [Begin 0; ContentStore; Settlement "createEscrowPurchase";
        Begin 1; Commit 1; Rollback 0]
  /\ all_finished (snd out) = true.
Proof.
  intros out Hout Hin Hfail.
  all_runs out; try no_settlement; try flag_clash.
  repeat split. assumption.
Qed.

(** Whenever [createProductEscrow] reaches the payment service, its
    first transaction is still open. *)
Lemma create_settles_inside_transaction env d buyerId productId qty token :
  forall out, out = createProductEscrow env buyerId productId qty token (init_world d) ->
  In (Settlement "createEscrowPurchase") (trace (snd out)) ->
  open_at_settlement [] (trace (snd out)) = [("createEscrowPurchase", [0%nat])].
Proof.
  intros out Hout Hin.
  all_runs out; try no_settlement; reflexivity.
Qed.

(** [releaseEscrow] and [raiseDispute] commit their first transaction
    before they call the payment service. *)
Lemma release_settles_outside_transactions env d buyerId orderId :
  settles_outside_transactions
    (trace (snd (releaseEscrow env buyerId orderId (init_world d)))) = true.
Proof.
  remember (releaseEscrow env buyerId orderId (init_world d)) as out eqn:Hout.
  all_runs out; reflexivity.
Qed.

Lemma dispute_settles_outside_transactions env d userId orderId :
  settles_outside_transactions
    (trace (snd (raiseDispute env userId orderId (init_world d)))) = true.
Proof.
  remember (raiseDispute env userId orderId (init_world d)) as out eqn:Hout.
  all_runs out; reflexivity.
Qed.



(** On that path nothing of the purchase stays committed: the product
    rows are what they were, and so is the whole store when the order id
    had no rows. *)
Lemma settlement_failure_restores_store env d buyerId productId qty token :
  In (Settlement "createEscrowPurchase")
     (trace (snd (createProductEscrow env buyerId productId qty token
                                      (init_world d)))) ->
  success (settlement env) = false ->
  products (committed (snd (createProductEscrow env buyerId productId qty token
                                                (init_world d))))
  = products d
  /\ (txns_of_order d (generateOrderId env) = [] ->
      committed (snd (createProductEscrow env buyerId productId qty token
                                          (init_world d))) = d).
Proof.
  intros Hin Hfail.
  destruct (create_settlement_failure_run env d buyerId productId qty token
              _ eq_refl Hin Hfail) as (_ & Hdb & Hfresh & _).
  rewrite Hdb. split.
  - apply destroyed_order_is_gone.
  - intros Hnone. apply destroy_absent_order; assumption.
Qed.

(** C5 (what the code does at the failing input).  Buying 2 of the 5
    lamps with the payment service down: the call rejects, and the
    committed quantity of product 42 is 5 again, not 3, because the
    decrement was made in the transaction that the [catch] rolls back. *)
Theorem failed_purchase_restores_quantity :
  let out := createProductEscrow
               (Scenario.request "ORD-A1" "TXN-A1" Scenario.backend_down)
               1 42 2 "USDC" (init_world Scenario.shop) in
  fst out = Throw "Purchase failed: Escrow creation failed: bundler unavailable"
  /\ option_map quantity (find_product Scenario.shop 42) = Some 5%Z
  /\ option_map quantity (find_product (committed (snd out)) 42) = Some 5%Z
  /\ committed (snd out) = Scenario.shop.
Proof. vm_compute. repeat split. Qed.

(** C4 (what the code does at the failing input).  In a purchase that
    succeeds, the payment service is called while transaction 0 (the
    one holding the new order, the new ledger entry and the decrement)
    is open; its commit comes after the call. *)
Theorem purchase_settles_inside_transaction :
  let out := createProductEscrow
               (Scenario.request "ORD-A1" "TXN-A1" Scenario.backend_ok)
               1 42 2 "USDC" (init_world Scenario.shop) in
  trace (snd out)
  = [Begin 0; ContentStore; Settlement "createEscrowPurchase"; Commit 0;
     Begin 1; Commit 1]
  /\ open_at_settlement [] (trace (snd out)) = [("createEscrowPurchase", [0%nat])]
  /\ settles_outside_transactions (trace (snd out)) = false.
Proof. vm_compute. repeat split. Qed.


(** *** Release and dispute *)

Ltac eqb_facts :=
  repeat match goal with
         | H : (_ =? _)%Z = true |- _ => apply Z.eqb_eq in H
         | H : (_ =? _)%Z = false |- _ => apply Z.eqb_neq in H
         | H : (_ =? _)%string = true |- _ => apply String.eqb_eq in H
         | H : (_ =? _)%string = false |- _ => apply String.eqb_neq in H
         end.

Lemma release_settlement_failure_run env d buyerId orderId :
  forall out, out = releaseEscrow env buyerId orderId (init_world d) ->
  In (Settlement "releaseEscrow") (trace (snd out)) ->
  success (settlement env) = false ->
  exists o new,
    find_order d orderId = Some o
    /\ status o = "paid" /\ buyer_id o = buyerId
    /\ txn_order new = orderId /\ txn_status new = "pending"
    /\ transaction_id new = generateTransactionId env
    /\ transaction_type new = "escrow_release"
    /\ fst out = Throw ("Release failed: Escrow release failed: "
                        ++ error (settlement env))
    /\ committed (snd out) = after_status_rollback d new orderId "release_pending".
Proof.
  intros out Hout Hin Hfail.
  all_runs out; try no_settlement; try flag_clash.
  eqb_facts.
  match goal with
  | |- context [InsertTxn ?n] => exists o, n
  end.
  rewrite (find_order_id d orderId o) by assumption.
  repeat split; assumption.
Qed.

Lemma dispute_settlement_failure_run env d userId orderId :
  forall out, out = raiseDispute env userId orderId (init_world d) ->
  In (Settlement "raiseDispute") (trace (snd out)) ->
  success (settlement env) = false ->
  exists o new,
    find_order d orderId = Some o
    /\ txn_order new = orderId /\ txn_status new = "pending"
    /\ transaction_id new = generateTransactionId env
    /\ transaction_type new = "escrow_dispute"
    /\ fst out = Throw ("Dispute failed: Dispute raise failed: "
                        ++ error (settlement env))
    /\ committed (snd out) = after_status_rollback d new orderId "dispute_pending".
Proof.
  intros out Hout Hin Hfail.
  all_runs out; try no_settlement; try flag_clash.
  all: match goal with
       | |- context [InsertTxn ?n] => exists o, n
       end.
  all: rewrite (find_order_id d orderId o) by assumption.
  all: repeat split; assumption.
Qed.

(** C8.  [releaseEscrow] resolves only for an order in status [paid]
    released by its buyer; a call by anyone else, or on an order in
    another status, rejects before the payment service is called and
    leaves the committed store as it was; and when the payment service
    reports failure the order is committed back to [paid] and the
    pending [escrow_release] entry is marked [failed]. *)
Theorem releaseEscrow_guards_and_rollback env d buyerId orderId :
  let out := releaseEscrow env buyerId orderId (init_world d) in
  (forall r, fst out = Ok r ->
             exists o, find_order d orderId = Some o
                       /\ status o = "paid" /\ buyer_id o = buyerId)
  /\ (forall o, find_order d orderId = Some o ->
                buyer_id o <> buyerId \/ status o <> "paid" ->
                (exists m, fst out = Throw m)
                /\ committed (snd out) = d
                /\ ~ In (Settlement "releaseEscrow") (trace (snd out)))
  /\ (In (Settlement "releaseEscrow") (trace (snd out)) ->
      success (settlement env) = false ->
      fst out = Throw ("Release failed: Escrow release failed: "
                       ++ error (settlement env))
      /\ (exists o', find_order (committed (snd out)) orderId = Some o'
                     /\ status o' = "paid")
      /\ (forall t, In t (txns_of_order (committed (snd out)) orderId) ->
                    txn_status t <> "pending")
      /\ (exists t, In t (transactions (committed (snd out)))
                    /\ transaction_id t = generateTransactionId env
                    /\ transaction_type t = "escrow_release"
                    /\ txn_order t = orderId
                    /\ txn_status t = "failed")).
Proof.
  cbv zeta. split; [| split].
  - remember (releaseEscrow env buyerId orderId (init_world d)) as out eqn:Hout.
    intros r Hr.
    all_runs out; try discriminate Hr.
    eqb_facts. exists o. repeat split; assumption.
  - remember (releaseEscrow env buyerId orderId (init_world d)) as out eqn:Hout.
    intros o' Hfind Hguard.
    all_runs out;
      rewrite Hfind in *; try discriminate;
      match goal with
      | H : Some _ = Some _ |- _ => injection H as ->
      end;
      eqb_facts;
      try (destruct Hguard; contradiction);
      (split; [eexists; reflexivity |]);
      (split; [reflexivity |]);
      intros Hin; no_settlement.
  - intros Hin Hfail.
    destruct (release_settlement_failure_run env d buyerId orderId _ eq_refl
                Hin Hfail)
      as (o & new & Hfind & _ & _ & Horder & Hstatus & Hid & Htype & Hres & Hdb).
    rewrite Hres, Hdb. split; [reflexivity |]. split; [| split].
    + destruct (status_rollback_order d new orderId "release_pending" o Hfind)
        as (o' & Ho' & Hpaid & _).
      exists o'. split; assumption.
    + apply status_rollback_no_pending.
    + destruct (status_rollback_marks_new d new orderId "release_pending"
                  Horder Hstatus) as (t & Hin' & Ht1 & Ht2 & Ht3 & Ht4).
      exists t. rewrite <- Hid, <- Htype. repeat split; assumption.
Qed.

(** C10.  [raiseDispute] asks only that the caller is the order's
    buyer or seller and nothing of the order's status: for an order in
    any status, a dispute by one of the two reaches the payment service
    where the database does not check ENUM values, and is rejected at
    the write of [dispute_pending], with the store unchanged, where it
    does; and when the payment service is reached and reports failure,
    [rollbackOrderStatus] commits the order to [paid], whatever its
    status was, and marks its pending entries [failed]. *)
Theorem failed_dispute_forces_paid env d userId orderId :
  let out := raiseDispute env userId orderId (init_world d) in
  (forall o u address,
      find_order d orderId = Some o ->
      buyer_id o = userId \/ seller_id o = userId ->
      Analyzers.lookup (token_symbol o) (supportedTokens env) = Some address ->
      find_txn d (generateTransactionId env) = None ->
      find_user d userId = Some u ->
      (checks_enums (engine d) = false ->
       In (Settlement "raiseDispute") (trace (snd out)))
      /\ (checks_enums (engine d) = true ->
          (exists m, fst out = Throw ("Dispute failed: " ++ m))
          /\ committed (snd out) = d
          /\ ~ In (Settlement "raiseDispute") (trace (snd out))))
  /\ (In (Settlement "raiseDispute") (trace (snd out)) ->
      success (settlement env) = false ->
      fst out = Throw ("Dispute failed: Dispute raise failed: "
                       ++ error (settlement env))
      /\ (exists o', find_order (committed (snd out)) orderId = Some o'
                     /\ status o' = "paid")
      /\ (forall t, In t (txns_of_order (committed (snd out)) orderId) ->
                    txn_status t <> "pending")
      /\ (exists t, In t (transactions (committed (snd out)))
                    /\ transaction_id t = generateTransactionId env
                    /\ transaction_type t = "escrow_dispute"
                    /\ txn_order t = orderId
                    /\ txn_status t = "failed")).
Proof.
  cbv zeta. split.
  - intros o' u' address Hfind Hparty Htoken Hfresh Huser. split.
    + remember (raiseDispute env userId orderId (init_world d)) as out eqn:Hout.
      intros Hmode.
      all_runs out;
        try (simpl; tauto);
        exfalso;
        try discriminate Hmode;
        rewrite Hfind in *;
        try discriminate;
        match goal with
        | H : Some _ = Some _ |- _ => injection H as ->
        end;
        eqb_facts; subst;
        try congruence;
        destruct Hparty; congruence.
    + remember (raiseDispute env userId orderId (init_world d)) as out eqn:Hout.
      intros Hmode.
      all_runs out;
        try discriminate Hmode;
        (split; [eexists; reflexivity |]);
        (split; [reflexivity |]);
        intros Hin; no_settlement.
  - intros Hin Hfail.
    destruct (dispute_settlement_failure_run env d userId orderId _ eq_refl
                Hin Hfail)
      as (o & new & Hfind & Horder & Hstatus & Hid & Htype & Hres & Hdb).
    rewrite Hres, Hdb. split; [reflexivity |]. split; [| split].
    + destruct (status_rollback_order d new orderId "dispute_pending" o Hfind)
        as (o' & Ho' & Hpaid & _).
      exists o'. split; assumption.
    + apply status_rollback_no_pending.
    + destruct (status_rollback_marks_new d new orderId "dispute_pending"
                  Horder Hstatus) as (t & Hin' & Ht1 & Ht2 & Ht3 & Ht4).
      exists t. rewrite <- Hid, <- Htype. repeat split; assumption.
Qed.

Lemma releaseEscrow_guards_and_rollback_witness :
  fst (releaseEscrow (Scenario.request "ORD-A2" "TXN-A2" Scenario.backend_down)
                     1 "ORD-A1" (init_world (Scenario.shop_with_order "paid")))
  = Throw "Release failed: Escrow release failed: bundler unavailable"
  /\ (exists o',
         find_order
           (committed
              (snd (releaseEscrow
                      (Scenario.request "ORD-A2" "TXN-A2" Scenario.backend_down)
                      1 "ORD-A1" (init_world (Scenario.shop_with_order "paid")))))
           "ORD-A1" = Some o'
         /\ status o' = "paid")
  /\ (forall t,
         In t (txns_of_order
                 (committed
                    (snd (releaseEscrow
                            (Scenario.request "ORD-A2" "TXN-A2" Scenario.backend_down)
                            1 "ORD-A1"
                            (init_world (Scenario.shop_with_order "paid")))))
                 "ORD-A1") ->
         txn_status t <> "pending")
  /\ (exists t,
         In t (transactions
                 (committed
                    (snd (releaseEscrow
                            (Scenario.request "ORD-A2" "TXN-A2" Scenario.backend_down)
                            1 "ORD-A1"
                            (init_world (Scenario.shop_with_order "paid"))))))
         /\ transaction_id t = "TXN-A2"
         /\ transaction_type t = "escrow_release"
         /\ txn_order t = "ORD-A1"
         /\ txn_status t = "failed").
Proof.
  apply (proj2 (proj2 (releaseEscrow_guards_and_rollback
                         (Scenario.request "ORD-A2" "TXN-A2" Scenario.backend_down)
                         (Scenario.shop_with_order "paid") 1 "ORD-A1"))).
  - vm_compute. right. right. left. reflexivity.
  - reflexivity.
Defined.

Lemma failed_dispute_forces_paid_witness :
  option_map status (find_order (Scenario.shop_with_order "completed") "ORD-A1")
  = Some "completed"
  /\ (fst (raiseDispute (Scenario.request "ORD-A2" "TXN-A2" Scenario.backend_down)
                        7 "ORD-A1"
                        (init_world (Scenario.shop_with_order "completed")))
      = Throw "Dispute failed: Dispute raise failed: bundler unavailable"
      /\ (exists o',
             find_order
               (committed
                  (snd (raiseDispute
                          (Scenario.request "ORD-A2" "TXN-A2" Scenario.backend_down)
                          7 "ORD-A1"
                          (init_world (Scenario.shop_with_order "completed")))))
               "ORD-A1" = Some o'
             /\ status o' = "paid")
      /\ (forall t,
             In t (txns_of_order
                     (committed
                        (snd (raiseDispute
                                (Scenario.request "ORD-A2" "TXN-A2"
                                                  Scenario.backend_down)
                                7 "ORD-A1"
                                (init_world (Scenario.shop_with_order "completed")))))
                     "ORD-A1") ->
             txn_status t <> "pending")
      /\ (exists t,
             In t (transactions
                     (committed
                        (snd (raiseDispute
                                (Scenario.request "ORD-A2" "TXN-A2"
                                                  Scenario.backend_down)
                                7 "ORD-A1"
                                (init_world (Scenario.shop_with_order "completed"))))))
             /\ transaction_id t = "TXN-A2"
             /\ transaction_type t = "escrow_dispute"
             /\ txn_order t = "ORD-A1"
             /\ txn_status t = "failed")).
Proof.
  split; [reflexivity |].
  apply (proj2 (failed_dispute_forces_paid
                  (Scenario.request "ORD-A2" "TXN-A2" Scenario.backend_down)
                  (Scenario.shop_with_order "completed") 7 "ORD-A1")).
  - apply (proj1 (proj1 (failed_dispute_forces_paid
                    (Scenario.request "ORD-A2" "TXN-A2" Scenario.backend_down)
                    (Scenario.shop_with_order "completed") 7 "ORD-A1")
                 (Scenario.paid_order "completed")
                 {| user_id := 7; username := "seller"; privateKey := "k7";
                    smartAccountAddress := "0xS7" |}
                 "0x8335" eq_refl (or_intror eq_refl) eq_refl eq_refl eq_refl)).
    reflexivity.
  - reflexivity.
Defined.

End EscrowFacts.

(** ** More on the ledger *)

Module LedgerFacts.
Import Store Ledger.

Lemma find_app {A} (p : A -> bool) (l l' : list A) :
  find p (l ++ l') = match find p l with Some x => Some x | None => find p l' end.
Proof.
  induction l as [| x rest IH]; simpl.
  - reflexivity.
  - destruct (p x); [reflexivity | exact IH].
Qed.

(** Updating the rows selected by [sel] is invisible through a filter
    that rejects them before and after. *)
Lemma filter_map_frame {A} (keep sel : A -> bool) (g : A -> A) (l : list A) :
  (forall x, In x l -> sel x = true -> keep x = false /\ keep (g x) = false) ->
  filter keep (map (fun x => if sel x then g x else x) l) = filter keep l.
Proof.
  induction l as [| x rest IH]; intros Hsel; simpl.
  - reflexivity.
  - rewrite IH by (intros y Hy; apply Hsel; right; exact Hy).
    destruct (sel x) eqn:E.
    + destruct (Hsel x (or_introl eq_refl) E) as [-> ->]. reflexivity.
    + reflexivity.
Qed.

Lemma filter_filter_frame {A} (keep drop : A -> bool) (l : list A) :
  (forall x, In x l -> drop x = false -> keep x = false) ->
  filter keep (filter drop l) = filter keep l.
Proof.
  induction l as [| x rest IH]; intros Hdrop; simpl.
  - reflexivity.
  - destruct (drop x) eqn:E; simpl.
    + rewrite IH by (intros y Hy; apply Hdrop; right; exact Hy). reflexivity.
    + rewrite (Hdrop x (or_introl eq_refl) E).
      apply IH. intros y Hy. apply Hdrop. right. exact Hy.
Qed.

Lemma find_keyed_map {A} (key : A -> bool) (g : A -> A) (l : list A) (x : A) :
  (forall y, key (g y) = key y) ->
  find key l = Some x ->
  find key (map (fun y => if key y then g y else y) l) = Some (g x).
Proof.
  intros Hkey. induction l as [| y rest IH]; simpl; intros Hfind.
  - discriminate.
  - destruct (key y) eqn:E.
    + injection Hfind as <-. simpl. rewrite Hkey, E. reflexivity.
    + rewrite E. exact (IH Hfind).
Qed.

Lemma find_keyed_map_none {A} (key : A -> bool) (g : A -> A) (l : list A) :
  (forall y, key (g y) = key y) ->
  find key l = None ->
  find key (map (fun y => if key y then g y else y) l) = None.
Proof.
  intros Hkey. induction l as [| y rest IH]; simpl; intros Hfind.
  - reflexivity.
  - destruct (key y) eqn:E; [discriminate |].
    rewrite E. exact (IH Hfind).
Qed.



Lemma find_product_id (d : db) (id : Z) (p : productRow) :
  find_product d id = Some p -> product_id p = id.
Proof.
  unfold find_product. intros Hfind. apply find_some in Hfind as [_ Heq].
  apply Z.eqb_eq. exact Heq.
Qed.

Lemma find_txn_none (d : db) (tid : string) :
  find_txn d tid = None ->
  forall t, In t (transactions d) -> (transaction_id t =? tid)%string = false.
Proof.
  unfold find_txn. intros Hnone t Hin.
  exact (find_none _ _ Hnone t Hin).
Qed.

Lemma find_order_none (d : db) (oid : string) :
  find_order d oid = None ->
  forall o, In o (orders d) -> (order_id o =? oid)%string = false.
Proof.
  unfold find_order. intros Hnone o Hin.
  exact (find_none _ _ Hnone o Hin).
Qed.

Lemma same_elsewhere_refl (oid : string) (pid : Z) (d : db) :
  same_elsewhere oid pid d d.
Proof. repeat split. Qed.

Lemma local_write_frame (oid : string) (pid : Z) (d : db) (w : write) :
  local_write oid pid d w -> same_elsewhere oid pid d (apply_write d w).
Proof.
  unfold same_elsewhere, other_orders, other_txns, other_products.
  destruct w as [o | t | p n | o s e | tid s e h | o old new | o | o];
    simpl; intros Hlocal; subst; repeat split.
  - rewrite filter_app. simpl. rewrite String.eqb_refl. simpl.
    apply app_nil_r.
  - rewrite filter_app. simpl. rewrite String.eqb_refl. simpl.
    apply app_nil_r.
  - apply filter_map_frame. intros x _ Hx. simpl. rewrite Hx. split; reflexivity.
  - apply filter_map_frame. intros x _ Hx. simpl. rewrite Hx. split; reflexivity.
  - apply filter_map_frame. intros x Hin Hx. simpl.
    rewrite (Hlocal x Hin Hx), String.eqb_refl. split; reflexivity.
  - apply filter_map_frame. intros x _ Hx. simpl.
    apply andb_true_iff in Hx as [Hx _]. rewrite Hx. split; reflexivity.
  - apply filter_filter_frame. intros x _ Hx.
    apply negb_false_iff in Hx. rewrite Hx. reflexivity.
  - apply filter_filter_frame. intros x _ Hx.
    apply negb_false_iff in Hx. rewrite Hx. reflexivity.
Qed.

Lemma same_elsewhere_step (oid : string) (pid : Z) (d d1 : db) (w : write) :
  same_elsewhere oid pid d d1 -> local_write oid pid d1 w ->
  same_elsewhere oid pid d (apply_write d1 w).
Proof.
  intros (Hu & Ho & Ht & Hp) Hlocal.
  destruct (local_write_frame oid pid d1 w Hlocal) as (Hu' & Ho' & Ht' & Hp').
  repeat split; congruence.
Qed.

(** The only row with a freshly generated transaction id is the new
    entry. *)
Lemma fresh_entry_is_local (d : db) (new : txnRow) (oid tid : string) :
  find_txn d tid = None ->
  txn_order new = oid ->
  forall t, In t (transactions d ++ [new])%list ->
            (transaction_id t =? tid)%string = true -> txn_order t = oid.
Proof.
  intros Hfresh Horder t Hin Hid.
  apply in_app_or in Hin as [Hin | [<- | []]].
  - rewrite (find_txn_none d tid Hfresh t Hin) in Hid. discriminate.
  - exact Horder.
Qed.

(** *** Well-formedness *)

Lemma references_orders_spec (d : db) :
  references_orders d = true <->
  (forall t, In t (transactions d) ->
             exists o, In o (orders d) /\ order_id o = txn_order t).
Proof.
  unfold references_orders. rewrite forallb_forall. split.
  - intros H t Hin. apply H in Hin. apply existsb_exists in Hin as [o [Ho Heq]].
    exists o. split; [exact Ho | apply String.eqb_eq; exact Heq].
  - intros H t Hin. destruct (H t Hin) as [o [Ho Heq]].
    apply existsb_exists. exists o. split; [exact Ho |].
    apply String.eqb_eq. exact Heq.
Qed.

Lemma keys_stay_distinct {Row Key} (key : Row -> Key) (keep : Row -> bool)
      (rows : list Row) :
  NoDup (map key rows) -> NoDup (map key (filter keep rows)).
Proof.
  intros Hdistinct. induction rows as [| row rows IH]; [constructor |].
  cbn [map] in Hdistinct. apply NoDup_cons_iff in Hdistinct as [Hnew Hrest].
  cbn [filter]. destruct (keep row); [| exact (IH Hrest)].
  cbn [map]. apply NoDup_cons; [| exact (IH Hrest)].
  intros Hin. apply Hnew.
  apply in_map_iff in Hin as [other [Hkey Hin]].
  apply filter_In in Hin as [Hin _].
  apply in_map_iff. exists other. split; assumption.
Qed.

Lemma map_keyed_update {A B} (f : A -> B) (sel : A -> bool) (g : A -> A)
      (l : list A) :
  (forall x, f (g x) = f x) ->
  map f (map (fun x => if sel x then g x else x) l) = map f l.
Proof.
  intros Hkey. induction l as [| x rest IH]; simpl.
  - reflexivity.
  - rewrite IH. destruct (sel x); [rewrite Hkey |]; reflexivity.
Qed.

Lemma NoDup_snoc {A} (l : list A) (x : A) :
  NoDup l -> ~ In x l -> NoDup (l ++ [x]).
Proof.
  intros Hnd Hnotin. apply NoDup_app.
  - exact Hnd.
  - constructor; [intros [] | constructor].
  - intros y Hy [<- | []]. exact (Hnotin Hy).
Qed.

Lemma fresh_order_id (d : db) (oid : string) :
  find_order d oid = None -> ~ In oid (map order_id (orders d)).
Proof.
  intros Hnone Hin. apply in_map_iff in Hin as [o [Heq Hin]].
  pose proof (find_order_none d oid Hnone o Hin) as Hneq.
  rewrite Heq, String.eqb_refl in Hneq. discriminate.
Qed.

Lemma fresh_txn_id (d : db) (tid : string) :
  find_txn d tid = None -> ~ In tid (map transaction_id (transactions d)).
Proof.
  intros Hnone Hin. apply in_map_iff in Hin as [t [Heq Hin]].
  pose proof (find_txn_none d tid Hnone t Hin) as Hneq.
  rewrite Heq, String.eqb_refl in Hneq. discriminate.
Qed.

Lemma sound_write_keeps_wellformed (d : db) (w : write) :
  wellformed d -> sound_write d w -> wellformed (apply_write d w).
Proof.
  unfold wellformed. rewrite !references_orders_spec.
  intros (Href & Hord & Htxn) Hsound.
  destruct w as [o | t | p n | oid s e | tid s e h | oid old new | oid | oid];
    simpl in *.
  - (* InsertOrder *)
    split; [| split].
    + intros t Hin. destruct (Href t Hin) as [o' [Ho' Heq]].
      exists o'. split; [apply in_or_app; left; exact Ho' | exact Heq].
    + rewrite map_app. apply NoDup_snoc; [exact Hord |].
      apply fresh_order_id. exact Hsound.
    + exact Htxn.
  - (* InsertTxn *)
    destruct Hsound as [Hfresh [o Hfind]].
    split; [| split].
    + intros t' Hin. apply in_app_or in Hin as [Hin | [<- | []]].
      * exact (Href t' Hin).
      * exists o. unfold find_order in Hfind.
        apply find_some in Hfind as [Hin Heq].
        split; [exact Hin | apply String.eqb_eq; exact Heq].
    + exact Hord.
    + rewrite map_app. apply NoDup_snoc; [exact Htxn |].
      apply fresh_txn_id. exact Hfresh.
  - (* DecrementQuantity *)
    repeat split; assumption.
  - (* UpdateOrder *)
    split; [| split].
    + intros t Hin. destruct (Href t Hin) as [o [Ho Heq]].
      exists (if (order_id o =? oid)%string then set_order o s e else o).
      split.
      * apply in_map_iff. exists o. split; [reflexivity | exact Ho].
      * destruct (order_id o =? oid)%string; exact Heq.
    + rewrite (map_keyed_update order_id); [exact Hord | reflexivity].
    + exact Htxn.
  - (* UpdateTxn *)
    split; [| split].
    + intros t Hin. apply in_map_iff in Hin as [t0 [Heq Hin]].
      destruct (Href t0 Hin) as [o [Ho Hid]]. exists o. split; [exact Ho |].
      subst t. destruct (transaction_id t0 =? tid)%string; exact Hid.
    + exact Hord.
    + rewrite (map_keyed_update transaction_id); [exact Htxn | reflexivity].
  - (* UpdateTxnsWhere *)
    split; [| split].
    + intros t Hin. apply in_map_iff in Hin as [t0 [Heq Hin]].
      destruct (Href t0 Hin) as [o [Ho Hid]]. exists o. split; [exact Ho |].
      subst t.
      destruct ((txn_order t0 =? oid)%string && (txn_status t0 =? old)%string);
        exact Hid.
    + exact Hord.
    + rewrite (map_keyed_update transaction_id); [exact Htxn | reflexivity].
  - (* DestroyTxns *)
    split; [| split].
    + intros t Hin. apply filter_In in Hin as [Hin _]. exact (Href t Hin).
    + exact Hord.
    + apply keys_stay_distinct. exact Htxn.
  - (* DestroyOrders *)
    split; [| split].
    + intros t Hin. destruct (Href t Hin) as [o [Ho Hid]].
      exists o. split; [| exact Hid].
      apply filter_In. split; [exact Ho |].
      apply negb_true_iff. apply not_true_is_false. intros Heq.
      apply String.eqb_eq in Heq.
      assert (Hmem : In t (txns_of_order d oid)).
      { unfold txns_of_order. apply filter_In. split; [exact Hin |].
        apply String.eqb_eq. congruence. }
      rewrite Hsound in Hmem. exact Hmem.
    + apply keys_stay_distinct. exact Hord.
    + exact Htxn.
Qed.

End LedgerFacts.

(** ** More on the escrow operations *)

Module EscrowMoreFacts.
Import Store Sequelize Escrow Ledger StoreFacts LedgerFacts EscrowFacts.




(** X6.  A purchase that does not get as far as the payment service
    rejects and leaves the committed store exactly as it was. *)
Theorem purchase_without_payment_changes_nothing env d buyerId productId qty token :
  ~ In (Settlement "createEscrowPurchase")
       (trace (snd (createProductEscrow env buyerId productId qty token
                                        (init_world d)))) ->
  (exists m,
      fst (createProductEscrow env buyerId productId qty token (init_world d))
      = Throw ("Purchase failed: " ++ m))
  /\ committed (snd (createProductEscrow env buyerId productId qty token
                                         (init_world d))) = d.
Proof.
  remember (createProductEscrow env buyerId productId qty token (init_world d))
    as out eqn:Hout.
  intros Hnot.
  all_runs out;
    try (exfalso; apply Hnot; simpl; tauto);
    (split; [eexists; reflexivity | reflexivity]).
Qed.

Lemma purchase_without_payment_changes_nothing_witness :
  (exists m,
      fst (createProductEscrow
             (Scenario.request "ORD-A1" "TXN-A1" Scenario.backend_ok)
             1 42 9 "USDC" (init_world Scenario.shop))
      = Throw ("Purchase failed: " ++ m))
  /\ committed (snd (createProductEscrow
                       (Scenario.request "ORD-A1" "TXN-A1" Scenario.backend_ok)
                       1 42 9 "USDC" (init_world Scenario.shop)))
     = Scenario.shop.
Proof.
  apply (purchase_without_payment_changes_nothing
           (Scenario.request "ORD-A1" "TXN-A1" Scenario.backend_ok)
           Scenario.shop 1 42 9 "USDC").
  vm_compute. intros [H | [H | H]]; [discriminate H | discriminate H | exact H].
Defined.

(** X7.  The purchase is validated before any collaborator is
    contacted: a missing buyer, a missing product, a product that is
    not [active] and a stock below the requested quantity are rejected,
    in this order, each with its own message, with only the opening and
    the rollback of the transaction in the trace (no upload to the
    content store, no payment call). *)
Theorem purchase_is_validated_first env d buyerId productId qty token :
  let out := createProductEscrow env buyerId productId qty token (init_world d) in
  (find_user d buyerId = None ->
   fst out = Throw "Purchase failed: Buyer not found"
   /\ trace (snd out) = [Begin 0; Rollback 0])
  /\ (forall b, find_user d buyerId = Some b ->
                find_product d productId = None ->
                fst out = Throw "Purchase failed: Product not found"
                /\ trace (snd out) = [Begin 0; Rollback 0])
  /\ (forall b p, find_user d buyerId = Some b ->
                  find_product d productId = Some p ->
                  product_status p <> "active" ->
                  fst out = Throw "Purchase failed: Product is not available for purchase"
                  /\ trace (snd out) = [Begin 0; Rollback 0])
  /\ (forall b p, find_user d buyerId = Some b ->
                  find_product d productId = Some p ->
                  product_status p = "active" ->
                  (quantity p < qty)%Z ->
                  fst out = Throw "Purchase failed: Insufficient product quantity"
                  /\ trace (snd out) = [Begin 0; Rollback 0]).
Proof.
  cbv zeta.
  remember (createProductEscrow env buyerId productId qty token (init_world d))
    as out eqn:Hout.
  repeat split; intros;
    all_runs out; eqb_facts;
    repeat match goal with
           | H : (_ <? _)%Z = false |- _ => apply Z.ltb_ge in H
           | H : (_ <? _)%Z = true |- _ => apply Z.ltb_lt in H
           end;
    try reflexivity; try congruence;
    repeat match goal with
           | H1 : ?x = Some _, H2 : ?x = Some _ |- _ =>
               rewrite H1 in H2; injection H2 as ->
           end;
    try contradiction; try lia; try congruence.
Qed.

Lemma purchase_is_validated_first_witness :
  fst (createProductEscrow
         (Scenario.request "ORD-A1" "TXN-A1" Scenario.backend_ok)
         1 42 9 "USDC" (init_world Scenario.shop))
  = Throw "Purchase failed: Insufficient product quantity"
  /\ trace (snd (createProductEscrow
                   (Scenario.request "ORD-A1" "TXN-A1" Scenario.backend_ok)
                   1 42 9 "USDC" (init_world Scenario.shop)))
     = [Begin 0; Rollback 0].
Proof.
  apply (proj2 (proj2 (proj2 (purchase_is_validated_first
           (Scenario.request "ORD-A1" "TXN-A1" Scenario.backend_ok)
           Scenario.shop 1 42 9 "USDC")))
         {| user_id := 1; username := "buyer"; privateKey := "k1";
            smartAccountAddress := "0xB1" |}
         {| product_id := 42; product_seller := 7; product_name := "lamp";
            price := 100; quantity := 5; product_status := "active" |});
    [reflexivity | reflexivity | reflexivity | reflexivity].
Defined.

(** *** Confirmed release and dispute *)

Lemma release_success_run env d buyerId orderId :
  forall out, out = releaseEscrow env buyerId orderId (init_world d) ->
  In (Settlement "releaseEscrow") (trace (snd out)) ->
  success (settlement env) = true ->
  exists o new,
    find_order d orderId = Some o
    /\ status o = "paid" /\ buyer_id o = buyerId
    /\ find_txn d (generateTransactionId env) = None
    /\ transaction_id new = generateTransactionId env
    /\ txn_order new = orderId
    /\ transaction_type new = "escrow_release"
    /\ txn_amount new = amount o
    /\ fst out = Ok {| settled_transactionId := generateTransactionId env;
                       settled_orderId := orderId;
                       settled_action := "released" |}
    /\ committed (snd out)
       = apply_log d
           [InsertTxn new;
            UpdateOrder orderId (Some "release_pending") None;
            UpdateTxn (generateTransactionId env) "released" None
                      (Some (transactionHash (settlement env)));
            UpdateOrder orderId (Some "completed") None].
Proof.
  intros out Hout Hin Hok.
  all_runs out; try no_settlement; try flag_clash.
  eqb_facts.
  match goal with
  | |- context [InsertTxn ?n] => exists o, n
  end.
  rewrite (find_order_id d orderId o) by assumption.
  repeat split; assumption.
Qed.

Lemma dispute_success_run env d userId orderId :
  forall out, out = raiseDispute env userId orderId (init_world d) ->
  In (Settlement "raiseDispute") (trace (snd out)) ->
  success (settlement env) = true ->
  exists o new,
    find_order d orderId = Some o
    /\ (buyer_id o = userId \/ seller_id o = userId)
    /\ find_txn d (generateTransactionId env) = None
    /\ transaction_id new = generateTransactionId env
    /\ txn_order new = orderId
    /\ transaction_type new = "escrow_dispute"
    /\ sender_id new = userId
    /\ fst out = Ok {| settled_transactionId := generateTransactionId env;
                       settled_orderId := orderId;
                       settled_action := "dispute_raised" |}
    /\ committed (snd out)
       = apply_log d
           [InsertTxn new;
            UpdateOrder orderId (Some "dispute_pending") None;
            UpdateTxn (generateTransactionId env) "disputed" None
                      (Some (transactionHash (settlement env)));
            UpdateOrder orderId (Some "disputed") None].
Proof.
  intros out Hout Hin Hok.
  all_runs out; try no_settlement; try flag_clash.
  all: eqb_facts.
  all: match goal with
       | |- context [InsertTxn ?n] => exists o, n
       end.
  all: rewrite (find_order_id d orderId o) by assumption.
  all: repeat split; try assumption; tauto.
Qed.

(** The order and the new ledger entry after the two commits of a
    confirmed release or dispute. *)
Lemma settled_order_and_entry (d : db) (new : txnRow) (oid tid : string)
      (intent final_status entry_status hash : string) (o : orderRow) :
  find_order d oid = Some o ->
  find_txn d tid = None ->
  transaction_id new = tid ->
  let d' := apply_log d
              [InsertTxn new; UpdateOrder oid (Some intent) None;
               UpdateTxn tid entry_status None (Some hash);
               UpdateOrder oid (Some final_status) None] in
  find_order d' oid = Some (set_order (set_order o (Some intent) None)
                                      (Some final_status) None)
  /\ find_txn d' tid = Some (set_txn new entry_status None (Some hash))
  /\ users d' = users d /\ products d' = products d.
Proof.
  intros Hfind Hfresh Hid. cbv zeta. repeat split.
  - unfold find_order in *. simpl.
    apply (find_keyed_map (fun y => (order_id y =? oid)%string)
                          (fun y => set_order y (Some final_status) None));
      [reflexivity |].
    apply (find_keyed_map (fun y => (order_id y =? oid)%string)
                          (fun y => set_order y (Some intent) None));
      [reflexivity | exact Hfind].
  - unfold find_txn in *. simpl. rewrite map_app, find_app.
    rewrite (find_keyed_map_none (fun y => (transaction_id y =? tid)%string)
                                 (fun y => set_txn y entry_status None (Some hash)));
      [| reflexivity | exact Hfresh].
    simpl. rewrite Hid, String.eqb_refl. simpl. rewrite Hid, String.eqb_refl.
    reflexivity.
Qed.

(** X8.  A release that the payment service confirms resolves with
    action [released] and commits the order as [completed] and its new
    [escrow_release] entry as [released], carrying the order's amount
    and the transaction hash; users and products are untouched. *)
Theorem confirmed_release_completes_order env d buyerId orderId :
  In (Settlement "releaseEscrow")
     (trace (snd (releaseEscrow env buyerId orderId (init_world d)))) ->
  success (settlement env) = true ->
  fst (releaseEscrow env buyerId orderId (init_world d))
  = Ok {| settled_transactionId := generateTransactionId env;
          settled_orderId := orderId; settled_action := "released" |}
  /\ (exists o o',
        find_order d orderId = Some o
        /\ find_order (committed (snd (releaseEscrow env buyerId orderId
                                                     (init_world d))))
                      orderId = Some o'
        /\ status o' = "completed"
        /\ amount o' = amount o /\ escrow_address o' = escrow_address o
        /\ (exists t,
              find_txn (committed (snd (releaseEscrow env buyerId orderId
                                                      (init_world d))))
                       (generateTransactionId env) = Some t
              /\ txn_order t = orderId
              /\ transaction_type t = "escrow_release"
              /\ txn_status t = "released"
              /\ txn_amount t = amount o
              /\ blockchain_tx_hash t = Some (transactionHash (settlement env))))
  /\ users (committed (snd (releaseEscrow env buyerId orderId (init_world d))))
     = users d
  /\ products (committed (snd (releaseEscrow env buyerId orderId (init_world d))))
     = products d.
Proof.
  intros Hin Hok.
  destruct (release_success_run env d buyerId orderId _ eq_refl Hin Hok)
    as (o & new & Hfind & _ & _ & Hfresh & Hid & Horder & Htype & Hamount
        & Hres & Hdb).
  rewrite Hres, Hdb.
  destruct (settled_order_and_entry d new orderId (generateTransactionId env)
              "release_pending" "completed" "released"
              (transactionHash (settlement env)) o Hfind Hfresh Hid)
    as (Ho & Ht & Hu & Hp).
  split; [reflexivity |]. split; [| split; assumption].
  exists o. eexists. split; [exact Hfind |]. split; [exact Ho |].
  repeat split.
  eexists. split; [exact Ht |]. simpl. repeat split; assumption.
Qed.

Lemma confirmed_release_completes_order_witness :
  fst (releaseEscrow (Scenario.request "ORD-A2" "TXN-A2" Scenario.backend_ok)
                     1 "ORD-A1" (init_world (Scenario.shop_with_order "paid")))
  = Ok {| settled_transactionId := "TXN-A2"; settled_orderId := "ORD-A1";
          settled_action := "released" |}
  /\ (exists o o',
        find_order (Scenario.shop_with_order "paid") "ORD-A1" = Some o
        /\ find_order
             (committed
                (snd (releaseEscrow
                        (Scenario.request "ORD-A2" "TXN-A2" Scenario.backend_ok)
                        1 "ORD-A1" (init_world (Scenario.shop_with_order "paid")))))
             "ORD-A1" = Some o'
        /\ status o' = "completed"
        /\ amount o' = amount o /\ escrow_address o' = escrow_address o
        /\ (exists t,
              find_txn
                (committed
                   (snd (releaseEscrow
                           (Scenario.request "ORD-A2" "TXN-A2" Scenario.backend_ok)
                           1 "ORD-A1"
                           (init_world (Scenario.shop_with_order "paid")))))
                "TXN-A2" = Some t
              /\ txn_order t = "ORD-A1"
              /\ transaction_type t = "escrow_release"
              /\ txn_status t = "released"
              /\ txn_amount t = amount o
              /\ blockchain_tx_hash t = Some "0xH1"))
  /\ users (committed
              (snd (releaseEscrow
                      (Scenario.request "ORD-A2" "TXN-A2" Scenario.backend_ok)
                      1 "ORD-A1" (init_world (Scenario.shop_with_order "paid")))))
     = users (Scenario.shop_with_order "paid")
  /\ products (committed
                 (snd (releaseEscrow
                         (Scenario.request "ORD-A2" "TXN-A2" Scenario.backend_ok)
                         1 "ORD-A1" (init_world (Scenario.shop_with_order "paid")))))
     = products (Scenario.shop_with_order "paid").
Proof.
  apply (confirmed_release_completes_order
           (Scenario.request "ORD-A2" "TXN-A2" Scenario.backend_ok)
           (Scenario.shop_with_order "paid") 1 "ORD-A1").
  - vm_compute. right. right. left. reflexivity.
  - reflexivity.
Defined.

(** X9.  A dispute that the payment service confirms resolves with
    action [dispute_raised] and commits the order as [disputed] and its
    new [escrow_dispute] entry, sent by the caller, as [disputed]. *)
Theorem confirmed_dispute_is_recorded env d userId orderId :
  In (Settlement "raiseDispute")
     (trace (snd (raiseDispute env userId orderId (init_world d)))) ->
  success (settlement env) = true ->
  fst (raiseDispute env userId orderId (init_world d))
  = Ok {| settled_transactionId := generateTransactionId env;
          settled_orderId := orderId; settled_action := "dispute_raised" |}
  /\ (exists o o',
        find_order d orderId = Some o
        /\ (buyer_id o = userId \/ seller_id o = userId)
        /\ find_order (committed (snd (raiseDispute env userId orderId
                                                    (init_world d))))
                      orderId = Some o'
        /\ status o' = "disputed"
        /\ (exists t,
              find_txn (committed (snd (raiseDispute env userId orderId
                                                     (init_world d))))
                       (generateTransactionId env) = Some t
              /\ txn_order t = orderId
              /\ transaction_type t = "escrow_dispute"
              /\ sender_id t = userId
              /\ txn_status t = "disputed")).
Proof.
  intros Hin Hok.
  destruct (dispute_success_run env d userId orderId _ eq_refl Hin Hok)
    as (o & new & Hfind & Hparty & Hfresh & Hid & Horder & Htype & Hsender
        & Hres & Hdb).
  rewrite Hres, Hdb.
  destruct (settled_order_and_entry d new orderId (generateTransactionId env)
              "dispute_pending" "disputed" "disputed"
              (transactionHash (settlement env)) o Hfind Hfresh Hid)
    as (Ho & Ht & _ & _).
  split; [reflexivity |].
  exists o. eexists. split; [exact Hfind |]. split; [exact Hparty |].
  split; [exact Ho |]. split; [reflexivity |].
  eexists. split; [exact Ht |]. simpl. repeat split; assumption.
Qed.

Lemma confirmed_dispute_is_recorded_witness :
  fst (raiseDispute (Scenario.request "ORD-A2" "TXN-A2" Scenario.backend_ok)
                    7 "ORD-A1" (init_world (Scenario.shop_with_order "paid")))
  = Ok {| settled_transactionId := "TXN-A2"; settled_orderId := "ORD-A1";
          settled_action := "dispute_raised" |}
  /\ (exists o o',
        find_order (Scenario.shop_with_order "paid") "ORD-A1" = Some o
        /\ (buyer_id o = 7%Z \/ seller_id o = 7%Z)
        /\ find_order
             (committed
                (snd (raiseDispute
                        (Scenario.request "ORD-A2" "TXN-A2" Scenario.backend_ok)
                        7 "ORD-A1" (init_world (Scenario.shop_with_order "paid")))))
             "ORD-A1" = Some o'
        /\ status o' = "disputed"
        /\ (exists t,
              find_txn
                (committed
                   (snd (raiseDispute
                           (Scenario.request "ORD-A2" "TXN-A2" Scenario.backend_ok)
                           7 "ORD-A1"
                           (init_world (Scenario.shop_with_order "paid")))))
                "TXN-A2" = Some t
              /\ txn_order t = "ORD-A1"
              /\ transaction_type t = "escrow_dispute"
              /\ sender_id t = 7%Z
              /\ txn_status t = "disputed")).
Proof.
  apply (confirmed_dispute_is_recorded
           (Scenario.request "ORD-A2" "TXN-A2" Scenario.backend_ok)
           (Scenario.shop_with_order "paid") 7 "ORD-A1").
  - vm_compute. right. right. left. reflexivity.
  - reflexivity.
Defined.

(** X10.  [releaseEscrow] and [raiseDispute] on an order id that does
    not exist, and [raiseDispute] by a user who is neither the buyer nor
    the seller, reject with their own message before anything is
    written: the committed store is unchanged and the payment service
    is not called. *)
Theorem unknown_order_and_stranger_are_rejected env d userId orderId :
  (find_order d orderId = None ->
   fst (releaseEscrow env userId orderId (init_world d))
   = Throw "Release failed: Order not found"
   /\ committed (snd (releaseEscrow env userId orderId (init_world d))) = d
   /\ trace (snd (releaseEscrow env userId orderId (init_world d)))
      = [Begin 0; Rollback 0])
  /\ (find_order d orderId = None ->
      fst (raiseDispute env userId orderId (init_world d))
      = Throw "Dispute failed: Order not found"
      /\ committed (snd (raiseDispute env userId orderId (init_world d))) = d
      /\ trace (snd (raiseDispute env userId orderId (init_world d)))
         = [Begin 0; Rollback 0])
  /\ (forall o, find_order d orderId = Some o ->
                buyer_id o <> userId -> seller_id o <> userId ->
                fst (raiseDispute env userId orderId (init_world d))
                = Throw "Dispute failed: Only buyer or seller can raise dispute"
                /\ committed (snd (raiseDispute env userId orderId (init_world d)))
                   = d
                /\ trace (snd (raiseDispute env userId orderId (init_world d)))
                   = [Begin 0; Rollback 0]).
Proof.
  split; [| split].
  - remember (releaseEscrow env userId orderId (init_world d)) as out eqn:Hout.
    intros Hnone. all_runs out; try congruence. repeat split.
  - remember (raiseDispute env userId orderId (init_world d)) as out eqn:Hout.
    intros Hnone. all_runs out; try congruence. repeat split.
  - remember (raiseDispute env userId orderId (init_world d)) as out eqn:Hout.
    intros o' Hfind Hbuyer Hseller.
    all_runs out; rewrite Hfind in *; try discriminate;
      match goal with
      | H : Some _ = Some _ |- _ => injection H as ->
      end;
      eqb_facts; try contradiction.
    repeat split.
Qed.

Lemma unknown_order_and_stranger_are_rejected_witness :
  fst (raiseDispute (Scenario.request "ORD-A2" "TXN-A2" Scenario.backend_ok)
                    99 "ORD-A1" (init_world (Scenario.shop_with_order "paid")))
  = Throw "Dispute failed: Only buyer or seller can raise dispute"
  /\ committed
       (snd (raiseDispute (Scenario.request "ORD-A2" "TXN-A2" Scenario.backend_ok)
                          99 "ORD-A1"
                          (init_world (Scenario.shop_with_order "paid"))))
     = Scenario.shop_with_order "paid"
  /\ trace
       (snd (raiseDispute (Scenario.request "ORD-A2" "TXN-A2" Scenario.backend_ok)
                          99 "ORD-A1"
                          (init_world (Scenario.shop_with_order "paid"))))
     = [Begin 0; Rollback 0].
Proof.
  apply (proj2 (proj2 (unknown_order_and_stranger_are_rejected
                         (Scenario.request "ORD-A2" "TXN-A2" Scenario.backend_ok)
                         (Scenario.shop_with_order "paid") 99 "ORD-A1"))
               (Scenario.paid_order "paid"));
    [reflexivity | discriminate | discriminate].
Defined.

(** *** What the operations leave alone *)

Ltac frame_steps :=
  repeat (apply same_elsewhere_step; [| simpl; try reflexivity]);
  try apply same_elsewhere_refl.

(** X11.  Whatever its outcome, [createProductEscrow] changes no user
    row, no product other than the one purchased, and no order or
    ledger entry other than those of the order id it generated. *)
Theorem purchase_touches_only_its_rows env d buyerId productId qty token :
  same_elsewhere (generateOrderId env) productId d
    (committed (snd (createProductEscrow env buyerId productId qty token
                                         (init_world d)))).
Proof.
  remember (createProductEscrow env buyerId productId qty token (init_world d))
    as out eqn:Hout.
  all_runs out; frame_steps;
    try (eapply find_product_id; eassumption);
    try (eapply fresh_entry_is_local; [eassumption | reflexivity]).
Qed.

Lemma release_frame env d buyerId orderId :
  same_elsewhere orderId 0 d
    (committed (snd (releaseEscrow env buyerId orderId (init_world d))))
  /\ products (committed (snd (releaseEscrow env buyerId orderId (init_world d))))
     = products d.
Proof.
  remember (releaseEscrow env buyerId orderId (init_world d)) as out eqn:Hout.
  all_runs out;
    try rewrite (find_order_id d orderId o) by assumption;
    (split; [| reflexivity]);
    frame_steps;
    try (eapply fresh_entry_is_local; [eassumption | reflexivity]).
Qed.

Lemma dispute_frame env d userId orderId :
  same_elsewhere orderId 0 d
    (committed (snd (raiseDispute env userId orderId (init_world d))))
  /\ products (committed (snd (raiseDispute env userId orderId (init_world d))))
     = products d.
Proof.
  remember (raiseDispute env userId orderId (init_world d)) as out eqn:Hout.
  all_runs out;
    try rewrite (find_order_id d orderId o) by assumption;
    (split; [| reflexivity]);
    frame_steps;
    try (eapply fresh_entry_is_local; [eassumption | reflexivity]).
Qed.

(** X12.  Whatever their outcome, [releaseEscrow] and [raiseDispute]
    change no user row, no product row, and no order or ledger entry
    other than those of the order they were called for. *)
Theorem settlements_touch_only_their_order env d caller orderId :
  (users (committed (snd (releaseEscrow env caller orderId (init_world d))))
   = users d
   /\ products (committed (snd (releaseEscrow env caller orderId (init_world d))))
      = products d
   /\ other_orders (committed (snd (releaseEscrow env caller orderId
                                                   (init_world d)))) orderId
      = other_orders d orderId
   /\ other_txns (committed (snd (releaseEscrow env caller orderId
                                                 (init_world d)))) orderId
      = other_txns d orderId)
  /\ (users (committed (snd (raiseDispute env caller orderId (init_world d))))
      = users d
      /\ products (committed (snd (raiseDispute env caller orderId (init_world d))))
         = products d
      /\ other_orders (committed (snd (raiseDispute env caller orderId
                                                     (init_world d)))) orderId
         = other_orders d orderId
      /\ other_txns (committed (snd (raiseDispute env caller orderId
                                                   (init_world d)))) orderId
         = other_txns d orderId).
Proof.
  destruct (release_frame env d caller orderId) as [(Hu & Ho & Ht & _) Hp].
  destruct (dispute_frame env d caller orderId) as [(Hu' & Ho' & Ht' & _) Hp'].
  repeat split; assumption.
Qed.

(** *** The ledger stays well-formed *)

Ltac sound_side_condition :=
  simpl;
  first
    [ exact I
    | assumption
    | apply filter_filter_negb
    | split;
      [ assumption
      | eexists; first
          [ eassumption
          | unfold find_order in *; simpl; rewrite find_app;
            match goal with
            | H : find _ (orders _) = None |- _ => rewrite H
            end;
            simpl; rewrite String.eqb_refl; reflexivity ] ] ].

Ltac wellformed_steps :=
  repeat (apply sound_write_keeps_wellformed; [| sound_side_condition]);
  try assumption.

(** X13.  If every ledger entry references an existing order and no
    order id or transaction id occurs twice, the same holds of the
    committed store after [createProductEscrow], [releaseEscrow] and
    [raiseDispute], whatever their outcome. *)
Theorem operations_keep_ledger_wellformed
        env d caller productId qty token orderId :
  wellformed d ->
  wellformed (committed (snd (createProductEscrow env caller productId qty token
                                                  (init_world d))))
  /\ wellformed (committed (snd (releaseEscrow env caller orderId (init_world d))))
  /\ wellformed (committed (snd (raiseDispute env caller orderId (init_world d)))).
Proof.
  intros Hwf. split; [| split].
  - remember (createProductEscrow env caller productId qty token (init_world d))
      as out eqn:Hout.
    all_runs out; wellformed_steps.
  - remember (releaseEscrow env caller orderId (init_world d)) as out eqn:Hout.
    all_runs out; wellformed_steps.
  - remember (raiseDispute env caller orderId (init_world d)) as out eqn:Hout.
    all_runs out; wellformed_steps.
Qed.

Lemma operations_keep_ledger_wellformed_witness :
  wellformed
    (committed
       (snd (createProductEscrow
               (Scenario.request "ORD-A2" "TXN-A2" Scenario.backend_ok)
               1 42 1 "USDC" (init_world (Scenario.shop_with_order "paid")))))
  /\ wellformed
       (committed
          (snd (releaseEscrow
                  (Scenario.request "ORD-A2" "TXN-A2" Scenario.backend_ok)
                  1 "ORD-A1" (init_world (Scenario.shop_with_order "paid")))))
  /\ wellformed
       (committed
          (snd (raiseDispute
                  (Scenario.request "ORD-A2" "TXN-A2" Scenario.backend_ok)
                  1 "ORD-A1" (init_world (Scenario.shop_with_order "paid"))))).
Proof.
  apply (operations_keep_ledger_wellformed
           (Scenario.request "ORD-A2" "TXN-A2" Scenario.backend_ok)
           (Scenario.shop_with_order "paid") 1 42 1 "USDC" "ORD-A1").
  split; [reflexivity |].
  split; simpl; (constructor; [intros [] | constructor]).
Defined.

(** *** How the operations compose *)






(** The order row after a confirmed release. *)
Lemma released_store env d buyerId orderId :
  In (Settlement "releaseEscrow")
     (trace (snd (releaseEscrow env buyerId orderId (init_world d)))) ->
  success (settlement env) = true ->
  exists o,
    find_order d orderId = Some o
    /\ buyer_id o = buyerId
    /\ find_order (committed (snd (releaseEscrow env buyerId orderId
                                                 (init_world d)))) orderId
       = Some (set_order (set_order o (Some "release_pending") None)
                         (Some "completed") None).
Proof.
  intros Hin Hok.
  destruct (release_success_run env d buyerId orderId _ eq_refl Hin Hok)
    as (o & new & Hfind & _ & Hbuyer & Hfresh & Hid & _ & _ & _ & _ & Hdb).
  rewrite Hdb. exists o. split; [exact Hfind |]. split; [exact Hbuyer |].
  exact (proj1 (settled_order_and_entry d new orderId (generateTransactionId env)
                  "release_pending" "completed" "released"
                  (transactionHash (settlement env)) o Hfind Hfresh Hid)).
Qed.

Lemma release_needs_escrow_or_paid env d buyerId orderId o :
  find_order d orderId = Some o ->
  buyer_id o = buyerId ->
  status o <> "paid" ->
  (exists m, fst (releaseEscrow env buyerId orderId (init_world d)) = Throw m)
  /\ committed (snd (releaseEscrow env buyerId orderId (init_world d))) = d
  /\ ~ In (Settlement "releaseEscrow")
         (trace (snd (releaseEscrow env buyerId orderId (init_world d)))).
Proof.
  remember (releaseEscrow env buyerId orderId (init_world d)) as out eqn:Hout.
  intros Hfind Hbuyer Hstatus.
  all_runs out;
    rewrite Hfind in *;
    try discriminate;
    match goal with
    | H : Some _ = Some _ |- _ => injection H as ->
    end;
    eqb_facts; subst;
    try congruence;
    (split; [eexists; reflexivity |]);
    (split; [reflexivity |]);
    intros Hin; no_settlement.
Qed.

(** X15.  A confirmed release is final for [releaseEscrow]: a second
    release of the same order, by the same buyer, rejects before the
    payment service is called and leaves the committed store as the
    first release left it. *)
Theorem confirmed_release_cannot_be_repeated env1 env2 d buyerId orderId :
  In (Settlement "releaseEscrow")
     (trace (snd (releaseEscrow env1 buyerId orderId (init_world d)))) ->
  success (settlement env1) = true ->
  (exists m,
      fst (releaseEscrow env2 buyerId orderId
             (init_world (committed (snd (releaseEscrow env1 buyerId orderId
                                                        (init_world d))))))
      = Throw m)
  /\ committed
       (snd (releaseEscrow env2 buyerId orderId
               (init_world (committed (snd (releaseEscrow env1 buyerId orderId
                                                          (init_world d)))))))
     = committed (snd (releaseEscrow env1 buyerId orderId (init_world d)))
  /\ ~ In (Settlement "releaseEscrow")
         (trace
            (snd (releaseEscrow env2 buyerId orderId
                    (init_world (committed (snd (releaseEscrow env1 buyerId orderId
                                                               (init_world d)))))))).
Proof.
  intros Hin Hok.
  destruct (released_store env1 d buyerId orderId Hin Hok)
    as (o & _ & Hbuyer & Hrow).
  eapply release_needs_escrow_or_paid; [exact Hrow | exact Hbuyer |].
  simpl. discriminate.
Qed.

Lemma confirmed_release_cannot_be_repeated_witness :
  (exists m,
      fst (releaseEscrow (Scenario.request "ORD-A3" "TXN-A3" Scenario.backend_ok)
             1 "ORD-A1"
             (init_world
                (committed
                   (snd (releaseEscrow
                           (Scenario.request "ORD-A2" "TXN-A2" Scenario.backend_ok)
                           1 "ORD-A1"
                           (init_world (Scenario.shop_with_order "paid")))))))
      = Throw m)
  /\ committed
       (snd (releaseEscrow (Scenario.request "ORD-A3" "TXN-A3" Scenario.backend_ok)
               1 "ORD-A1"
               (init_world
                  (committed
                     (snd (releaseEscrow
                             (Scenario.request "ORD-A2" "TXN-A2" Scenario.backend_ok)
                             1 "ORD-A1"
                             (init_world (Scenario.shop_with_order "paid"))))))))
     = committed
         (snd (releaseEscrow
                 (Scenario.request "ORD-A2" "TXN-A2" Scenario.backend_ok)
                 1 "ORD-A1" (init_world (Scenario.shop_with_order "paid"))))
  /\ ~ In (Settlement "releaseEscrow")
         (trace
            (snd (releaseEscrow
                    (Scenario.request "ORD-A3" "TXN-A3" Scenario.backend_ok)
                    1 "ORD-A1"
                    (init_world
                       (committed
                          (snd (releaseEscrow
                                  (Scenario.request "ORD-A2" "TXN-A2"
                                                    Scenario.backend_ok)
                                  1 "ORD-A1"
                                  (init_world (Scenario.shop_with_order "paid"))))))))).
Proof.
  apply (confirmed_release_cannot_be_repeated
           (Scenario.request "ORD-A2" "TXN-A2" Scenario.backend_ok)
           (Scenario.request "ORD-A3" "TXN-A3" Scenario.backend_ok)
           (Scenario.shop_with_order "paid") 1 "ORD-A1").
  - vm_compute. right. right. left. reflexivity.
  - reflexivity.
Defined.




(** *** A database that checks ENUM values *)



End EscrowMoreFacts.

(** ** More on the scores *)

Module ScoreMoreFacts.
Import Aggregation Tiers Analyzers SellerScore TierFacts.

Local Open Scope Q_scope.

(** *** The aggregate of scores in the unit interval, under rounding *)

(** The service computes in binary64.  What the bound below needs of
    the arithmetic is an order [nle] under which the literals are
    ordered as the decimals they denote, [+], [*] and [/] are monotone
    (on non-negative weights and positive divisors), and [0 + 0],
    [0 * w], [1 * w], [0 / c] and [c / c] are exact.  Correctly rounded
    operations on finite doubles have these properties, and so have
    the exact rationals. *)
Section Rounded.
Context {num : Type} `{Arith num}.
Variable nle : num -> num -> Prop.
Hypothesis nle_trans : forall a b c, nle a b -> nle b c -> nle a c.
Hypothesis nlit_mono : forall p q : Q, p <= q -> nle (nlit p) (nlit q).
Hypothesis nadd_mono :
  forall a b c d, nle a b -> nle c d -> nle (nadd a c) (nadd b d).
Hypothesis nadd_zero : nle (nlit 0) (nadd (nlit 0) (nlit 0)).
Hypothesis nmul_mono :
  forall a b w, nle (nlit 0) w -> nle a b -> nle (nmul a w) (nmul b w).
Hypothesis nmul_zero : forall w, nle (nlit 0) w -> nle (nlit 0) (nmul (nlit 0) w).
Hypothesis nmul_one : forall w, nle (nmul (nlit 1) w) w.
Hypothesis ndiv_mono :
  forall a b c, ngt c (nlit 0) = true -> nle a b -> nle (ndiv a c) (ndiv b c).
Hypothesis ndiv_zero :
  forall c, ngt c (nlit 0) = true -> nle (nlit 0) (ndiv (nlit 0) c).
Hypothesis ndiv_self :
  forall c, ngt c (nlit 0) = true -> nle (ndiv c c) (nlit 1).

Lemma rounded_sums (ps : list (num * num)) (ts tw : num) :
  (forall p, In p ps -> (nle (nlit 0) (fst p) /\ nle (fst p) (nlit 1))
                        /\ nle (nlit 0) (snd p)) ->
  nle (nlit 0) ts -> nle ts tw ->
  nle (nlit 0)
      (fold_left (fun t vw => nadd t (nmul (fst vw) (snd vw))) ps ts)
  /\ nle (fold_left (fun t vw => nadd t (nmul (fst vw) (snd vw))) ps ts)
         (fold_left (fun t vw => nadd t (snd vw)) ps tw).
Proof.
  revert ts tw. induction ps as [| [v w] rest IH]; intros ts tw Hps Hlow Hle.
  - split; assumption.
  - destruct (Hps (v, w) (or_introl eq_refl)) as [[Hv0 Hv1] Hw].
    cbn [fst snd] in Hv0, Hv1, Hw. cbn [fold_left fst snd].
    apply IH.
    + intros p Hp. apply Hps. right. exact Hp.
    + apply (nle_trans _ _ _ nadd_zero). apply nadd_mono; [exact Hlow |].
      apply (nle_trans _ _ _ (nmul_zero w Hw)).
      apply nmul_mono; assumption.
    + apply nadd_mono; [exact Hle |].
      apply (nle_trans _ (nmul (nlit 1) w)); [| apply nmul_one].
      apply nmul_mono; assumption.
Qed.

Lemma rounded_mean (ps : list (num * num)) :
  (forall p, In p ps -> (nle (nlit 0) (fst p) /\ nle (fst p) (nlit 1))
                        /\ nle (nlit 0) (snd p)) ->
  nle (nlit 0) (weighted_mean ps) /\ nle (weighted_mean ps) (nlit 1).
Proof.
  intros Hps. unfold weighted_mean, sum_weights, sum_weighted.
  destruct (rounded_sums ps (nlit 0) (nlit 0) Hps)
    as [Hlow Hle]; [apply nlit_mono; apply Qle_refl .. |].
  destruct (ngt (fold_left (fun t vw => nadd t (snd vw)) ps (nlit 0)) (nlit 0))
    eqn:Hpos.
  - split.
    + apply (nle_trans _ _ _ (ndiv_zero _ Hpos)).
      apply ndiv_mono; assumption.
    + apply (nle_trans _ _ _ (ndiv_mono _ _ _ Hpos Hle)).
      apply ndiv_self. exact Hpos.
  - split; apply nlit_mono; discriminate.
Qed.


Lemma present_analysis_rows (analyses : list (category * option analysis)) :
  forall p, In p (present_analyses analyses) ->
            exists c an, In (c, an) analyses
                         /\ numeric_analysis an = Some (fst p)
                         /\ snd p = behaviorWeights c.
Proof.
  induction analyses as [| [c an] rest IH]; simpl; intros p Hp.
  - contradiction.
  - destruct (numeric_analysis an) as [v |] eqn:E.
    + destruct Hp as [<- | Hp].
      * exists c, an. repeat split; [left; reflexivity | exact E].
      * destruct (IH p Hp) as (c' & an' & Hin & Hv & Hw).
        exists c', an'. repeat split; [right |..]; assumption.
    + destruct (IH p Hp) as (c' & an' & Hin & Hv & Hw).
      exists c', an'. repeat split; [right |..]; assumption.
Qed.


Lemma behavior_score_unit (analyses : list (category * option analysis)) :
  (forall c an v, In (c, an) analyses -> numeric_analysis an = Some v ->
                  nle (nlit 0) v /\ nle v (nlit 1)) ->
  nle (nlit 0) (Aggregation.calculateBehaviorScore analyses)
  /\ nle (Aggregation.calculateBehaviorScore analyses) (nlit 1).
Proof.
  intros Hin.
  rewrite AggregationFacts.calculateBehaviorScore_mean.
  apply rounded_mean. intros p Hp.
  destruct (present_analysis_rows analyses p Hp)
    as (c & an & Hrow & Hv & Hw).
  split; [exact (Hin c an (fst p) Hrow Hv) |].
  rewrite Hw. destruct c; apply nlit_mono; discriminate.
Qed.


End Rounded.

(** The exact rationals are such an arithmetic. *)
Lemma Q_ndiv_mono (a b c : Q) :
  ngt c (nlit 0) = true -> a <= b -> ndiv a c <= ndiv b c.
Proof.
  simpl. intros Hpos Hle. apply negb_true_iff in Hpos.
  assert (0 < c).
  { apply Qnot_le_lt. intros H. apply Qle_bool_iff in H. congruence. }
  apply Qle_shift_div_l; [assumption |].
  setoid_replace (a / c * c) with a by (field; lra). exact Hle.
Qed.

Lemma Q_ndiv_zero (c : Q) : ngt c (nlit 0) = true -> 0 <= ndiv (nlit 0) c.
Proof.
  simpl. intros Hpos. apply negb_true_iff in Hpos.
  assert (0 < c).
  { apply Qnot_le_lt. intros H. apply Qle_bool_iff in H. congruence. }
  apply Qle_shift_div_l; [assumption | lra].
Qed.

Lemma Q_ndiv_self (c : Q) : ngt c (nlit 0) = true -> ndiv c c <= 1.
Proof.
  simpl. intros Hpos. apply negb_true_iff in Hpos.
  assert (0 < c).
  { apply Qnot_le_lt. intros H. apply Qle_bool_iff in H. congruence. }
  apply Qle_shift_div_r; [assumption | lra].
Qed.


Lemma Q_behavior_score_unit (analyses : list (category * option analysis)) :
  (forall c an v, In (c, an) analyses -> numeric_analysis an = Some v ->
                  0 <= v <= 1) ->
  0 <= Aggregation.calculateBehaviorScore analyses <= 1.
Proof.
  apply (@behavior_score_unit Q Arith_Q Qle Qle_trans
           (fun p q Hpq => Hpq)
           (fun a b c d Hab Hcd => Qplus_le_compat a b c d Hab Hcd)
           ltac:(discriminate)
           (fun a b w Hw Hab => Qmult_le_compat_r a b w Hab Hw)
           (fun w Hw => ltac:(simpl; lra))
           (fun w => ltac:(simpl; lra))
           Q_ndiv_mono Q_ndiv_zero Q_ndiv_self).
Qed.


(** *** The tier of a score *)

Lemma in_band_iff (c : tierConfig) (v : Q) :
  in_band c v = true <-> min c <= v <= max c.
Proof.
  unfold in_band. rewrite andb_true_iff, !Qle_bool_iff. reflexivity.
Qed.

Lemma not_in_band (c : tierConfig) (v : Q) :
  ~ (min c <= v <= max c) -> in_band c v = false.
Proof.
  intros Hout. apply not_true_is_false. intros Hin.
  apply Hout. apply in_band_iff. exact Hin.
Qed.

(** X18.  [getScoreTier] returns the band that contains the score,
    tagged with the band's name; a score that lies in no band (in a
    gap between two bands, below 0 or above 1) gets the untagged
    [veryPoor] object, labelled Very Poor. *)
Theorem getScoreTier_returns_containing_band (v : Q) :
  (forall name c, In (name, c) scoreTiers -> min c <= v <= max c ->
                  tier (getScoreTier v) = Some name
                  /\ st_label (getScoreTier v) = label c
                  /\ st_min (getScoreTier v) = min c
                  /\ st_max (getScoreTier v) = max c)
  /\ ((forall name c, In (name, c) scoreTiers -> ~ (min c <= v <= max c)) ->
      tier (getScoreTier v) = None
      /\ st_label (getScoreTier v) = "Very Poor"%string)
  /\ (v < 0 \/ 1 < v ->
      tier (getScoreTier v) = None
      /\ st_label (getScoreTier v) = "Very Poor"%string).
Proof.
  assert (Hout : (forall name c, In (name, c) scoreTiers ->
                                 ~ (min c <= v <= max c)) ->
                 tier (getScoreTier v) = None
                 /\ st_label (getScoreTier v) = "Very Poor"%string).
  { intros Hnone. unfold getScoreTier, scoreTiers in *. simpl first_band.
    repeat match goal with
           | |- context [in_band ?c v] =>
               rewrite (not_in_band c v)
                 by (eapply Hnone; simpl; tauto)
           end.
    split; reflexivity. }
  split; [| split].
  - intros name c Hin Hband. simpl in Hin.
    unfold getScoreTier, scoreTiers. simpl first_band.
    repeat (destruct Hin as [Heq | Hin];
            [ injection Heq as <- <-; simpl in Hband;
              repeat match goal with
                     | |- context [if in_band ?b v then _ else _] =>
                         let E := fresh "E" in
                         destruct (in_band b v) eqn:E;
                         [ apply in_band_bounds in E; simpl in E;
                           try (exfalso; lra)
                         | try (exfalso;
                                apply not_true_iff_false in E; apply E;
                                apply in_band_iff; simpl; lra) ]
                     end;
              repeat split
            |]).
    contradiction.
  - exact Hout.
  - intros Hrange. apply Hout. intros name c Hin Hband. simpl in Hin.
    repeat (destruct Hin as [Heq | Hin];
            [injection Heq as <- <-; simpl in Hband; lra |]).
    contradiction.
Qed.

Lemma getScoreTier_returns_containing_band_witness :
  tier (getScoreTier 0.85) = Some "veryGood"%string
  /\ st_label (getScoreTier 0.85) = "Very Good"%string
  /\ st_min (getScoreTier 0.85) = 0.8
  /\ st_max (getScoreTier 0.85) = 0.89.
Proof.
  apply (proj1 (getScoreTier_returns_containing_band 0.85) "veryGood"%string
               {| min := 0.8; max := 0.89; label := "Very Good";
                  color := "#3B82F6" |}).
  - simpl. right. left. reflexivity.
  - split; discriminate.
Defined.

(** *** The platform bonus and the social score *)

Lemma qmin_bounds (a b : Q) : qmin a b <= a /\ qmin a b <= b.
Proof.
  unfold qmin. destruct (Qle_bool a b) eqn:E.
  - apply Qle_bool_iff in E. split; lra.
  - assert (~ a <= b) by (intros H; apply Qle_bool_iff in H; congruence).
    split; lra.
Qed.

Lemma qmin_glb (a b c : Q) : c <= a -> c <= b -> c <= qmin a b.
Proof. intros Ha Hb. unfold qmin. destruct (Qle_bool a b); assumption. Qed.






Lemma existsb_eqb_In (n : string) (seen : list string) :
  existsb (String.eqb n) seen = true <-> In n seen.
Proof.
  rewrite existsb_exists. split.
  - intros [x [Hx Heq]]. apply String.eqb_eq in Heq. subst. exact Hx.
  - intros Hin. exists n. split; [exact Hin | apply String.eqb_refl].
Qed.





Lemma capped_at_one (x : Q) : qmin x 1.0 <= 1.
Proof.
  pose proof (proj2 (qmin_bounds x 1.0)) as Hcap.
  apply (Qle_trans _ _ _ Hcap). discriminate.
Qed.

Lemma qlen_pos {A} (l : list A) : (0 < List.length l)%nat -> 0 < qlen l.
Proof.
  intros Hlen. unfold qlen. change 0 with (inject_Z 0).
  rewrite <- Zlt_Qlt. lia.
Qed.



End ScoreMoreFacts.

(** ** More on the insights of a score *)

Module InsightFacts.
Import Aggregation Analyzers SellerScore InsightClasses.

Local Open Scope Q_scope.

Lemma insight_fold (scores : list (string * partialQ)) (i : insights) :
  let j := fold_left insight_step scores i in
  strengths j = (strengths i ++ map entry_label (filter is_strength scores))%list
  /\ weaknesses j
     = (weaknesses i ++ map entry_label (filter is_weakness scores))%list
  /\ riskFactors j = (riskFactors i ++ map fst (filter is_weakness scores))%list
  /\ recommendations j = recommendations i.
Proof.
  revert i. induction scores as [| [factor data] rest IH]; intros i.
  - simpl. rewrite !app_nil_r. repeat split; reflexivity.
  - cbn [fold_left]. specialize (IH (insight_step i (factor, data))).
    cbv zeta in IH. destruct IH as [Hs [Hw [Hr Hc]]].
    cbv zeta. rewrite Hs, Hw, Hr, Hc. clear Hs Hw Hr Hc.
    unfold insight_step, is_strength, is_weakness. cbn [filter snd fst].
    destruct (score data) as [s | | |]; cbn [strengths weaknesses riskFactors
                                               recommendations];
      try (repeat split; reflexivity).
    destruct (qge s 0.8); cbn [negb andb strengths weaknesses riskFactors
                                 recommendations map].
    + rewrite <- app_assoc. repeat split; reflexivity.
    + destruct (Qle_bool s 0.4); cbn [strengths weaknesses riskFactors
                                        recommendations map].
      * rewrite <- !app_assoc. repeat split; reflexivity.
      * repeat split; reflexivity.
Qed.

Lemma low_score_is_weakness (e : string * partialQ) :
  is_weakness e = true <-> exists s, score (snd e) = JNumber s /\ s <= 0.4.
Proof.
  unfold is_weakness. split.
  - destruct (score (snd e)) as [s | | |]; try discriminate.
    intros H. apply andb_true_iff in H as [_ H].
    apply Qle_bool_iff in H. exists s. split; [reflexivity | exact H].
  - intros [s [-> Hs]]. apply andb_true_iff. split.
    + apply negb_true_iff. unfold qge.
      destruct (Qle_bool 0.8 s) eqn:E; [| reflexivity].
      apply Qle_bool_iff in E. lra.
    + apply Qle_bool_iff. exact Hs.
Qed.

(** X20.  [generateInsights] files every entry once, in the order of the
    scores: the strengths are the labels of the entries scoring at least
    0.8, the weaknesses those of the entries scoring at most 0.4, and the
    risk factors the names of the same entries, so that an entry with a
    score strictly between 0.4 and 0.8, or with no numeric score, is
    filed nowhere; and the recommendations are empty exactly when there
    is neither a strength nor a weakness. *)
Theorem insights_file_every_entry_once (scores : list (string * partialQ)) :
  let i := generateInsights scores in
  strengths i = map entry_label (filter is_strength scores)
  /\ weaknesses i = map entry_label (filter is_weakness scores)
  /\ riskFactors i = map fst (filter is_weakness scores)
  /\ (forall e, is_weakness e = true
               <-> exists s, score (snd e) = JNumber s /\ s <= 0.4)
  /\ (forall e, is_strength e = true
               <-> exists s, score (snd e) = JNumber s /\ 0.8 <= s)
  /\ (recommendations i = [] <-> strengths i = [] /\ weaknesses i = []).
Proof.
  cbv zeta. unfold generateInsights.
  pose proof (insight_fold scores
                {| strengths := []; weaknesses := []; recommendations := [];
                   riskFactors := [] |}) as Hfold.
  cbv zeta in Hfold. cbn [strengths weaknesses riskFactors recommendations
                            app] in Hfold.
  destruct Hfold as [Hs [Hw [Hr _]]].
  cbn [strengths weaknesses riskFactors recommendations].
  rewrite Hs, Hw, Hr.
  split; [reflexivity |]. split; [reflexivity |]. split; [reflexivity |].
  split; [exact low_score_is_weakness |]. split.
  - intros e. unfold is_strength, qge.
    destruct (score (snd e)) as [s | | |].
    + rewrite Qle_bool_iff. split.
      * intros H. exists s. split; [reflexivity | exact H].
      * intros [s' [Heq H]]. injection Heq as ->. exact H.
    + split; [discriminate | intros [s' [Heq _]]; discriminate].
    + split; [discriminate | intros [s' [Heq _]]; discriminate].
    + split; [discriminate | intros [s' [Heq _]]; discriminate].
  - destruct (map entry_label (filter is_weakness scores)) as [| w ws];
      destruct (map entry_label (filter is_strength scores)) as [| s ss];
      cbn [List.length Nat.ltb Nat.leb app].
    + split; [intros _; split; reflexivity | reflexivity].
    + split; [discriminate | intros [H _]; discriminate].
    + split; [discriminate | intros [_ H]; discriminate].
    + split; [discriminate | intros [H _]; discriminate].
Qed.

End InsightFacts.

(** ** Behaviour monitoring *)

Module BehaviorFacts.
Import Aggregation Behavior.

Local Open Scope Q_scope.

Lemma qge_iff (a b : Q) : qge a b = true <-> b <= a.
Proof. unfold qge. apply Qle_bool_iff. Qed.

Lemma qgt_iff (a b : Q) : qgt a b = true <-> b < a.
Proof.
  unfold qgt. rewrite negb_true_iff. split.
  - intros E. apply Qnot_le_lt. intros H. apply Qle_bool_iff in H. congruence.
  - intros H. destruct (Qle_bool a b) eqn:E; [| reflexivity].
    apply Qle_bool_iff in E. lra.
Qed.

(** Decide every comparison of the goal, keeping what it says. *)
Ltac compare_all :=
  repeat match goal with
         | |- context [Qle_bool ?a ?b] =>
             let E := fresh "E" in
             destruct (Qle_bool a b) eqn:E;
             [apply Qle_bool_iff in E
             | assert (~ a <= b)
                 by (let H := fresh in
                     intros H; apply Qle_bool_iff in H; congruence);
               clear E]
         end.

(** X21.  The two risk scales of the monitoring service agree except on
    the scores that no band of [riskLevels] contains: there
    [determineRiskLevel] answers "medium" whatever [getRiskLevel] says,
    so a total score just under 0.2 is filed as medium, not critical. *)
Theorem risk_scales_differ_in_the_gaps (v : Q) :
  (determineRiskLevel v = getRiskLevel v
   <-> ~ (v < 0 \/ 0.19 < v < 0.2 \/ 0.49 < v < 0.5 \/ 1 < v))
  /\ (0.19 < v < 0.2 ->
      determineRiskLevel v = "medium"%string
      /\ getRiskLevel v = "critical"%string)
  /\ (0.79 < v < 0.8 -> determineRiskLevel v = "medium"%string).
Proof.
  unfold determineRiskLevel, getRiskLevel, riskLevels, in_risk_band, qge.
  cbn [find snd rb_min rb_max].
  compare_all; cbn [andb]; compare_all; cbn [andb];
    (split; [split; [intros Heq; try discriminate Heq; lra
                    | intros Hgap; try reflexivity; exfalso; lra]
            | split; intros Hin; try (split; reflexivity);
              try reflexivity; exfalso; lra]).
Qed.

Lemma flag_fst_le (c : bool) (p : Q) (s : string) (st : Q * list string) :
  0 <= p -> fst (flag c p s st) <= fst st.
Proof. intros Hp. unfold flag. destruct c; simpl; lra. Qed.

Lemma flag_In (x : string) (c : bool) (p : Q) (s : string)
      (st : Q * list string) :
  In x (snd (flag c p s st)) <-> In x (snd st) \/ (c = true /\ x = s).
Proof.
  unfold flag. destruct c; simpl.
  - rewrite in_app_iff. simpl. split.
    + intros [H | [H | []]]; [left; exact H | right; split; congruence].
    + intros [H | [_ H]]; [left; exact H | right; left; congruence].
  - split; [intros H; left; exact H | intros [H | [H _]]; [exact H | discriminate]].
Qed.

Lemma flag_clean (c : bool) (p : Q) (s : string) (st : Q * list string) :
  0 < p -> clean st -> clean (flag c p s st).
Proof.
  intros Hp Hst. unfold flag. destruct c; [| exact Hst].
  right. simpl. split.
  - intros Hnil. apply app_eq_nil in Hnil as [_ Hnil]. discriminate.
  - destruct Hst as [[_ H] | [_ H]]; lra.
Qed.

Lemma report_consistent (st : Q * list string) :
  fst st <= 1 -> consistent (report st).
Proof.
  intros Hle. unfold consistent, report. simpl.
  exists (qmax 0 (fst st)). split; [reflexivity |].
  unfold qmax. destruct (Qle_bool 0 (fst st)) eqn:E.
  - apply Qle_bool_iff in E. repeat split; assumption.
  - assert (Hneg : ~ 0 <= fst st)
      by (intros H; apply Qle_bool_iff in H; congruence).
    split; [split; [apply Qle_refl | discriminate] |].
    unfold getRiskLevel, qge.
    compare_all; try reflexivity; exfalso; lra.
Qed.

Lemma report_clean (st : Q * list string) :
  clean st ->
  (patterns (report st) = []
   <-> exists v, a_score (report st) = JNumber v /\ v == 1).
Proof.
  intros Hst. unfold report. simpl. unfold qmax. split.
  - intros Hnil. destruct Hst as [[_ H] | [Hsome _]]; [| contradiction].
    eexists. split; [reflexivity |].
    destruct (Qle_bool 0 (fst st)) eqn:E; [exact H |].
    assert (~ 0 <= fst st) by (intros H'; apply Qle_bool_iff in H'; congruence).
    lra.
  - intros [v [Hv Hone]]. injection Hv as <-.
    destruct Hst as [[Hnil _] | [_ Hlow]]; [exact Hnil |].
    destruct (Qle_bool 0 (fst st)); lra.
Qed.

Lemma start_clean : clean (1.0, []).
Proof. left. split; reflexivity. Qed.

Ltac flags_le :=
  repeat (eapply Qle_trans; [apply flag_fst_le; discriminate |]);
  simpl; discriminate.

Ltac flags_clean :=
  repeat (apply flag_clean; [reflexivity |]); apply start_clean.

Lemma communication_consistent (d : mockCommunicationData) :
  consistent (analyzeCommunicationBehavior d).
Proof.
  unfold analyzeCommunicationBehavior. cbv zeta.
  apply report_consistent. flags_le.
Qed.

Lemma transaction_consistent (d : mockTransactionData) :
  consistent (analyzeTransactionBehavior d).
Proof.
  unfold analyzeTransactionBehavior. cbv zeta.
  apply report_consistent. flags_le.
Qed.

Lemma account_consistent (days : Q) (d : accountDraws) :
  consistent (analyzeAccountBehavior days d).
Proof.
  unfold analyzeAccountBehavior. cbv zeta.
  apply report_consistent. flags_le.
Qed.

Lemma clamped_consistent (r : Q) (ps : list string) :
  r <= 1 ->
  consistent {| a_score := JNumber (qmax 0 r); risk := getRiskLevel r;
                patterns := ps |}.
Proof.
  intros Hle.
  destruct (report_consistent (r, []) Hle) as [v [Hv [Hrange Hrisk]]].
  exists v. repeat split; solve [exact Hv | apply Hrange | exact Hrisk].
Qed.

Lemma penalty_le (c : bool) (p r : Q) :
  0 <= p -> (if c then r - p else r) <= r.
Proof. intros Hp. destruct c; lra. Qed.

Lemma listing_consistent (fetch : result (list listingRow)) :
  consistent (analyzeListingBehavior fetch).
Proof.
  unfold analyzeListingBehavior, try_or, rbind.
  destruct fetch as [products | m].
  - destruct (List.length products =? 0)%nat.
    + exists 0.8. repeat split; discriminate.
    + cbv zeta. apply clamped_consistent.
      repeat (eapply Qle_trans; [apply penalty_le; discriminate |]).
      discriminate.
  - exists 0.5. repeat split; discriminate.
Qed.

(** X22.  Every analysis of the monitoring service is consistent: its
    score is a number between 0 and 1, and its risk label is the level
    [getRiskLevel] gives to that score, on every path, the early
    returns and the fallbacks included. *)
Theorem behavior_analyses_are_consistent :
  (forall fetch, consistent (analyzeListingBehavior fetch))
  /\ (forall d, consistent (analyzeCommunicationBehavior d))
  /\ (forall d, consistent (analyzeTransactionBehavior d))
  /\ (forall days d, consistent (analyzeAccountBehavior days d)).
Proof.
  split; [exact listing_consistent |].
  split; [exact communication_consistent |].
  split; [exact transaction_consistent | exact account_consistent].
Qed.

Lemma communication_pattern (x : string) (d : mockCommunicationData) :
  In x (patterns (analyzeCommunicationBehavior d)) <->
  (responseTime d > 24 /\ x = "Slow response time"%string)
  \/ (messageFrequency d > 50 /\ x = "High message frequency"%string)
  \/ (spamKeywords d > 0 /\ x = "Spam keywords detected"%string)
  \/ (suspiciousLanguage d > 0 /\ x = "Suspicious language detected"%string)
  \/ (weekendActivity d > 0.8 /\ x = "High weekend activity"%string)
  \/ (unusualHours d > 0.2 /\ x = "Activity at unusual hours"%string).
Proof.
  unfold analyzeCommunicationBehavior, report. cbv zeta. cbn [patterns].
  rewrite !flag_In, !qgt_iff. cbn [snd In]. tauto.
Qed.

Lemma transaction_pattern (x : string) (d : mockTransactionData) :
  In x (patterns (analyzeTransactionBehavior d)) <->
  (recentTransactions d > 5 /\ x = "Rapid transaction activity"%string)
  \/ (highValueTransactions d > 0 /\ x = "High-value transactions"%string)
  \/ (weekendTransactions d > 0.8
      /\ x = "High weekend transaction activity"%string)
  \/ (unusualHourTransactions d > 0.2
      /\ x = "Transactions at unusual hours"%string)
  \/ (failedTransactions d > 0 /\ x = "Failed transactions detected"%string)
  \/ (disputeRate d > 0.05 /\ x = "High dispute rate"%string).
Proof.
  unfold analyzeTransactionBehavior, report. cbv zeta. cbn [patterns].
  rewrite !flag_In, !qgt_iff. cbn [snd In]. tauto.
Qed.

Lemma account_pattern (x : string) (days : Q) (d : accountDraws) :
  In x (patterns (analyzeAccountBehavior days d)) <->
  (days < 7 /\ x = "New account"%string)
  \/ (profileChanges d > 5 /\ x = "Frequent profile changes"%string)
  \/ (verificationDelay d > 24 /\ x = "Delayed verification"%string)
  \/ (loginFrequency d > 20 /\ x = "Unusual login frequency"%string).
Proof.
  unfold analyzeAccountBehavior, report. cbv zeta. cbn [patterns].
  rewrite !flag_In, !qgt_iff. unfold qlt. fold (qgt 7 days).
  rewrite qgt_iff. cbn [snd In]. intuition discriminate.
Qed.

(** X23.  In the three analyzers of simulated data the patterns are
    the penalties: an analysis lists a pattern exactly when the
    matching threshold is crossed, it lists none exactly when its
    score is 1, and "Multiple accounts detected" is never listed. *)
Theorem patterns_are_the_penalties :
  (forall x d, In x (patterns (analyzeCommunicationBehavior d)) <->
     (responseTime d > 24 /\ x = "Slow response time"%string)
     \/ (messageFrequency d > 50 /\ x = "High message frequency"%string)
     \/ (spamKeywords d > 0 /\ x = "Spam keywords detected"%string)
     \/ (suspiciousLanguage d > 0
         /\ x = "Suspicious language detected"%string)
     \/ (weekendActivity d > 0.8 /\ x = "High weekend activity"%string)
     \/ (unusualHours d > 0.2 /\ x = "Activity at unusual hours"%string))
  /\ (forall x d, In x (patterns (analyzeTransactionBehavior d)) <->
     (recentTransactions d > 5 /\ x = "Rapid transaction activity"%string)
     \/ (highValueTransactions d > 0 /\ x = "High-value transactions"%string)
     \/ (weekendTransactions d > 0.8
         /\ x = "High weekend transaction activity"%string)
     \/ (unusualHourTransactions d > 0.2
         /\ x = "Transactions at unusual hours"%string)
     \/ (failedTransactions d > 0
         /\ x = "Failed transactions detected"%string)
     \/ (disputeRate d > 0.05 /\ x = "High dispute rate"%string))
  /\ (forall x days d, In x (patterns (analyzeAccountBehavior days d)) <->
     (days < 7 /\ x = "New account"%string)
     \/ (profileChanges d > 5 /\ x = "Frequent profile changes"%string)
     \/ (verificationDelay d > 24 /\ x = "Delayed verification"%string)
     \/ (loginFrequency d > 20 /\ x = "Unusual login frequency"%string))
  /\ (forall d, patterns (analyzeCommunicationBehavior d) = []
               <-> exists v, a_score (analyzeCommunicationBehavior d)
                             = JNumber v /\ v == 1)
  /\ (forall d, patterns (analyzeTransactionBehavior d) = []
               <-> exists v, a_score (analyzeTransactionBehavior d)
                             = JNumber v /\ v == 1)
  /\ (forall days d, patterns (analyzeAccountBehavior days d) = []
               <-> exists v, a_score (analyzeAccountBehavior days d)
                             = JNumber v /\ v == 1).
Proof.
  split; [exact communication_pattern |].
  split; [exact transaction_pattern |].
  split; [exact account_pattern |].
  split; [| split].
  - intros d. unfold analyzeCommunicationBehavior. cbv zeta.
    apply report_clean. flags_clean.
  - intros d. unfold analyzeTransactionBehavior. cbv zeta.
    apply report_clean. flags_clean.
  - intros days d. unfold analyzeAccountBehavior. cbv zeta.
    apply report_clean. flags_clean.
Qed.

(** *** Actions *)

Lemma dedupe_In (seen names : list string) (x : string) :
  In x (Analyzers.dedupe seen names) <-> In x names /\ ~ In x seen.
Proof.
  revert seen. induction names as [| n rest IH]; intros seen; simpl.
  - tauto.
  - destruct (existsb (String.eqb n) seen) eqn:E.
    + apply ScoreMoreFacts.existsb_eqb_In in E. rewrite IH.
      split; [tauto |]. intros [[<- | Hin] Hout]; tauto.
    + assert (Hn : ~ In n seen).
      { intros Hin. apply ScoreMoreFacts.existsb_eqb_In in Hin. congruence. }
      simpl. rewrite IH. simpl.
      destruct (string_dec n x) as [<- | Hneq]; tauto.
Qed.

Lemma dedupe_NoDup (seen names : list string) :
  NoDup (Analyzers.dedupe seen names).
Proof.
  revert seen. induction names as [| n rest IH]; intros seen; simpl.
  - constructor.
  - destruct (existsb (String.eqb n) seen); [apply IH |].
    constructor; [| apply IH].
    rewrite dedupe_In. simpl. tauto.
Qed.

Lemma includes_In (l : list string) (x : string) :
  SellerScore.includes l x = true <-> In x l.
Proof. unfold SellerScore.includes. apply ScoreMoreFacts.existsb_eqb_In. Qed.

Lemma pattern_actions_In (a : analysisQ) (x : string) :
  In x (pattern_actions a) <->
  (x = "limit_listing_frequency"%string
   /\ In "Rapid listing activity"%string (patterns a))
  \/ (x = "content_review"%string
      /\ In "Spam keywords detected"%string (patterns a))
  \/ (x = "escrow_required"%string
      /\ In "High dispute rate"%string (patterns a)).
Proof.
  unfold pattern_actions.
  pose proof (includes_In (patterns a) "Rapid listing activity") as Hrapid.
  pose proof (includes_In (patterns a) "Spam keywords detected") as Hspam.
  pose proof (includes_In (patterns a) "High dispute rate") as Hdispute.
  destruct (0 <? List.length (patterns a))%nat eqn:Hsome.
  - destruct (SellerScore.includes (patterns a) "Rapid listing activity");
      destruct (SellerScore.includes (patterns a) "Spam keywords detected");
      destruct (SellerScore.includes (patterns a) "High dispute rate");
      cbn [app In];
      intuition (try discriminate; try congruence; auto).
  - destruct (patterns a); [| discriminate Hsome].
    simpl. tauto.
Qed.

Lemma determineActions_In (level : string) (l : list analysisQ) (x : string) :
  In x (determineActions level l) <->
  In x (base_actions level) \/ exists a, In a l /\ In x (pattern_actions a).
Proof.
  unfold determineActions. rewrite dedupe_In, in_app_iff, in_flat_map.
  simpl. tauto.
Qed.

Lemma base_actions_cases (level : string) :
  base_actions level = ["suspend_account"; "flag_for_review"; "notify_admin"]
  \/ base_actions level
     = ["restrict_listing"; "require_verification"; "flag_for_review"]
  \/ base_actions level = ["monitor_closely"; "send_warning"]
  \/ base_actions level = ["continue_monitoring"]
  \/ base_actions level = [].
Proof.
  unfold base_actions.
  destruct (level =? "critical")%string; [tauto |].
  destruct (level =? "high")%string; [tauto |].
  destruct (level =? "medium")%string; [tauto |].
  destruct (level =? "low")%string; tauto.
Qed.

Lemma triggered_action (level : string) (l : list analysisQ)
      (action pattern : string) :
  ~ In action ["suspend_account"; "flag_for_review"; "notify_admin";
               "restrict_listing"; "require_verification"; "monitor_closely";
               "send_warning"; "continue_monitoring"]%string ->
  (forall a, In action (pattern_actions a) <-> In pattern (patterns a)) ->
  (In action (determineActions level l)
   <-> exists a, In a l /\ In pattern (patterns a)).
Proof.
  intros Hbase Htrigger. rewrite determineActions_In. split.
  - intros [Hin | [a [Ha Hin]]].
    + exfalso. apply Hbase.
      destruct (base_actions_cases level) as [E | [E | [E | [E | E]]]];
        rewrite E in Hin; simpl in Hin; simpl; tauto.
    + exists a. split; [exact Ha | apply Htrigger; exact Hin].
  - intros [a [Ha Hin]]. right. exists a.
    split; [exact Ha | apply Htrigger; exact Hin].
Qed.

Ltac not_a_base_action :=
  simpl; intros Hbase;
  repeat (destruct Hbase as [Hbase | Hbase]; [discriminate Hbase |]);
  exact Hbase.

Lemma limit_triggered (level : string) (l : list analysisQ) :
  In "limit_listing_frequency"%string (determineActions level l)
  <-> exists a, In a l /\ In "Rapid listing activity"%string (patterns a).
Proof.
  apply triggered_action; [not_a_base_action |].
  intros a. rewrite pattern_actions_In. intuition discriminate.
Qed.

Lemma review_triggered (level : string) (l : list analysisQ) :
  In "content_review"%string (determineActions level l)
  <-> exists a, In a l /\ In "Spam keywords detected"%string (patterns a).
Proof.
  apply triggered_action; [not_a_base_action |].
  intros a. rewrite pattern_actions_In. intuition discriminate.
Qed.

Lemma escrow_triggered (level : string) (l : list analysisQ) :
  In "escrow_required"%string (determineActions level l)
  <-> exists a, In a l /\ In "High dispute rate"%string (patterns a).
Proof.
  apply triggered_action; [not_a_base_action |].
  intros a. rewrite pattern_actions_In. intuition discriminate.
Qed.

Lemma known_level_has_actions (level : string) (l : list analysisQ) :
  In level ["low"; "medium"; "high"; "critical"]%string ->
  determineActions level l <> [].
Proof.
  intros Hlevel Hnil.
  assert (Hsome : exists x, In x (base_actions level)).
  { simpl in Hlevel.
    destruct Hlevel as [<- | [<- | [<- | [<- | []]]]];
      eexists; simpl; left; reflexivity. }
  destruct Hsome as [x Hx].
  assert (Hin : In x (determineActions level l))
    by (apply determineActions_In; left; exact Hx).
  rewrite Hnil in Hin. exact Hin.
Qed.

Lemma determineRiskLevel_known (v : Q) :
  In (determineRiskLevel v) ["low"; "medium"; "high"; "critical"]%string.
Proof.
  unfold determineRiskLevel, riskLevels, in_risk_band, qge.
  cbn [find snd rb_min rb_max].
  compare_all; cbn [andb]; compare_all; cbn [andb]; simpl; tauto.
Qed.

(** X24.  [determineActions] returns each action once; the three
    targeted actions are chosen exactly when some analysis lists the
    matching pattern, whatever the risk level; and each of the four
    risk levels brings at least one action, so the list is never empty
    for a level that [determineRiskLevel] returns. *)
Theorem actions_are_distinct_and_triggered (level : string)
        (l : list analysisQ) :
  NoDup (determineActions level l)
  /\ (In "limit_listing_frequency"%string (determineActions level l)
      <-> exists a, In a l /\ In "Rapid listing activity"%string (patterns a))
  /\ (In "content_review"%string (determineActions level l)
      <-> exists a, In a l /\ In "Spam keywords detected"%string (patterns a))
  /\ (In "escrow_required"%string (determineActions level l)
      <-> exists a, In a l /\ In "High dispute rate"%string (patterns a))
  /\ (forall v, determineActions (determineRiskLevel v) l <> []).
Proof.
  split; [apply dedupe_NoDup |].
  split; [apply limit_triggered |].
  split; [apply review_triggered |].
  split; [apply escrow_triggered |].
  intros v. apply known_level_has_actions. apply determineRiskLevel_known.
Qed.

Lemma handled_or_dropped (action : string) :
  handled action = false -> handler action = None.
Proof.
  unfold handled. intros H. apply andb_false_iff in H.
  destruct H as [H | H]; apply negb_false_iff in H;
    apply String.eqb_eq in H; subst; reflexivity.
Qed.

Lemma executeActions_filter (acts : list string) :
  executeActions acts = executeActions (filter handled acts).
Proof.
  unfold executeActions. induction acts as [| a rest IH]; [reflexivity |].
  cbn [flat_map filter]. destruct (handled a) eqn:E.
  - cbn [flat_map]. rewrite IH. reflexivity.
  - rewrite (handled_or_dropped a E). exact IH.
Qed.

Lemma untriggered_actions (level : string) (l : list analysisQ) :
  (forall a, In a l -> pattern_actions a = []) ->
  determineActions level l = Analyzers.dedupe [] (base_actions level).
Proof.
  intros Hnone. unfold determineActions.
  replace (flat_map pattern_actions l) with (@nil string).
  - rewrite app_nil_r. reflexivity.
  - symmetry. induction l as [| a rest IH]; [reflexivity |].
    cbn [flat_map]. rewrite (Hnone a (or_introl eq_refl)).
    apply IH. intros b Hb. apply Hnone. right. exact Hb.
Qed.

(** X25.  [executeActions] has no case for "notify_admin" or
    "continue_monitoring": it runs exactly what it would run without
    them.  So when no analysis lists a targeted pattern, a low-risk
    user has no method run at all, and a critical one is suspended and
    flagged but no administrator is notified. *)
Theorem unhandled_actions_are_dropped :
  (forall acts, executeActions acts = executeActions (filter handled acts))
  /\ (forall l : list analysisQ,
        (forall a, In a l -> pattern_actions a = []) ->
        executeActions (determineActions "low" l) = []
        /\ executeActions (determineActions "critical" l)
           = ["suspendAccount"; "flagForReview"]%string)
  /\ (forall acts method, In method (executeActions acts) ->
        exists action, In action acts /\ handled action = true
                       /\ handler action = Some method).
Proof.
  split; [exact executeActions_filter |]. split.
  - intros l Hnone. rewrite !untriggered_actions by exact Hnone.
    split; reflexivity.
  - intros acts method Hin. unfold executeActions in Hin.
    apply in_flat_map in Hin as [action [Hact Hrun]].
    exists action. split; [exact Hact |].
    destruct (handler action) as [m |] eqn:Hh; [| contradiction].
    destruct Hrun as [<- | []]. split; [| reflexivity].
    destruct (handled action) eqn:E; [reflexivity |].
    rewrite (handled_or_dropped action E) in Hh. discriminate.
Qed.

(** *** One user *)

Lemma consistent_numeric (a : analysisQ) (v : Q) :
  consistent a -> numeric_analysis (Some a) = Some v -> 0 <= v <= 1.
Proof.
  intros [w [Hw [Hrange _]]] Hv. destruct a as [sc rk ps].
  simpl in Hw, Hv. subst sc. injection Hv as <-. exact Hrange.
Qed.

Lemma listing_pattern_cases (fetch : result (list listingRow)) (x : string) :
  In x (patterns (analyzeListingBehavior fetch)) ->
  In x ["No listing history"; "Analysis failed"; "Rapid listing activity";
        "Duplicate listings detected"; "Suspicious keywords used";
        "Price manipulation detected"]%string.
Proof.
  unfold analyzeListingBehavior, try_or, rbind.
  destruct fetch as [products | m].
  - destruct (List.length products =? 0)%nat.
    + simpl. tauto.
    + cbv zeta. cbn [patterns]. unfold getListingPatterns.
      rewrite !in_app_iff.
      repeat match goal with
             | |- context [if ?c then [_] else []] => destruct c
             end;
        simpl; tauto.
  - simpl. tauto.
Qed.

Lemma listing_rapid (fetch : result (list listingRow)) :
  In "Rapid listing activity"%string (patterns (analyzeListingBehavior fetch))
  <-> exists products, fetch = Ok products
                       /\ (10 < List.length (filter recent products))%nat.
Proof.
  unfold analyzeListingBehavior, try_or, rbind.
  destruct fetch as [products | m].
  - destruct (List.length products =? 0)%nat eqn:Hempty.
    + apply Nat.eqb_eq in Hempty. destruct products; [| discriminate].
      simpl. split.
      * intros [H | []]. discriminate H.
      * intros [ps [Heq Hlt]]. injection Heq as <-. simpl in Hlt. lia.
    + cbv zeta. cbn [patterns]. unfold getListingPatterns.
      rewrite !in_app_iff.
      destruct (10 <? List.length (filter recent products))%nat eqn:Hrapid.
      * apply Nat.ltb_lt in Hrapid. split.
        -- intros _. exists products. split; [reflexivity | exact Hrapid].
        -- intros _. left. left. reflexivity.
      * apply Nat.ltb_ge in Hrapid. split.
        -- intros [[] | Hrest]. exfalso.
           repeat match type of Hrest with
                  | context [if ?c then [_] else []] => destruct c
                  end;
             simpl in Hrest;
             repeat (destruct Hrest as [Hrest | Hrest];
                     try discriminate Hrest; try contradiction).
        -- intros [ps [Heq Hlt]]. injection Heq as <-. lia.
  - simpl. split.
    + intros [H | []]. discriminate H.
    + intros [ps [Heq _]]. discriminate Heq.
Qed.

Ltac other_pattern H :=
  repeat (destruct H as [H | H];
          [try discriminate H; try (destruct H as [_ H]; discriminate H) |]);
  try contradiction; try (destruct H as [_ H]; discriminate H).

(** X26.  [monitorUserBehavior] rejects only when the user lookup
    does, and returns nothing for an unknown user.  For a known user it
    resolves whatever the listing query or the status update do: the
    score is between 0 and 1, the level is one of the four, the actions
    are distinct and not empty and are all passed to [executeActions];
    escrow is required exactly when the dispute rate exceeds 0.05, the
    content is reviewed exactly when spam keywords were counted, the
    listing frequency is limited exactly when more than 10 listings of
    the fetched ones are recent; and nothing is stored exactly when
    the update rejects. *)
Theorem monitoring_of_one_user (env : environment) :
  match user_lookup env with
  | Throw m =>
      monitorUserBehavior env
      = Throw ("Behavior monitoring failed: " ++ m)%string
  | Ok None => monitorUserBehavior env = Ok None
  | Ok (Some days) =>
      exists r, monitorUserBehavior env = Ok (Some r)
        /\ 0 <= behaviorScore r <= 1
        /\ In (riskLevel r) ["low"; "medium"; "high"; "critical"]%string
        /\ actions r <> [] /\ NoDup (actions r)
        /\ executed r = executeActions (actions r)
        /\ (In "escrow_required"%string (actions r)
            <-> disputeRate (transaction_draws env) > 0.05)
        /\ (In "content_review"%string (actions r)
            <-> spamKeywords (communication_draws env) > 0)
        /\ (In "limit_listing_frequency"%string (actions r)
            <-> exists products,
                 listings env = Ok products
                 /\ (10 < List.length (filter recent products))%nat)
        /\ (stored r = None <-> exists m, user_update env = Throw m)
  end.
Proof.
  unfold monitorUserBehavior, try_catch, rbind.
  destruct (user_lookup env) as [[days |] | m]; try reflexivity.
  cbv zeta. eexists. split; [reflexivity |].
  cbn [behaviorScore riskLevel actions executed stored].
  split; [| split; [| split; [| split; [| split; [| split; [| split;
                                                              [| split]]]]]]].
  - apply ScoreMoreFacts.Q_behavior_score_unit.
    intros c an v Hin Hv. simpl in Hin.
    destruct Hin as [Heq | [Heq | [Heq | [Heq | []]]]];
      injection Heq as _ <-;
      (eapply consistent_numeric; [| exact Hv]).
    + apply listing_consistent.
    + apply communication_consistent.
    + apply transaction_consistent.
    + apply account_consistent.
  - apply determineRiskLevel_known.
  - apply known_level_has_actions. apply determineRiskLevel_known.
  - apply dedupe_NoDup.
  - destruct (determineActions _ _); reflexivity.
  - rewrite escrow_triggered. split.
    + intros [a [Ha Hin]]. simpl in Ha.
      destruct Ha as [<- | [<- | [<- | [<- | []]]]].
      * apply listing_pattern_cases in Hin. simpl in Hin. other_pattern Hin.
      * apply communication_pattern in Hin. other_pattern Hin.
      * apply transaction_pattern in Hin.
        repeat (destruct Hin as [Hin | Hin];
                [destruct Hin as [_ Hin]; discriminate Hin |]).
        apply Hin.
      * apply account_pattern in Hin. other_pattern Hin.
    + intros Hrate.
      exists (analyzeTransactionBehavior (transaction_draws env)).
      split; [simpl; tauto |].
      apply transaction_pattern. repeat right. split; [exact Hrate | reflexivity].
  - rewrite review_triggered. split.
    + intros [a [Ha Hin]]. simpl in Ha.
      destruct Ha as [<- | [<- | [<- | [<- | []]]]].
      * apply listing_pattern_cases in Hin. simpl in Hin. other_pattern Hin.
      * apply communication_pattern in Hin.
        destruct Hin as [[_ Hin] | [[_ Hin] | [Hin | Hin]]];
          try discriminate Hin; [apply Hin |].
        other_pattern Hin.
      * apply transaction_pattern in Hin. other_pattern Hin.
      * apply account_pattern in Hin. other_pattern Hin.
    + intros Hspam.
      exists (analyzeCommunicationBehavior (communication_draws env)).
      split; [simpl; tauto |].
      apply communication_pattern. right. right. left.
      split; [exact Hspam | reflexivity].
  - rewrite limit_triggered. split.
    + intros [a [Ha Hin]]. simpl in Ha.
      destruct Ha as [<- | [<- | [<- | [<- | []]]]].
      * apply listing_rapid. exact Hin.
      * apply communication_pattern in Hin. other_pattern Hin.
      * apply transaction_pattern in Hin. other_pattern Hin.
      * apply account_pattern in Hin. other_pattern Hin.
    + intros Hrapid.
      exists (analyzeListingBehavior (listings env)).
      split; [simpl; tauto |]. apply listing_rapid. exact Hrapid.
  - unfold updateUserBehaviorStatus, try_or, rbind.
    destruct (user_update env) as [[] | m]; simpl.
    + split; [discriminate | intros [m Hm]; discriminate Hm].
    + split; [intros _; exists m; reflexivity | reflexivity].
Qed.

Lemma unhandled_actions_are_dropped_witness :
  executeActions (determineActions "low" [analysis_failed]) = []
  /\ executeActions (determineActions "critical" [analysis_failed])
     = ["suspendAccount"; "flagForReview"]%string.
Proof.
  apply (proj1 (proj2 unhandled_actions_are_dropped) [analysis_failed]).
  intros a [<- | []]. reflexivity.
Defined.

End BehaviorFacts.

(** ** Scores in the unit interval, and batches *)

Module BatchFacts.
Import Aggregation Analyzers SellerScore Batch ScoreMoreFacts.

Local Open Scope Q_scope.

Lemma qlen_cons {A} (x : A) (l : list A) : qlen (x :: l) == 1 + qlen l.
Proof.
  unfold qlen. cbn [List.length].
  rewrite Nat2Z.inj_succ, <- Z.add_1_l, inject_Z_plus. reflexivity.
Qed.


Lemma qsum_lower (lo : Q) (l : list Q) (a : Q) :
  (forall x, In x l -> lo <= x) ->
  a + lo * qlen l <= fold_left Qplus l a.
Proof.
  revert a. induction l as [| x rest IH]; intros a Hlo.
  - unfold qlen. cbn [List.length Z.of_nat fold_left].
    change (inject_Z 0) with 0. lra.
  - cbn [fold_left]. rewrite qlen_cons.
    specialize (IH (a + x) (fun y Hy => Hlo y (or_intror Hy))).
    pose proof (Hlo x (or_introl eq_refl)).
    eapply Qle_trans; [| exact IH]. ring_simplify. lra.
Qed.

Lemma qsum_upper (hi : Q) (l : list Q) (a : Q) :
  (forall x, In x l -> x <= hi) ->
  fold_left Qplus l a <= a + hi * qlen l.
Proof.
  revert a. induction l as [| x rest IH]; intros a Hhi.
  - unfold qlen. cbn [List.length Z.of_nat fold_left].
    change (inject_Z 0) with 0. lra.
  - cbn [fold_left]. rewrite qlen_cons.
    specialize (IH (a + x) (fun y Hy => Hhi y (or_intror Hy))).
    pose proof (Hhi x (or_introl eq_refl)).
    eapply Qle_trans; [exact IH |]. ring_simplify. lra.
Qed.

Lemma mean_lower (lo : Q) (l : list Q) :
  (0 < List.length l)%nat -> (forall x, In x l -> lo <= x) ->
  lo <= qsum l / qlen l.
Proof.
  intros Hlen Hlo. apply Qle_shift_div_l; [apply qlen_pos; exact Hlen |].
  pose proof (qsum_lower lo l 0 Hlo). unfold qsum. lra.
Qed.

Lemma mean_upper (hi : Q) (l : list Q) :
  (0 < List.length l)%nat -> (forall x, In x l -> x <= hi) ->
  qsum l / qlen l <= hi.
Proof.
  intros Hlen Hhi. apply Qle_shift_div_r; [apply qlen_pos; exact Hlen |].
  pose proof (qsum_upper hi l 0 Hhi). unfold qsum. lra.
Qed.




Lemma fraud_unit (fetch : result (list productRow)) (f : productRow -> Q) :
  (forall p, 0 <= f p <= 1) -> unit_score (calculateFraudScore fetch f).
Proof.
  intros Hf. unfold calculateFraudScore, try_or, rbind, unit_score.
  destruct fetch as [products | m].
  - destruct (List.length products =? 0)%nat eqn:Hempty.
    + eexists. split; [reflexivity | split; discriminate].
    + apply Nat.eqb_neq in Hempty. cbv zeta. eexists.
      split; [reflexivity |].
      assert (Hlen : (0 < List.length (map f products))%nat)
        by (rewrite length_map; lia).
      split.
      * apply mean_lower; [exact Hlen |].
        intros x Hx. apply in_map_iff in Hx as [p [<- _]]. apply Hf.
      * apply mean_upper; [exact Hlen |].
        intros x Hx. apply in_map_iff in Hx as [p [<- _]]. apply Hf.
  - eexists. split; [reflexivity | split; discriminate].
Qed.














(** *** Batches *)

Lemma fulfilled_iff_user_found (uid : Z) (env : environment) :
  fulfilled (calculateSellerScore uid env) = user_found env.
Proof.
  unfold calculateSellerScore, user_found, try_catch, rbind.
  destruct (user_lookup env) as [[name |] | m]; reflexivity.
Qed.

Lemma rejected_negb {A} (r : result A) : rejected r = negb (fulfilled r).
Proof. destruct r; reflexivity. Qed.

Lemma filter_map_length {A B} (f : A -> B) (p : B -> bool) (l : list A) :
  List.length (filter p (map f l))
  = List.length (filter (fun a => p (f a)) l).
Proof.
  induction l as [| a rest IH]; simpl; [reflexivity |].
  destruct (p (f a)); simpl; rewrite IH; reflexivity.
Qed.

Lemma filter_split_length {A} (p : A -> bool) (l : list A) :
  (List.length (filter p l) + List.length (filter (fun a => negb (p a)) l)
   = List.length l)%nat.
Proof.
  induction l as [| a rest IH]; simpl; [reflexivity |].
  destruct (p a); simpl; lia.
Qed.

Lemma combine_map_fst {A B} (f : A -> B) (l : list A) :
  map fst (combine l (map f l)) = l.
Proof. induction l as [| a rest IH]; simpl; [| rewrite IH]; reflexivity. Qed.

Lemma combine_map_In {A B} (f : A -> B) (l : list A) (a : A) (b : B) :
  In (a, b) (combine l (map f l)) -> b = f a.
Proof.
  induction l as [| x rest IH]; simpl; [intros [] |].
  intros [H | H]; [injection H as <- <-; reflexivity | exact (IH H)].
Qed.

(** X28.  [batchCalculateScores] always resolves and accounts for every
    id: the outcomes are listed in the order of the ids, each the
    outcome of that seller's own run, the successful and failed counts
    add up to the number processed, and a run counts as successful
    exactly when its user row was found, since every other failure is
    absorbed inside the run. *)
Theorem batch_accounts_for_every_seller (envs : Z -> environment)
        (userIds : list Z) :
  exists b, batchCalculateScores envs userIds = Ok b
    /\ processed b = List.length userIds
    /\ (successful b + failed b = processed b)%nat
    /\ successful b
       = List.length (filter (fun uid => user_found (envs uid)) userIds)
    /\ map fst (results b) = userIds
    /\ (forall uid out, In (uid, out) (results b) ->
                        out = calculateSellerScore uid (envs uid)).
Proof.
  unfold batchCalculateScores, try_catch. cbv zeta.
  eexists. split; [reflexivity |].
  cbn [processed successful failed results].
  split; [reflexivity |]. split; [| split; [| split]].
  - rewrite (filter_ext _ _ (@rejected_negb sellerScoreResult)).
    rewrite filter_split_length. apply length_map.
  - rewrite filter_map_length. f_equal. apply filter_ext.
    intros uid. apply fulfilled_iff_user_found.
  - apply combine_map_fst.
  - intros uid out Hin.
    exact (combine_map_In (fun userId =>
                             calculateSellerScore userId (envs userId))
                          userIds uid out Hin).
Qed.

End BatchFacts.

(** ** Fraud analysis of a product *)

Module FraudFacts.
Import Fraud.

Local Open Scope Q_scope.

Lemma nothing_tidy : tidy nothing.
Proof. left. split; reflexivity. Qed.

Lemma add_tidy (p : Q) (i : string) (a : check) :
  0 < p -> tidy a -> tidy (add p i a).
Proof.
  intros Hp Ha. right. unfold add. simpl. split.
  - intros Hnil. apply app_eq_nil in Hnil as [_ Hnil]. discriminate.
  - destruct Ha as [[_ H] | [_ H]]; lra.
Qed.

Lemma cond_tidy (c : bool) (p : Q) (i : string) (a : check) :
  0 < p -> tidy a -> tidy (if c then add p i a else a).
Proof. intros Hp Ha. destruct c; [apply add_tidy |]; assumption. Qed.

Lemma tidy_nonneg (a : check) : tidy a -> 0 <= riskScore a.
Proof. intros [[_ H] | [_ H]]; lra. Qed.

Lemma tidy_zero (a : check) :
  tidy a -> (riskScore a == 0 <-> indicators a = []).
Proof.
  intros [[Hnil Hzero] | [Hsome Hpos]]; split; intros H;
    try assumption; try contradiction; lra.
Qed.

Ltac tidy_steps :=
  repeat first
    [ apply nothing_tidy
    | apply cond_tidy; [reflexivity |]
    | apply add_tidy; [reflexivity |] ].

Lemma analyzeDescription_tidy (description : option string) :
  tidy (analyzeDescription description).
Proof.
  unfold analyzeDescription.
  destruct description as [[| c rest] |]; try solve [tidy_steps].
  cbv zeta. repeat (apply cond_tidy; [reflexivity |]).
  match goal with
  | |- tidy (if (0 <? List.length ?l)%nat then _ else _) =>
      destruct (0 <? List.length l)%nat eqn:Hfound
  end; [| apply nothing_tidy].
  apply Nat.ltb_lt in Hfound. apply add_tidy; [| apply nothing_tidy].
  pose proof (ScoreMoreFacts.qlen_pos _ Hfound). lra.
Qed.

Lemma analyzePrice_tidy (similar : result (list Q)) (price : Q) :
  tidy (analyzePrice similar price).
Proof.
  unfold analyzePrice. destruct similar as [similarProducts | m];
    [| apply nothing_tidy].
  cbv zeta. apply cond_tidy; [reflexivity |].
  destruct (0 <? List.length similarProducts)%nat; [| apply nothing_tidy].
  match goal with
  | |- tidy (if ?c then _ else _) => destruct c
  end; [tidy_steps |].
  tidy_steps.
Qed.

Lemma analyzeSellerBehavior_tidy (q : sellerQueries) :
  tidy (analyzeSellerBehavior q).
Proof.
  unfold analyzeSellerBehavior.
  destruct (seller q) as [[days |] | m]; try solve [tidy_steps].
  cbv zeta.
  destruct (highValueProducts q) as [highValue | m]; [| tidy_steps].
  destruct (recentProducts q) as [recentCount | m]; [| tidy_steps].
  destruct (allSellerProducts q) as [names | m]; tidy_steps.
Qed.

Lemma checkForDuplicates_tidy (similar : result (list (Z * string)))
      (name : string) :
  tidy (checkForDuplicates similar name).
Proof.
  unfold checkForDuplicates. destruct similar as [similarProducts | m];
    [| apply nothing_tidy].
  destruct (0 <? List.length similarProducts)%nat; [| apply nothing_tidy].
  cbv zeta. tidy_steps.
Qed.

Lemma low_risk_thresholds (r : Q) :
  r <= 0.2 ->
  qgt r 0.7 = false /\ qgt r 0.4 = false /\ qgt r 0.2 = false.
Proof.
  intros Hr. unfold qgt.
  repeat split; apply negb_false_iff; apply Qle_bool_iff; lra.
Qed.

Lemma analyzeProduct_bounds (p : product) :
  0 <= score (analyzeProduct p) <= 1.
Proof.
  unfold analyzeProduct. cbv zeta. cbn [score].
  pose proof (tidy_nonneg _ (analyzeDescription_tidy (descrption p))).
  pose proof (tidy_nonneg _ (analyzePrice_tidy (similar_prices p) (price p))).
  pose proof (tidy_nonneg _ (analyzeSellerBehavior_tidy (seller_queries p))).
  pose proof (tidy_nonneg _ (checkForDuplicates_tidy (similar_products p)
                                                     (name p))).
  match goal with
  | |- 0 <= 1 - qmin ?t ?c <= 1 =>
      pose proof (ScoreMoreFacts.capped_at_one t);
      assert (0 <= qmin t c)
        by (apply ScoreMoreFacts.qmin_glb; [lra | discriminate])
  end.
  lra.
Qed.

(** X29.  [analyzeProduct] returns a trust score between 0 and 1
    whatever its queries answer; the score is 1 exactly when no check
    found an indicator, and then the reason is "Minimal fraud risk" and
    the only recommendation says that the product appears legitimate;
    there is always a recommendation; and a product without a
    description never scores above 0.8.  So the fraud component of the
    seller score, the mean of these scores, is between 0 and 1. *)
Theorem product_analysis_is_bounded_and_tidy :
  (forall p, 0 <= score (analyzeProduct p) <= 1)
  /\ (forall p, score (analyzeProduct p) == 1 <-> found (analyzeProduct p) = [])
  /\ (forall p, found (analyzeProduct p) = [] ->
        reason (analyzeProduct p) = "Minimal fraud risk"%string
        /\ recommendations (analyzeProduct p)
           = ["LOW RISK: Product appears legitimate"%string])
  /\ (forall p, recommendations (analyzeProduct p) <> [])
  /\ (forall p, descrption p = None ->
        score (analyzeProduct p) <= 0.8
        /\ In "No product description provided"%string
              (found (analyzeProduct p)))
  /\ (forall fetch (inputs : Analyzers.productRow -> product),
        Batch.unit_score
          (Analyzers.calculateFraudScore fetch
             (fun row => score (analyzeProduct (inputs row))))).
Proof.
  split; [exact analyzeProduct_bounds |].
  assert (Hzero : forall p,
             riskScore (analyzeDescription (descrption p))
             + riskScore (analyzePrice (similar_prices p) (price p))
             + riskScore (analyzeSellerBehavior (seller_queries p))
             + riskScore (checkForDuplicates (similar_products p) (name p))
             == 0
             <-> found (analyzeProduct p) = []).
  { intros p. unfold analyzeProduct. cbv zeta. cbn [found].
    pose proof (analyzeDescription_tidy (descrption p)) as Hd.
    pose proof (analyzePrice_tidy (similar_prices p) (price p)) as Hp.
    pose proof (analyzeSellerBehavior_tidy (seller_queries p)) as Hs.
    pose proof (checkForDuplicates_tidy (similar_products p) (name p)) as Hc.
    pose proof (tidy_nonneg _ Hd). pose proof (tidy_nonneg _ Hp).
    pose proof (tidy_nonneg _ Hs). pose proof (tidy_nonneg _ Hc).
    pose proof (tidy_zero _ Hd) as Zd. pose proof (tidy_zero _ Hp) as Zp.
    pose proof (tidy_zero _ Hs) as Zs. pose proof (tidy_zero _ Hc) as Zc.
    split.
    - intros Hsum.
      assert (E1 : riskScore (analyzeDescription (descrption p)) == 0) by lra.
      assert (E2 : riskScore (analyzePrice (similar_prices p) (price p)) == 0)
        by lra.
      assert (E3 : riskScore (analyzeSellerBehavior (seller_queries p)) == 0)
        by lra.
      assert (E4 : riskScore (checkForDuplicates (similar_products p) (name p))
                   == 0) by lra.
      apply Zd in E1. apply Zp in E2. apply Zs in E3. apply Zc in E4.
      rewrite E1, E2, E3, E4. reflexivity.
    - intros Hnil.
      apply app_eq_nil in Hnil as [E1 Hnil].
      apply app_eq_nil in Hnil as [E2 Hnil].
      apply app_eq_nil in Hnil as [E3 E4].
      apply Zd in E1. apply Zp in E2. apply Zs in E3. apply Zc in E4.
      lra. }
  assert (Hcap : forall t, 0 <= t -> (1 - qmin t 1.0 == 1 <-> t == 0)).
  { intros t Ht. unfold qmin. destruct (Qle_bool t 1.0) eqn:E.
    - split; intros; lra.
    - assert (~ t <= 1.0) by (intros H; apply Qle_bool_iff in H; congruence).
      split; intros; lra. }
  assert (Hnonneg : forall p,
             0 <= 0 + riskScore (analyzeDescription (descrption p))
                  + riskScore (analyzePrice (similar_prices p) (price p))
                  + riskScore (analyzeSellerBehavior (seller_queries p))
                  + riskScore (checkForDuplicates (similar_products p)
                                                  (name p))).
  { intros p.
    pose proof (tidy_nonneg _ (analyzeDescription_tidy (descrption p))).
    pose proof (tidy_nonneg _ (analyzePrice_tidy (similar_prices p) (price p))).
    pose proof (tidy_nonneg _ (analyzeSellerBehavior_tidy (seller_queries p))).
    pose proof (tidy_nonneg _ (checkForDuplicates_tidy (similar_products p)
                                                       (name p))).
    lra. }
  split; [| split; [| split; [| split]]].
  - intros p. rewrite <- Hzero.
    unfold analyzeProduct. cbv zeta. cbn [score].
    rewrite (Hcap _ (Hnonneg p)). split; intros; lra.
  - intros p Hnil. pose proof (proj2 (Hzero p) Hnil) as Hsum.
    unfold analyzeProduct in *. cbv zeta in *. cbn [found reason
                                                      recommendations] in *.
    rewrite Hnil.
    match goal with
    | |- context [qmin ?t ?c] =>
        assert (Hlow : qmin t c <= 0.2)
          by (pose proof (proj1 (ScoreMoreFacts.qmin_bounds t c)); lra)
    end.
    destruct (low_risk_thresholds _ Hlow) as [H7 [H4 H2]].
    unfold getRiskReason, generateRecommendations.
    rewrite H7, H4, H2. split; reflexivity.
  - intros p. unfold analyzeProduct. cbv zeta. cbn [recommendations].
    unfold generateRecommendations.
    repeat match goal with
           | |- context [if ?c then _ else _] => destruct c
           end; discriminate.
  - intros p Hnone. unfold analyzeProduct. cbv zeta. cbn [score found].
    rewrite Hnone. cbn [analyzeDescription add nothing riskScore indicators app].
    split.
    + pose proof (tidy_nonneg _ (analyzePrice_tidy (similar_prices p)
                                                   (price p))).
      pose proof (tidy_nonneg _ (analyzeSellerBehavior_tidy
                                   (seller_queries p))).
      pose proof (tidy_nonneg _ (checkForDuplicates_tidy (similar_products p)
                                                         (name p))).
      match goal with
      | |- 1 - qmin ?t ?c <= _ =>
          assert (0.2 <= qmin t c)
            by (apply ScoreMoreFacts.qmin_glb; [lra | discriminate])
      end.
      lra.
    + left. reflexivity.
  - intros fetch inputs. apply BatchFacts.fraud_unit.
    intros row. apply analyzeProduct_bounds.
Qed.

Lemma product_analysis_is_bounded_and_tidy_witness :
  score (analyzeProduct Cases.undescribed) <= 0.8
  /\ In "No product description provided"%string
        (found (analyzeProduct Cases.undescribed)).
Proof.
  apply (proj1 (proj2 (proj2 (proj2 (proj2
           product_analysis_is_bounded_and_tidy)))) Cases.undescribed).
  reflexivity.
Defined.

End FraudFacts.
